(** * GIM: gym-management back end (ArlindoGSN/gim)

    A shallow embedding of the relational store declared in
    [src/database/connection.py] ([init_database]: tables, keys, cascades,
    the seat trigger and the plan-upgrade function), of the query layer
    [src/database/queries.py] and of the routes of [src/routes/api.py],
    followed by the properties of the specification.

    Conventions of the embedding.
    - A table is the list of its rows: [INSERT] adds a row, [UPDATE ...
      WHERE] maps over the rows, [DELETE ... WHERE] filters them and
      follows the [ON DELETE CASCADE] references.  The position of a row
      in the list means nothing: a query returns its rows in the order of
      its [ORDER BY], and in an order that is not known where it has none.
    - An [INSERT] or [UPDATE] first converts the values it is given to the
      types of their columns ([INTEGER], [VARCHAR(n)], [NUMERIC(p,2)]) and
      fails when one does not fit.  Integrity constraints (primary keys,
      [UNIQUE], foreign keys, [CHECK], the [BEFORE INSERT] trigger) are
      checked next.  A statement that fails answers with a [PgError].
    - [NUMERIC(p,2)] columns hold integers counted in hundredths; dates are
      day numbers; text is a string of UTF-8 bytes.  Columns the schema
      leaves nullable but the routes always fill ([sexo],
      [quantidade_vagas]) are not optional here; [descricao] and [email]
      are.
    - A connection carries the tables as of the last commit, the tables of
      the open transaction, and the sequences, which are never rolled
      back. *)

From Stdlib Require Import ZArith List String Ascii Bool Lia Permutation.
Import ListNotations.
Open Scope string_scope.
Open Scope Z_scope.

Set Implicit Arguments.

(** ** Enumerations of [schemas.py] *)

Inductive SexoEnum : Type := MASCULINO | FEMININO.
Inductive TurnoEnum : Type := MANHA | TARDE | NOITE.

Definition date : Type := Z.

(** ** Rows of the tables of [init_database] *)

Record plano_row : Type := mk_plano {
  pl_codigo_plano : Z;
  pl_nome_plano : string;
  pl_preco : Z;
  pl_descricao : option string
}.

Record aluno_row : Type := mk_aluno {
  al_matricula : Z;
  al_cpf : string;
  al_nome : string;
  al_sexo : SexoEnum;
  al_data_nascimento : date;
  al_data_matricula : date;
  al_codigo_plano : Z
}.

Record contato_aluno_row : Type := mk_contato_aluno {
  ca_telefone : string;
  ca_email : option string;
  ca_matricula : Z
}.

Record bioimpedancia_row : Type := mk_bioimpedancia {
  bi_matricula : Z;
  bi_peso : Z;
  bi_altura : Z;
  bi_tmb : Z;
  bi_percentual_gordura : Z;
  bi_quantidade_agua : Z
}.

Record instrutor_row : Type := mk_instrutor {
  in_cref : Z;
  in_cpf : string;
  in_nome : string;
  in_data_nascimento : date;
  in_data_admissao : date;
  in_turno : TurnoEnum
}.

Record contato_instrutor_row : Type := mk_contato_instrutor {
  ci_telefone : string;
  ci_email : option string;
  ci_cref : Z
}.

Record turma_row : Type := mk_turma {
  tu_id_turma : Z;
  tu_nome_atividade : string;
  tu_quantidade_vagas : Z;
  tu_turno : TurnoEnum;
  tu_cref : Z
}.

(** A row of [turma_instrutor_aluno]: [(id_turma, matricula)]. *)
Definition matricula_turma_row : Type := (Z * Z)%type.

Record Tables : Type := mk_tables {
  plano : list plano_row;
  aluno : list aluno_row;
  contato_aluno : list contato_aluno_row;
  bioimpedancia : list bioimpedancia_row;
  instrutor : list instrutor_row;
  contato_instrutor : list contato_instrutor_row;
  turma : list turma_row;
  turma_instrutor_aluno : list matricula_turma_row
}.

(** The [SERIAL] columns: last value handed out by each sequence. *)
Record Seqs : Type := mk_seqs {
  plano_codigo_plano_seq : Z;
  aluno_matricula_seq : Z;
  turma_id_turma_seq : Z
}.

Definition set_plano (l : list plano_row) (t : Tables) : Tables :=
  mk_tables l (aluno t) (contato_aluno t) (bioimpedancia t) (instrutor t)
            (contato_instrutor t) (turma t) (turma_instrutor_aluno t).
Definition set_aluno (l : list aluno_row) (t : Tables) : Tables :=
  mk_tables (plano t) l (contato_aluno t) (bioimpedancia t) (instrutor t)
            (contato_instrutor t) (turma t) (turma_instrutor_aluno t).
Definition set_contato_aluno (l : list contato_aluno_row) (t : Tables) : Tables :=
  mk_tables (plano t) (aluno t) l (bioimpedancia t) (instrutor t)
            (contato_instrutor t) (turma t) (turma_instrutor_aluno t).
Definition set_bioimpedancia (l : list bioimpedancia_row) (t : Tables) : Tables :=
  mk_tables (plano t) (aluno t) (contato_aluno t) l (instrutor t)
            (contato_instrutor t) (turma t) (turma_instrutor_aluno t).
Definition set_instrutor (l : list instrutor_row) (t : Tables) : Tables :=
  mk_tables (plano t) (aluno t) (contato_aluno t) (bioimpedancia t) l
            (contato_instrutor t) (turma t) (turma_instrutor_aluno t).
Definition set_contato_instrutor (l : list contato_instrutor_row) (t : Tables) : Tables :=
  mk_tables (plano t) (aluno t) (contato_aluno t) (bioimpedancia t) (instrutor t)
            l (turma t) (turma_instrutor_aluno t).
Definition set_turma (l : list turma_row) (t : Tables) : Tables :=
  mk_tables (plano t) (aluno t) (contato_aluno t) (bioimpedancia t) (instrutor t)
            (contato_instrutor t) l (turma_instrutor_aluno t).
Definition set_turma_instrutor_aluno (l : list matricula_turma_row) (t : Tables) : Tables :=
  mk_tables (plano t) (aluno t) (contato_aluno t) (bioimpedancia t) (instrutor t)
            (contato_instrutor t) (turma t) l.

(** The store right after [init_database]: every table dropped and created
    again, every sequence fresh. *)
Definition empty_tables : Tables := mk_tables [] [] [] [] [] [] [] [].
Definition fresh_seqs : Seqs := mk_seqs 0 0 0.

(** ** Errors *)

(** What the store answers to a refused statement; the string names the
    constraint, or carries the text of a [RAISE EXCEPTION].
    [DataException] is a value that does not fit the type of its column
    ("integer out of range", "value too long for type character
    varying(n)", "numeric field overflow"); [SequenceLimit] is [nextval] on
    a sequence that has reached its last value. *)
Inductive PgError : Type :=
| UniqueViolation (constraint : string)
| ForeignKeyViolation (constraint : string)
| CheckViolation (constraint : string)
| RaiseException (message : string)
| DataException
| SequenceLimit (sequence : string).

(** Python exceptions of the query layer and of the routes.
    [QueryError e] is [Exception(f"Erro ao executar query: {str(e)}")] as
    raised by [execute_query]; [ValidationError m f] is pydantic refusing
    field [f] of model [m]. *)
Inductive PyException : Type :=
| PyExc (message : string)
| QueryError (e : PgError)
| ValidationError (model field : string)
| HTTPExc (status_code : Z) (detail : string).

(** ** Column types

    The types that [init_database] gives the columns, as tests on the
    values of a statement and as the values that are stored. *)

(** [INTEGER], and the [integer] sequence behind a [SERIAL] column. *)
Definition int4_ok (v : Z) : bool := (-2147483648 <=? v) && (v <=? 2147483647).

(** [VARCHAR(n)] counts characters; in UTF-8 a byte [10xxxxxx] continues
    the character before it. *)
Definition is_continuation (c : ascii) : bool :=
  let b := nat_of_ascii c in (128 <=? b)%nat && (b <? 192)%nat.

Fixpoint char_length (s : string) : nat :=
  match s with
  | EmptyString => 0%nat
  | String c r => ((if is_continuation c then 0 else 1) + char_length r)%nat
  end.

Fixpoint has_nul (s : string) : bool :=
  match s with
  | EmptyString => false
  | String c r => (nat_of_ascii c =? 0)%nat || has_nul r
  end.

(** The first [n] characters of [s], and what comes after them. *)
Fixpoint take_chars (n : nat) (s : string) : string :=
  match s with
  | EmptyString => EmptyString
  | String c r =>
      if is_continuation c then String c (take_chars n r)
      else match n with
           | O => EmptyString
           | S k => String c (take_chars k r)
           end
  end.

Fixpoint drop_chars (n : nat) (s : string) : string :=
  match s with
  | EmptyString => EmptyString
  | String c r =>
      if is_continuation c then drop_chars n r
      else match n with
           | O => s
           | S k => drop_chars k r
           end
  end.

Fixpoint all_spaces (s : string) : bool :=
  match s with
  | EmptyString => true
  | String c r => (nat_of_ascii c =? 32)%nat && all_spaces r
  end.

(** A text is stored in a [VARCHAR(n)] column when it has at most [n]
    characters, or when what exceeds them is spaces only, which are then
    cut off.  A text that holds a NUL character is never stored: neither
    the driver nor the store takes it. *)
Definition varchar_ok (n : nat) (s : string) : bool :=
  negb (has_nul s) && ((char_length s <=? n)%nat || all_spaces (drop_chars n s)).

Definition varchar (n : nat) (s : string) : string := take_chars n s.

Definition opt_varchar_ok (n : nat) (o : option string) : bool :=
  match o with Some s => varchar_ok n s | None => true end.

Definition opt_varchar (n : nat) (o : option string) : option string :=
  option_map (varchar n) o.

(** A Python [float] as the driver writes it into a statement: the decimal
    number [mantissa * 10 ^ (- scale)] that it prints as, or an infinity.
    Every [float] field of [schemas.py] carries a bound ([gt], [ge]) that
    [nan] does not pass. *)
Inductive pyfloat : Type :=
| Dec (mantissa : Z) (scale : nat)
| Inf (negative : bool).

(** [n / d] rounded to the nearest integer, halves away from zero. *)
Definition round_half_away (n d : Z) : Z :=
  if n <? 0 then - ((2 * - n + d) / (2 * d)) else (2 * n + d) / (2 * d).

(** The value that a [NUMERIC(p,2)] column keeps of a number: its
    hundredths, rounded. *)
Definition hundredths (v : pyfloat) : Z :=
  match v with
  | Dec m s =>
      if (s <=? 2)%nat then m * 10 ^ Z.of_nat (2 - s)
      else round_half_away m (10 ^ Z.of_nat (s - 2))
  | Inf _ => 0
  end.

(** [NUMERIC(p,2)] holds the numbers whose rounded value has at most [p]
    digits. *)
Definition numeric_ok (p : Z) (v : pyfloat) : bool :=
  match v with
  | Dec _ _ => Z.abs (hundredths v) <? 10 ^ p
  | Inf _ => false
  end.

(** ** Generic helpers on tables *)

Definition mem_Z (x : Z) (l : list Z) : bool := existsb (Z.eqb x) l.
Definition mem_string (x : string) (l : list string) : bool := existsb (String.eqb x) l.

Fixpoint nodup_Zb (l : list Z) : bool :=
  match l with
  | [] => true
  | x :: r => negb (mem_Z x r) && nodup_Zb r
  end.

Fixpoint nodup_stringb (l : list string) : bool :=
  match l with
  | [] => true
  | x :: r => negb (mem_string x r) && nodup_stringb r
  end.

(** [UPDATE tbl SET ... WHERE cond]: every row that matches is rewritten. *)
Definition sql_update {A : Type} (cond : A -> bool) (set : A -> A) (l : list A) : list A :=
  map (fun r => if cond r then set r else r) l.

(** [DELETE FROM tbl WHERE cond]. *)
Definition sql_delete {A : Type} (cond : A -> bool) (l : list A) : list A :=
  filter (fun r => negb (cond r)) l.

(** An optional argument of an [update_*] function: [None] keeps the
    stored value. *)
Definition opt_set {A : Type} (o : option A) (old : A) : A :=
  match o with Some v => v | None => old end.
Definition opt_set_nullable {A : Type} (o : option A) (old : option A) : option A :=
  match o with Some v => Some v | None => old end.

(** [ORDER BY]: insertion sort on a comparison. *)
Fixpoint insert_sorted {A : Type} (leb : A -> A -> bool) (x : A) (l : list A) : list A :=
  match l with
  | [] => [x]
  | y :: r => if leb x y then x :: y :: r else y :: insert_sorted leb x r
  end.

Definition order_by {A : Type} (leb : A -> A -> bool) (l : list A) : list A :=
  fold_right (insert_sorted leb) [] l.

(** Python's [l[start:stop]] for integer bounds of either sign. *)
Definition py_clamp (len i : Z) : Z :=
  if i <? 0 then Z.max 0 (i + len) else Z.min i len.

Definition py_slice {A : Type} (l : list A) (start stop : Z) : list A :=
  let len := Z.of_nat (List.length l) in
  let lo := py_clamp len start in
  let hi := py_clamp len stop in
  firstn (Z.to_nat (hi - lo)) (skipn (Z.to_nat lo) l).

(** The order in which the store hands out the rows of a result that no
    [ORDER BY] puts in order: it depends on where the rows lie on disk, which
    the tables above do not say.  All that is known of it is that it returns
    the rows it was given, each once. *)
Record Scan : Type := mk_scan {
  scan_rows : forall A : Type, list A -> list A;
  scan_perm : forall (A : Type) (l : list A), Permutation (scan_rows l) l
}.

(** ** Statements

    A statement runs on the tables of the open transaction and on the
    sequences.  It either fails, leaving the tables alone, or returns a
    result and the new tables.  A sequence that was advanced stays advanced
    in both cases. *)

Definition Stmt (A : Type) : Type :=
  Tables -> Seqs -> (PgError + A * Tables) * Seqs.

(** A [SELECT]. *)
Definition sql_select {A : Type} (f : Tables -> A) : Stmt A :=
  fun t q => (inr (f t, t), q).

(** The constraints of an [UPDATE] are evaluated on the rows it rewrote. *)
Definition touched_ok {A : Type} (cond chk : A -> bool) (l : list A) : bool :=
  forallb (fun r => implb (cond r) (chk r)) l.

(** Columns an [update_*] function may put in its [SET] list, each with the
    value as the function received it. *)
Inductive plano_col : Type :=
| Set_nome_plano (v : string) | Set_preco (v : pyfloat) | Set_descricao (v : string).

Inductive turma_col : Type :=
| Set_nome_atividade (v : string) | Set_quantidade_vagas (v : Z)
| Set_turma_turno (v : TurnoEnum) | Set_turma_cref (v : Z).

Inductive aluno_col : Type :=
| Set_aluno_cpf (v : string) | Set_aluno_nome (v : string) | Set_sexo (v : SexoEnum)
| Set_aluno_data_nascimento (v : date) | Set_data_matricula (v : date)
| Set_codigo_plano (v : Z).

Inductive contato_col : Type :=
| Set_telefone (v : string) | Set_email (v : string).

Inductive bioimpedancia_col : Type :=
| Set_peso (v : pyfloat) | Set_altura (v : pyfloat) | Set_tmb (v : Z)
| Set_percentual_gordura (v : pyfloat) | Set_quantidade_agua (v : pyfloat).

Inductive instrutor_col : Type :=
| Set_instrutor_cpf (v : string) | Set_instrutor_nome (v : string)
| Set_instrutor_data_nascimento (v : date) | Set_data_admissao (v : date)
| Set_instrutor_turno (v : TurnoEnum).

(** Whether the value of a [SET] entry fits its column. *)
Definition plano_col_ok (c : plano_col) : bool :=
  match c with
  | Set_nome_plano v => varchar_ok 45 v
  | Set_preco v => numeric_ok 10 v
  | Set_descricao v => varchar_ok 180 v
  end.

Definition turma_col_ok (c : turma_col) : bool :=
  match c with
  | Set_nome_atividade v => varchar_ok 45 v
  | Set_quantidade_vagas v => int4_ok v
  | Set_turma_turno _ => true
  | Set_turma_cref v => int4_ok v
  end.

Definition aluno_col_ok (c : aluno_col) : bool :=
  match c with
  | Set_aluno_cpf v => varchar_ok 11 v
  | Set_aluno_nome v => varchar_ok 45 v
  | Set_codigo_plano v => int4_ok v
  | Set_sexo _ | Set_aluno_data_nascimento _ | Set_data_matricula _ => true
  end.

Definition contato_col_ok (c : contato_col) : bool :=
  match c with
  | Set_telefone v => varchar_ok 15 v
  | Set_email v => varchar_ok 45 v
  end.

Definition bioimpedancia_col_ok (c : bioimpedancia_col) : bool :=
  match c with
  | Set_peso v => numeric_ok 5 v
  | Set_altura v => numeric_ok 4 v
  | Set_tmb v => int4_ok v
  | Set_percentual_gordura v => numeric_ok 5 v
  | Set_quantidade_agua v => numeric_ok 5 v
  end.

Definition instrutor_col_ok (c : instrutor_col) : bool :=
  match c with
  | Set_instrutor_cpf v => varchar_ok 11 v
  | Set_instrutor_nome v => varchar_ok 30 v
  | Set_instrutor_data_nascimento _ | Set_data_admissao _ | Set_instrutor_turno _ => true
  end.

(** What a [SET] entry writes into a row. *)
Definition assign_plano (c : plano_col) (r : plano_row) : plano_row :=
  match c with
  | Set_nome_plano v =>
      mk_plano (pl_codigo_plano r) (varchar 45 v) (pl_preco r) (pl_descricao r)
  | Set_preco v =>
      mk_plano (pl_codigo_plano r) (pl_nome_plano r) (hundredths v) (pl_descricao r)
  | Set_descricao v =>
      mk_plano (pl_codigo_plano r) (pl_nome_plano r) (pl_preco r) (Some (varchar 180 v))
  end.

Definition assign_turma (c : turma_col) (r : turma_row) : turma_row :=
  match c with
  | Set_nome_atividade v =>
      mk_turma (tu_id_turma r) (varchar 45 v) (tu_quantidade_vagas r) (tu_turno r)
               (tu_cref r)
  | Set_quantidade_vagas v =>
      mk_turma (tu_id_turma r) (tu_nome_atividade r) v (tu_turno r) (tu_cref r)
  | Set_turma_turno v =>
      mk_turma (tu_id_turma r) (tu_nome_atividade r) (tu_quantidade_vagas r) v (tu_cref r)
  | Set_turma_cref v =>
      mk_turma (tu_id_turma r) (tu_nome_atividade r) (tu_quantidade_vagas r) (tu_turno r) v
  end.

Definition assign_aluno (c : aluno_col) (r : aluno_row) : aluno_row :=
  match c with
  | Set_aluno_cpf v =>
      mk_aluno (al_matricula r) (varchar 11 v) (al_nome r) (al_sexo r)
               (al_data_nascimento r) (al_data_matricula r) (al_codigo_plano r)
  | Set_aluno_nome v =>
      mk_aluno (al_matricula r) (al_cpf r) (varchar 45 v) (al_sexo r)
               (al_data_nascimento r) (al_data_matricula r) (al_codigo_plano r)
  | Set_sexo v =>
      mk_aluno (al_matricula r) (al_cpf r) (al_nome r) v (al_data_nascimento r)
               (al_data_matricula r) (al_codigo_plano r)
  | Set_aluno_data_nascimento v =>
      mk_aluno (al_matricula r) (al_cpf r) (al_nome r) (al_sexo r) v
               (al_data_matricula r) (al_codigo_plano r)
  | Set_data_matricula v =>
      mk_aluno (al_matricula r) (al_cpf r) (al_nome r) (al_sexo r) (al_data_nascimento r)
               v (al_codigo_plano r)
  | Set_codigo_plano v =>
      mk_aluno (al_matricula r) (al_cpf r) (al_nome r) (al_sexo r) (al_data_nascimento r)
               (al_data_matricula r) v
  end.

Definition assign_contato_aluno (c : contato_col) (r : contato_aluno_row) : contato_aluno_row :=
  match c with
  | Set_telefone v => mk_contato_aluno (varchar 15 v) (ca_email r) (ca_matricula r)
  | Set_email v => mk_contato_aluno (ca_telefone r) (Some (varchar 45 v)) (ca_matricula r)
  end.

Definition assign_contato_instrutor (c : contato_col) (r : contato_instrutor_row)
  : contato_instrutor_row :=
  match c with
  | Set_telefone v => mk_contato_instrutor (varchar 15 v) (ci_email r) (ci_cref r)
  | Set_email v => mk_contato_instrutor (ci_telefone r) (Some (varchar 45 v)) (ci_cref r)
  end.

Definition assign_bioimpedancia (c : bioimpedancia_col) (r : bioimpedancia_row)
  : bioimpedancia_row :=
  match c with
  | Set_peso v =>
      mk_bioimpedancia (bi_matricula r) (hundredths v) (bi_altura r) (bi_tmb r)
                       (bi_percentual_gordura r) (bi_quantidade_agua r)
  | Set_altura v =>
      mk_bioimpedancia (bi_matricula r) (bi_peso r) (hundredths v) (bi_tmb r)
                       (bi_percentual_gordura r) (bi_quantidade_agua r)
  | Set_tmb v =>
      mk_bioimpedancia (bi_matricula r) (bi_peso r) (bi_altura r) v
                       (bi_percentual_gordura r) (bi_quantidade_agua r)
  | Set_percentual_gordura v =>
      mk_bioimpedancia (bi_matricula r) (bi_peso r) (bi_altura r) (bi_tmb r)
                       (hundredths v) (bi_quantidade_agua r)
  | Set_quantidade_agua v =>
      mk_bioimpedancia (bi_matricula r) (bi_peso r) (bi_altura r) (bi_tmb r)
                       (bi_percentual_gordura r) (hundredths v)
  end.

Definition assign_instrutor (c : instrutor_col) (r : instrutor_row) : instrutor_row :=
  match c with
  | Set_instrutor_cpf v =>
      mk_instrutor (in_cref r) (varchar 11 v) (in_nome r) (in_data_nascimento r)
                   (in_data_admissao r) (in_turno r)
  | Set_instrutor_nome v =>
      mk_instrutor (in_cref r) (in_cpf r) (varchar 30 v) (in_data_nascimento r)
                   (in_data_admissao r) (in_turno r)
  | Set_instrutor_data_nascimento v =>
      mk_instrutor (in_cref r) (in_cpf r) (in_nome r) v (in_data_admissao r) (in_turno r)
  | Set_data_admissao v =>
      mk_instrutor (in_cref r) (in_cpf r) (in_nome r) (in_data_nascimento r) v (in_turno r)
  | Set_instrutor_turno v =>
      mk_instrutor (in_cref r) (in_cpf r) (in_nome r) (in_data_nascimento r)
                   (in_data_admissao r) v
  end.

(** The [SET] list of an [UPDATE], applied from left to right. *)
Definition apply_set {C A : Type} (assign : C -> A -> A) (updates : list C) (r : A) : A :=
  fold_left (fun acc c => assign c acc) updates r.

(** [if v is not None: updates.append(...); params.append(v)]. *)
Definition append_given {V C : Type} (col : V -> C) (v : option V) (updates : list C)
  : list C :=
  match v with
  | Some x => updates ++ [col x]
  | None => updates
  end.

(** *** Deletes and their cascades ([ON DELETE CASCADE]) *)

(** Students go with their contacts, measurements and enrolments. *)
Definition cascade_delete_aluno (cond : aluno_row -> bool) (t : Tables) : Tables :=
  let gone := map al_matricula (filter cond (aluno t)) in
  mk_tables (plano t)
            (sql_delete cond (aluno t))
            (sql_delete (fun r => mem_Z (ca_matricula r) gone) (contato_aluno t))
            (sql_delete (fun r => mem_Z (bi_matricula r) gone) (bioimpedancia t))
            (instrutor t)
            (contato_instrutor t)
            (turma t)
            (sql_delete (fun e => mem_Z (snd e) gone) (turma_instrutor_aluno t)).

(** Plans go with the students that reference them. *)
Definition cascade_delete_plano (cond : plano_row -> bool) (t : Tables) : Tables :=
  let gone := map pl_codigo_plano (filter cond (plano t)) in
  cascade_delete_aluno (fun a => mem_Z (al_codigo_plano a) gone)
                       (set_plano (sql_delete cond (plano t)) t).

(** Classes go with their enrolments. *)
Definition cascade_delete_turma (cond : turma_row -> bool) (t : Tables) : Tables :=
  let gone := map tu_id_turma (filter cond (turma t)) in
  set_turma_instrutor_aluno
    (sql_delete (fun e => mem_Z (fst e) gone) (turma_instrutor_aluno t))
    (set_turma (sql_delete cond (turma t)) t).

(** Instructors go with their contacts and their classes. *)
Definition cascade_delete_instrutor (cond : instrutor_row -> bool) (t : Tables) : Tables :=
  let gone := map in_cref (filter cond (instrutor t)) in
  cascade_delete_turma (fun c => mem_Z (tu_cref c) gone)
    (set_contato_instrutor
       (sql_delete (fun r => mem_Z (ci_cref r) gone) (contato_instrutor t))
       (set_instrutor (sql_delete cond (instrutor t)) t)).

Definition sql_delete_plano (codigo_plano : Z) : Stmt unit :=
  fun t q =>
    (inr (tt, cascade_delete_plano (fun r => pl_codigo_plano r =? codigo_plano) t), q).

Definition sql_delete_aluno (matricula : Z) : Stmt unit :=
  fun t q =>
    (inr (tt, cascade_delete_aluno (fun r => al_matricula r =? matricula) t), q).

Definition sql_delete_turma (id_turma : Z) : Stmt unit :=
  fun t q =>
    (inr (tt, cascade_delete_turma (fun r => tu_id_turma r =? id_turma) t), q).

Definition sql_delete_instrutor (cref : Z) : Stmt unit :=
  fun t q =>
    (inr (tt, cascade_delete_instrutor (fun r => in_cref r =? cref) t), q).

Definition sql_delete_bioimpedancia (matricula : Z) : Stmt unit :=
  fun t q =>
    (inr (tt, set_bioimpedancia
                (sql_delete (fun r => bi_matricula r =? matricula) (bioimpedancia t)) t), q).

Definition sql_delete_matricula_turma (id_turma matricula : Z) : Stmt unit :=
  fun t q =>
    (inr (tt, set_turma_instrutor_aluno
                (sql_delete (fun e => (fst e =? id_turma) && (snd e =? matricula))
                            (turma_instrutor_aluno t)) t), q).

Section Store.

(** Three computations of the store on dates and text are taken as they are:
    [CHECK (AGE(current_date, data_nascimento) >= INTERVAL '18 years')],
    [DATE_PART('year', AGE(current_date, data_nascimento))], and the
    collation that [ORDER BY] uses on text.  In the first two the current
    date comes first. *)
Variable idade_minima_ok : date -> date -> bool.
Variable idade_em_anos : date -> date -> Z.
Variable collate_leb : string -> string -> bool.

(** Nor is the order of the rows on disk known. *)
Variable heap_order : Scan.

Definition scan (A : Type) (l : list A) : list A := scan_rows heap_order l.

(** *** Inserts

    The values of the statement are converted first; a [SERIAL] column
    then takes the next value of its sequence, which stays taken when a
    constraint refuses the row. *)

Definition next_plano (q : Seqs) : Seqs :=
  mk_seqs (plano_codigo_plano_seq q + 1) (aluno_matricula_seq q) (turma_id_turma_seq q).
Definition next_aluno (q : Seqs) : Seqs :=
  mk_seqs (plano_codigo_plano_seq q) (aluno_matricula_seq q + 1) (turma_id_turma_seq q).
Definition next_turma (q : Seqs) : Seqs :=
  mk_seqs (plano_codigo_plano_seq q) (aluno_matricula_seq q) (turma_id_turma_seq q + 1).

(** [INSERT INTO plano (nome_plano, preco, descricao) ... RETURNING codigo_plano] *)
Definition sql_insert_plano (nome_plano : string) (preco : pyfloat)
           (descricao : option string) : Stmt Z :=
  fun t q =>
    if negb (varchar_ok 45 nome_plano && numeric_ok 10 preco && opt_varchar_ok 180 descricao)
    then (inl DataException, q)
    else if negb (int4_ok (plano_codigo_plano_seq q + 1))
    then (inl (SequenceLimit "plano_codigo_plano_seq"), q)
    else
      let q' := next_plano q in
      let id := plano_codigo_plano_seq q' in
      if mem_Z id (map pl_codigo_plano (plano t))
      then (inl (UniqueViolation "plano.codigo_plano"), q')
      else (inr (id, set_plano
                       (plano t ++ [mk_plano id (varchar 45 nome_plano) (hundredths preco)
                                             (opt_varchar 180 descricao)]) t), q').

(** [INSERT INTO aluno (...) ... RETURNING matricula] *)
Definition sql_insert_aluno (cpf nome : string) (sexo : SexoEnum)
           (data_nascimento data_matricula : date) (codigo_plano : Z) : Stmt Z :=
  fun t q =>
    if negb (varchar_ok 11 cpf && varchar_ok 45 nome && int4_ok codigo_plano)
    then (inl DataException, q)
    else if negb (int4_ok (aluno_matricula_seq q + 1))
    then (inl (SequenceLimit "aluno_matricula_seq"), q)
    else
      let q' := next_aluno q in
      let id := aluno_matricula_seq q' in
      if mem_Z id (map al_matricula (aluno t))
      then (inl (UniqueViolation "aluno.matricula"), q')
      else if mem_string (varchar 11 cpf) (map al_cpf (aluno t))
      then (inl (UniqueViolation "aluno.cpf"), q')
      else if negb (mem_Z codigo_plano (map pl_codigo_plano (plano t)))
      then (inl (ForeignKeyViolation "aluno.codigo_plano"), q')
      else (inr (id, set_aluno
                       (aluno t ++ [mk_aluno id (varchar 11 cpf) (varchar 45 nome) sexo
                                             data_nascimento data_matricula codigo_plano]) t),
            q').

(** [INSERT INTO contato_aluno (matricula, telefone, email)] *)
Definition sql_insert_contato_aluno (matricula : Z) (telefone : string)
           (email : option string) : Stmt unit :=
  fun t q =>
    if negb (int4_ok matricula && varchar_ok 15 telefone && opt_varchar_ok 45 email)
    then (inl DataException, q)
    else if mem_string (varchar 15 telefone) (map ca_telefone (contato_aluno t))
    then (inl (UniqueViolation "contato_aluno.telefone"), q)
    else if negb (mem_Z matricula (map al_matricula (aluno t)))
    then (inl (ForeignKeyViolation "contato_aluno.matricula"), q)
    else (inr (tt, set_contato_aluno
                     (contato_aluno t ++
                      [mk_contato_aluno (varchar 15 telefone) (opt_varchar 45 email)
                                        matricula]) t), q).

(** [INSERT INTO bioimpedancia (...)] *)
Definition sql_insert_bioimpedancia (matricula : Z) (peso altura : pyfloat) (tmb : Z)
           (percentual_gordura quantidade_agua : pyfloat) : Stmt unit :=
  fun t q =>
    if negb (int4_ok matricula && numeric_ok 5 peso && numeric_ok 4 altura && int4_ok tmb
             && numeric_ok 5 percentual_gordura && numeric_ok 5 quantidade_agua)
    then (inl DataException, q)
    else if mem_Z matricula (map bi_matricula (bioimpedancia t))
    then (inl (UniqueViolation "bioimpedancia.matricula"), q)
    else if negb (mem_Z matricula (map al_matricula (aluno t)))
    then (inl (ForeignKeyViolation "bioimpedancia.matricula"), q)
    else (inr (tt, set_bioimpedancia
                     (bioimpedancia t ++
                      [mk_bioimpedancia matricula (hundredths peso) (hundredths altura) tmb
                                        (hundredths percentual_gordura)
                                        (hundredths quantidade_agua)]) t), q).

(** [INSERT INTO instrutor (...)] *)
Definition sql_insert_instrutor (hoje : date) (cref : Z) (cpf nome : string)
           (data_nascimento data_admissao : date) (turno : TurnoEnum) : Stmt unit :=
  fun t q =>
    if negb (int4_ok cref && varchar_ok 11 cpf && varchar_ok 30 nome)
    then (inl DataException, q)
    else if negb (idade_minima_ok hoje data_nascimento)
    then (inl (CheckViolation "instrutor.data_nascimento"), q)
    else if mem_Z cref (map in_cref (instrutor t))
    then (inl (UniqueViolation "instrutor.cref"), q)
    else if mem_string (varchar 11 cpf) (map in_cpf (instrutor t))
    then (inl (UniqueViolation "instrutor.cpf"), q)
    else (inr (tt, set_instrutor
                     (instrutor t ++ [mk_instrutor cref (varchar 11 cpf) (varchar 30 nome)
                                                   data_nascimento data_admissao turno]) t),
          q).

(** [INSERT INTO contato_instrutor (cref, telefone, email)] *)
Definition sql_insert_contato_instrutor (cref : Z) (telefone : string)
           (email : option string) : Stmt unit :=
  fun t q =>
    if negb (int4_ok cref && varchar_ok 15 telefone && opt_varchar_ok 45 email)
    then (inl DataException, q)
    else if mem_string (varchar 15 telefone) (map ci_telefone (contato_instrutor t))
    then (inl (UniqueViolation "contato_instrutor.telefone"), q)
    else if negb (mem_Z cref (map in_cref (instrutor t)))
    then (inl (ForeignKeyViolation "contato_instrutor.cref"), q)
    else (inr (tt, set_contato_instrutor
                     (contato_instrutor t ++
                      [mk_contato_instrutor (varchar 15 telefone) (opt_varchar 45 email)
                                            cref]) t),
          q).

(** [INSERT INTO turma (...) ... RETURNING id_turma] *)
Definition sql_insert_turma (nome_atividade : string) (quantidade_vagas : Z)
           (turno : TurnoEnum) (cref : Z) : Stmt Z :=
  fun t q =>
    if negb (varchar_ok 45 nome_atividade && int4_ok quantidade_vagas && int4_ok cref)
    then (inl DataException, q)
    else if negb (int4_ok (turma_id_turma_seq q + 1))
    then (inl (SequenceLimit "turma_id_turma_seq"), q)
    else
      let q' := next_turma q in
      let id := turma_id_turma_seq q' in
      if negb (0 <? quantidade_vagas)
      then (inl (CheckViolation "turma.quantidade_vagas"), q')
      else if mem_Z id (map tu_id_turma (turma t))
      then (inl (UniqueViolation "turma.id_turma"), q')
      else if negb (mem_Z cref (map in_cref (instrutor t)))
      then (inl (ForeignKeyViolation "turma.cref"), q')
      else (inr (id, set_turma
                       (turma t ++ [mk_turma id (varchar 45 nome_atividade) quantidade_vagas
                                             turno cref]) t),
            q').

(** [SELECT COUNT( * ) FROM turma_instrutor_aluno WHERE id_turma = ...] *)
Definition count_matriculas (id_turma : Z) (t : Tables) : Z :=
  Z.of_nat (List.length (filter (fun e => fst e =? id_turma) (turma_instrutor_aluno t))).

(** The trigger function [verificar_vagas_turma], run [BEFORE INSERT] on
    [turma_instrutor_aluno] for the row [new].  When the class does not
    exist [vagas_disponiveis] is [NULL] and the comparison is not true. *)
Definition verificar_vagas_turma (new : matricula_turma_row) (t : Tables) : option PgError :=
  let vagas_disponiveis :=
    option_map tu_quantidade_vagas
               (find (fun r => tu_id_turma r =? fst new) (turma t)) in
  let alunos_matriculados := count_matriculas (fst new) t in
  match vagas_disponiveis with
  | Some vagas =>
      if alunos_matriculados >=? vagas
      then Some (RaiseException "Não há mais vagas disponíveis para esta turma.")
      else None
  | None => None
  end.

Definition eqb_matricula_turma (x y : matricula_turma_row) : bool :=
  (fst x =? fst y) && (snd x =? snd y).

(** [INSERT INTO turma_instrutor_aluno (id_turma, matricula)] *)
Definition sql_insert_matricula_turma (id_turma matricula : Z) : Stmt unit :=
  fun t q =>
    let new := (id_turma, matricula) in
    if negb (int4_ok id_turma && int4_ok matricula)
    then (inl DataException, q)
    else
      match verificar_vagas_turma new t with
      | Some e => (inl e, q)
      | None =>
          if existsb (eqb_matricula_turma new) (turma_instrutor_aluno t)
          then (inl (UniqueViolation "turma_instrutor_aluno.(id_turma, matricula)"), q)
          else if negb (mem_Z id_turma (map tu_id_turma (turma t)))
          then (inl (ForeignKeyViolation "turma_instrutor_aluno.id_turma"), q)
          else if negb (mem_Z matricula (map al_matricula (aluno t)))
          then (inl (ForeignKeyViolation "turma_instrutor_aluno.matricula"), q)
          else (inr (tt, set_turma_instrutor_aluno (turma_instrutor_aluno t ++ [new]) t), q)
      end.

(** *** Updates

    The values of the [SET] list are converted first, whether or not a row
    matches the [WHERE]. *)

(** [UPDATE plano SET ... WHERE codigo_plano = ...] *)
Definition sql_update_plano (updates : list plano_col) (codigo_plano : Z) : Stmt unit :=
  fun t q =>
    if negb (forallb plano_col_ok updates)
    then (inl DataException, q)
    else (inr (tt, set_plano (sql_update (fun r => pl_codigo_plano r =? codigo_plano)
                                         (apply_set assign_plano updates) (plano t)) t), q).

(** [UPDATE turma SET ... WHERE id_turma = ...] *)
Definition sql_update_turma (updates : list turma_col) (id_turma : Z) : Stmt unit :=
  fun t q =>
    let cond := fun r => tu_id_turma r =? id_turma in
    let rows := sql_update cond (apply_set assign_turma updates) (turma t) in
    if negb (forallb turma_col_ok updates)
    then (inl DataException, q)
    else if negb (touched_ok cond (fun r => 0 <? tu_quantidade_vagas r) rows)
    then (inl (CheckViolation "turma.quantidade_vagas"), q)
    else if negb (touched_ok cond (fun r => mem_Z (tu_cref r) (map in_cref (instrutor t))) rows)
    then (inl (ForeignKeyViolation "turma.cref"), q)
    else (inr (tt, set_turma rows t), q).

(** [UPDATE aluno SET ... WHERE matricula = ...], once its values have
    the types of their columns. *)
Definition sql_update_aluno_set (updates : list aluno_col) (matricula : Z) : Stmt unit :=
  fun t q =>
    let cond := fun r => al_matricula r =? matricula in
    let rows := sql_update cond (apply_set assign_aluno updates) (aluno t) in
    if existsb cond (aluno t) && negb (nodup_stringb (map al_cpf rows))
    then (inl (UniqueViolation "aluno.cpf"), q)
    else if negb (touched_ok cond
                    (fun r => mem_Z (al_codigo_plano r) (map pl_codigo_plano (plano t))) rows)
    then (inl (ForeignKeyViolation "aluno.codigo_plano"), q)
    else (inr (tt, set_aluno rows t), q).

(** The same as a statement of the query layer, whose values are still to
    be converted. *)
Definition sql_update_aluno (updates : list aluno_col) (matricula : Z) : Stmt unit :=
  fun t q =>
    if negb (forallb aluno_col_ok updates)
    then (inl DataException, q)
    else sql_update_aluno_set updates matricula t q.

(** [UPDATE contato_aluno SET ... WHERE matricula = ...] *)
Definition sql_update_contato_aluno (updates : list contato_col) (matricula : Z) : Stmt unit :=
  fun t q =>
    let cond := fun r => ca_matricula r =? matricula in
    let rows := sql_update cond (apply_set assign_contato_aluno updates) (contato_aluno t) in
    if negb (forallb contato_col_ok updates)
    then (inl DataException, q)
    else if existsb cond (contato_aluno t) && negb (nodup_stringb (map ca_telefone rows))
    then (inl (UniqueViolation "contato_aluno.telefone"), q)
    else (inr (tt, set_contato_aluno rows t), q).

(** [UPDATE contato_instrutor SET ... WHERE cref = ...] *)
Definition sql_update_contato_instrutor (updates : list contato_col) (cref : Z) : Stmt unit :=
  fun t q =>
    let cond := fun r => ci_cref r =? cref in
    let rows := sql_update cond (apply_set assign_contato_instrutor updates)
                           (contato_instrutor t) in
    if negb (forallb contato_col_ok updates)
    then (inl DataException, q)
    else if existsb cond (contato_instrutor t) && negb (nodup_stringb (map ci_telefone rows))
    then (inl (UniqueViolation "contato_instrutor.telefone"), q)
    else (inr (tt, set_contato_instrutor rows t), q).

(** [UPDATE bioimpedancia SET ... WHERE matricula = ...] *)
Definition sql_update_bioimpedancia (updates : list bioimpedancia_col) (matricula : Z)
  : Stmt unit :=
  fun t q =>
    if negb (forallb bioimpedancia_col_ok updates)
    then (inl DataException, q)
    else (inr (tt, set_bioimpedancia
                     (sql_update (fun r => bi_matricula r =? matricula)
                                 (apply_set assign_bioimpedancia updates) (bioimpedancia t))
                     t), q).

(** [UPDATE instrutor SET ... WHERE cref = ...] *)
Definition sql_update_instrutor (hoje : date) (updates : list instrutor_col) (cref : Z)
  : Stmt unit :=
  fun t q =>
    let cond := fun r => in_cref r =? cref in
    let rows := sql_update cond (apply_set assign_instrutor updates) (instrutor t) in
    if negb (forallb instrutor_col_ok updates)
    then (inl DataException, q)
    else if negb (touched_ok cond (fun r => idade_minima_ok hoje (in_data_nascimento r)) rows)
    then (inl (CheckViolation "instrutor.data_nascimento"), q)
    else if existsb cond (instrutor t) && negb (nodup_stringb (map in_cpf rows))
    then (inl (UniqueViolation "instrutor.cpf"), q)
    else (inr (tt, set_instrutor rows t), q).

(** *** The stored function [atualizar_plano_aluno]

    [SELECT ... INTO] leaves the variable [NULL] when no row is found, and
    [IF preco_novo <= preco_atual] is taken only when both prices are
    known.  The function reports through the text it returns.  Its
    parameters are [INTEGER] variables, so its [UPDATE] converts nothing. *)
Definition atualizar_plano_aluno (hoje : date) (p_matricula p_novo_plano : Z) : Stmt string :=
  fun t q =>
    let preco_atual :=
      match find (fun a => al_matricula a =? p_matricula) (aluno t) with
      | Some a =>
          option_map pl_preco
                     (find (fun p => pl_codigo_plano p =? al_codigo_plano a) (plano t))
      | None => None
      end in
    let preco_novo :=
      option_map pl_preco (find (fun p => pl_codigo_plano p =? p_novo_plano) (plano t)) in
    let recusa :=
      match preco_novo, preco_atual with
      | Some novo, Some atual => novo <=? atual
      | _, _ => false
      end in
    if recusa
    then (inr ("Erro: O novo plano deve ser mais caro que o atual!", t), q)
    else
      match sql_update_aluno_set [Set_codigo_plano p_novo_plano; Set_data_matricula hoje]
                                 p_matricula t q with
      | (inr (_, t'), q') => (inr ("Plano alterado com sucesso!", t'), q')
      | (inl e, q') => (inl e, q')
      end.

(** ** Connections and the query layer ([queries.py]) *)

Record Conn : Type := mk_conn {
  committed : Tables;
  working : Tables;
  seqs : Seqs
}.

(** Python code that holds a connection: it returns or raises, and leaves
    the connection in some state. *)
Definition Py (A : Type) : Type := Conn -> (PyException + A) * Conn.

Definition ret {A : Type} (a : A) : Py A := fun c => (inr a, c).

Definition raise {A : Type} (e : PyException) : Py A := fun c => (inl e, c).

Definition bind {A B : Type} (m : Py A) (k : A -> Py B) : Py B :=
  fun c =>
    match m c with
    | (inr a, c') => k a c'
    | (inl e, c') => (inl e, c')
    end.

Notation "x <- m ;; k" := (bind m (fun x => k))
  (at level 61, m at next level, right associativity).
Notation "m ;;; k" := (bind m (fun _ => k))
  (at level 61, right associativity).

(** [execute_query]: on a store error the connection is rolled back and a
    Python exception is raised. *)
Definition execute_query {A : Type} (query : Stmt A) : Py A :=
  fun c =>
    match query (working c) (seqs c) with
    | (inr (a, t'), q') => (inr a, mk_conn (committed c) t' q')
    | (inl e, q') => (inl (QueryError e), mk_conn (committed c) (committed c) q')
    end.

(** [conn.commit()] *)
Definition commit : Py unit :=
  fun c => (inr tt, mk_conn (working c) (working c) (seqs c)).

(** Truth value of an optional integer argument ([if codigo_plano:]). *)
Definition truthy_id (o : option Z) : option Z :=
  match o with
  | Some v => if v =? 0 then None else Some v
  | None => None
  end.

Definition truthy_string (o : option string) : bool :=
  match o with
  | Some s => negb (String.eqb s "")
  | None => false
  end.

Definition left_join {A B : Type} (on : A -> B -> bool) (l : list A) (r : list B)
  : list (A * option B) :=
  flat_map (fun a =>
              match filter (on a) r with
              | [] => [(a, None)]
              | bs => map (fun b => (a, Some b)) bs
              end) l.

(** *** Planos *)

Definition create_plano (nome_plano : string) (preco : pyfloat) (descricao : option string)
  : Py Z :=
  execute_query (sql_insert_plano nome_plano preco descricao).

Definition read_plano (codigo_plano : option Z) : Py (list plano_row) :=
  match truthy_id codigo_plano with
  | Some c =>
      execute_query
        (sql_select (fun t => filter (fun r => pl_codigo_plano r =? c) (plano t)))
  | None =>
      execute_query
        (sql_select (fun t => order_by (fun a b => pl_codigo_plano a <=? pl_codigo_plano b)
                                       (plano t)))
  end.

Definition update_plano (codigo_plano : Z) (nome_plano : option string)
           (preco : option pyfloat) (descricao : option string) : Py unit :=
  let updates := [] in
  let updates := append_given Set_nome_plano nome_plano updates in
  let updates := append_given Set_preco preco updates in
  let updates := append_given Set_descricao descricao updates in
  match updates with
  | [] => ret tt
  | _ :: _ => execute_query (sql_update_plano updates codigo_plano)
  end.

Definition delete_plano (codigo_plano : Z) : Py unit :=
  execute_query (sql_delete_plano codigo_plano).

(** *** Turmas *)

Definition create_turma (nome_atividade : string) (quantidade_vagas : Z)
           (turno : TurnoEnum) (cref : Z) : Py Z :=
  execute_query (sql_insert_turma nome_atividade quantidade_vagas turno cref).

(** A row of [read_turma]: the class, its instructor, the instructor's
    contact if any, and [array_agg(a.matricula) FILTER (...)], which is
    [NULL] when nobody is enrolled and holds the students in no known
    order otherwise. *)
Definition turma_join_row : Type :=
  (turma_row * instrutor_row * option contato_instrutor_row * option (list Z))%type.



Definition update_turma (id_turma : Z) (nome_atividade : option string)
           (quantidade_vagas : option Z) (turno : option TurnoEnum) (cref : option Z)
  : Py unit :=
  let updates := [] in
  let updates := append_given Set_nome_atividade nome_atividade updates in
  let updates := append_given Set_quantidade_vagas quantidade_vagas updates in
  let updates := append_given Set_turma_turno turno updates in
  let updates := append_given Set_turma_cref cref updates in
  match updates with
  | [] => ret tt
  | _ :: _ => execute_query (sql_update_turma updates id_turma)
  end.

Definition delete_turma (id_turma : Z) : Py unit :=
  execute_query (sql_delete_turma id_turma).

(** [create_matricula_turma]: the seats are read first, then the row is
    inserted.  [except Exception as e: print(...); raise] re-raises what it
    caught. *)
Definition create_matricula_turma (id_turma matricula : Z) : Py unit :=
  result <- execute_query
              (sql_select
                 (fun t => map (fun r => (tu_quantidade_vagas r, count_matriculas id_turma t))
                               (filter (fun r => tu_id_turma r =? id_turma) (turma t)))) ;;
  match result with
  | [] => raise (PyExc "Turma não encontrada")
  | (vagas_totais, alunos_matriculados) :: _ =>
      if alunos_matriculados >=? vagas_totais
      then raise (PyExc "Turma sem vagas disponíveis")
      else execute_query (sql_insert_matricula_turma id_turma matricula)
  end.

Definition delete_matricula_turma (id_turma matricula : Z) : Py unit :=
  execute_query (sql_delete_matricula_turma id_turma matricula).

(** *** Alunos *)

Definition create_aluno (cpf nome : string) (sexo : SexoEnum)
           (data_nascimento data_matricula : date) (codigo_plano : Z) : Py Z :=
  execute_query (sql_insert_aluno cpf nome sexo data_nascimento data_matricula codigo_plano).

Definition aluno_join (t : Tables) (l : list aluno_row)
  : list (aluno_row * option contato_aluno_row) :=
  left_join (fun a c => al_matricula a =? ca_matricula c) l (contato_aluno t).

Definition read_aluno (matricula : option Z)
  : Py (list (aluno_row * option contato_aluno_row)) :=
  match truthy_id matricula with
  | Some m =>
      execute_query
        (sql_select
           (fun t => scan (aluno_join t (filter (fun r => al_matricula r =? m) (aluno t)))))
  | None =>
      execute_query
        (sql_select
           (fun t => order_by (fun a b => collate_leb (al_nome (fst a)) (al_nome (fst b)))
                              (scan (aluno_join t (aluno t)))))
  end.

Definition update_aluno (matricula : Z) (cpf nome : option string) (sexo : option SexoEnum)
           (data_nascimento data_matricula : option date) (codigo_plano : option Z)
  : Py unit :=
  let updates := [] in
  let updates := append_given Set_aluno_cpf cpf updates in
  let updates := append_given Set_aluno_nome nome updates in
  let updates := append_given Set_sexo sexo updates in
  let updates := append_given Set_aluno_data_nascimento data_nascimento updates in
  let updates := append_given Set_data_matricula data_matricula updates in
  let updates := append_given Set_codigo_plano codigo_plano updates in
  match updates with
  | [] => ret tt
  | _ :: _ => execute_query (sql_update_aluno updates matricula)
  end.

Definition delete_aluno (matricula : Z) : Py unit :=
  execute_query (sql_delete_aluno matricula).

(** *** Contatos *)

Definition create_contato_aluno (matricula : Z) (telefone : string) (email : option string)
  : Py unit :=
  execute_query (sql_insert_contato_aluno matricula telefone email).

Definition create_contato_instrutor (cref : Z) (telefone : string) (email : option string)
  : Py unit :=
  execute_query (sql_insert_contato_instrutor cref telefone email).

Definition update_contato_aluno (matricula : Z) (telefone email : option string) : Py unit :=
  let updates := [] in
  let updates := append_given Set_telefone telefone updates in
  let updates := append_given Set_email email updates in
  match updates with
  | [] => ret tt
  | _ :: _ => execute_query (sql_update_contato_aluno updates matricula)
  end.

Definition update_contato_instrutor (cref : Z) (telefone email : option string) : Py unit :=
  let updates := [] in
  let updates := append_given Set_telefone telefone updates in
  let updates := append_given Set_email email updates in
  match updates with
  | [] => ret tt
  | _ :: _ => execute_query (sql_update_contato_instrutor updates cref)
  end.

(** *** Bioimpedância *)

(** The query that lists the measurements has no [ORDER BY]. *)
Definition read_bioimpedancia (matricula : option Z) : Py (list bioimpedancia_row) :=
  match truthy_id matricula with
  | Some m =>
      execute_query
        (sql_select (fun t => filter (fun r => bi_matricula r =? m) (bioimpedancia t)))
  | None => execute_query (sql_select (fun t => scan (bioimpedancia t)))
  end.

Definition create_bioimpedancia (matricula : Z) (peso altura : pyfloat) (tmb : Z)
           (percentual_gordura quantidade_agua : pyfloat) : Py unit :=
  execute_query
    (sql_insert_bioimpedancia matricula peso altura tmb percentual_gordura quantidade_agua).

Definition update_bioimpedancia (matricula : Z) (peso altura : option pyfloat)
           (tmb : option Z) (percentual_gordura quantidade_agua : option pyfloat)
  : Py unit :=
  let updates := [] in
  let updates := append_given Set_peso peso updates in
  let updates := append_given Set_altura altura updates in
  let updates := append_given Set_tmb tmb updates in
  let updates := append_given Set_percentual_gordura percentual_gordura updates in
  let updates := append_given Set_quantidade_agua quantidade_agua updates in
  match updates with
  | [] => ret tt
  | _ :: _ => execute_query (sql_update_bioimpedancia updates matricula)
  end.

Definition delete_bioimpedancia (matricula : Z) : Py unit :=
  execute_query (sql_delete_bioimpedancia matricula).

(** *** Instrutores *)

Definition create_instrutor (hoje : date) (cref : Z) (cpf nome : string)
           (data_nascimento data_admissao : date) (turno : TurnoEnum) : Py unit :=
  execute_query (sql_insert_instrutor hoje cref cpf nome data_nascimento data_admissao turno).

Definition instrutor_join (t : Tables) (l : list instrutor_row)
  : list (instrutor_row * option contato_instrutor_row) :=
  left_join (fun i c => in_cref i =? ci_cref c) l (contato_instrutor t).

Definition read_instrutor (cref : option Z)
  : Py (list (instrutor_row * option contato_instrutor_row)) :=
  match truthy_id cref with
  | Some c =>
      result <- execute_query
                  (sql_select
                     (fun t => scan (instrutor_join t (filter (fun r => in_cref r =? c)
                                                              (instrutor t))))) ;;
      match result with
      | [] => raise (PyExc "Instrutor não encontrado")
      | _ :: _ => ret result
      end
  | None =>
      execute_query
        (sql_select
           (fun t => order_by (fun a b => collate_leb (in_nome (fst a)) (in_nome (fst b)))
                              (scan (instrutor_join t (instrutor t)))))
  end.

Definition read_instrutor_por_cref (cref : Z)
  : Py (list (instrutor_row * option contato_instrutor_row)) :=
  execute_query
    (sql_select (fun t => scan (instrutor_join t (filter (fun r => in_cref r =? cref)
                                                         (instrutor t))))).

Definition update_instrutor (hoje : date) (cref : Z) (cpf nome : option string)
           (data_nascimento data_admissao : option date) (turno : option TurnoEnum)
  : Py unit :=
  let updates := [] in
  let updates := append_given Set_instrutor_cpf cpf updates in
  let updates := append_given Set_instrutor_nome nome updates in
  let updates := append_given Set_instrutor_data_nascimento data_nascimento updates in
  let updates := append_given Set_data_admissao data_admissao updates in
  let updates := append_given Set_instrutor_turno turno updates in
  match updates with
  | [] => ret tt
  | _ :: _ => execute_query (sql_update_instrutor hoje updates cref)
  end.

Definition delete_instrutor (cref : Z) : Py unit :=
  execute_query (sql_delete_instrutor cref).

(** *** Relatório: the view [vw_relatorio_alunos], which has no [ORDER BY]
    of its own, read in the order of the names *)

Record relatorio_row : Type := mk_relatorio {
  re_matricula : Z;
  re_nome_aluno : string;
  re_cpf : string;
  re_idade : Z;
  re_data_matricula : date;
  re_nome_plano : string;
  re_valor_plano : Z
}.

Definition vw_relatorio_alunos (hoje : date) (t : Tables) : list relatorio_row :=
  scan
    (flat_map
       (fun a =>
          map (fun p => mk_relatorio (al_matricula a) (al_nome a) (al_cpf a)
                                     (idade_em_anos hoje (al_data_nascimento a))
                                     (al_data_matricula a) (pl_nome_plano p) (pl_preco p))
              (filter (fun p => al_codigo_plano a =? pl_codigo_plano p) (plano t)))
       (aluno t)).

Definition get_relatorio_alunos (hoje : date) : Py (list relatorio_row) :=
  execute_query
    (sql_select (fun t => order_by (fun a b => collate_leb (re_nome_aluno a) (re_nome_aluno b))
                                   (vw_relatorio_alunos hoje t))).

(** ** Request and response models ([schemas.py]) *)

Record ContatoBase : Type := mk_ContatoBase {
  cb_telefone : string;
  cb_email : option string
}.

Record PlanoCreate : Type := mk_PlanoCreate {
  pc_nome_plano : string;
  pc_preco : pyfloat;
  pc_descricao : option string
}.

Record PlanoUpdate : Type := mk_PlanoUpdate {
  pu_nome_plano : option string;
  pu_preco : option pyfloat;
  pu_descricao : option string
}.

(** [PlanoResponse] inherits [nome_plano: str] and [preco: float] from
    [PlanoBase]: both are required and cannot be [None]. *)
Record PlanoResponse : Type := mk_PlanoResponse {
  pr_codigo_plano : Z;
  pr_nome_plano : string;
  pr_preco : pyfloat;
  pr_descricao : option string
}.

Record AlunoCreate : Type := mk_AlunoCreate {
  ac_cpf : string;
  ac_nome : string;
  ac_sexo : SexoEnum;
  ac_data_nascimento : date;
  ac_data_matricula : date;
  ac_codigo_plano : Z;
  ac_contato : ContatoBase
}.

Record AlunoUpdate : Type := mk_AlunoUpdate {
  au_cpf : option string;
  au_nome : option string;
  au_sexo : option SexoEnum;
  au_data_nascimento : option date;
  au_data_matricula : option date;
  au_codigo_plano : option Z;
  au_contato : option ContatoBase
}.

Record BioimpedanciaCreate : Type := mk_BioimpedanciaCreate {
  bc_matricula : Z;
  bc_peso : pyfloat;
  bc_altura : pyfloat;
  bc_tmb : Z;
  bc_percentual_gordura : pyfloat;
  bc_quantidade_agua : pyfloat
}.

Record InstrutorCreate : Type := mk_InstrutorCreate {
  ic_cpf : string;
  ic_nome : string;
  ic_data_nascimento : date;
  ic_data_admissao : date;
  ic_turno : TurnoEnum;
  ic_cref : Z;
  ic_contato : ContatoBase
}.

Record InstrutorUpdate : Type := mk_InstrutorUpdate {
  iu_cpf : option string;
  iu_nome : option string;
  iu_data_nascimento : option date;
  iu_data_admissao : option date;
  iu_turno : option TurnoEnum;
  iu_contato : option ContatoBase
}.

Record TurmaCreate : Type := mk_TurmaCreate {
  tc_nome_atividade : string;
  tc_quantidade_vagas : Z;
  tc_turno : TurnoEnum;
  tc_cref : Z
}.

Record TurmaUpdate : Type := mk_TurmaUpdate {
  tup_nome_atividade : option string;
  tup_quantidade_vagas : option Z;
  tup_turno : option TurnoEnum;
  tup_cref : option Z
}.

(** The dictionaries of [utils/helpers.py], and [TurmaResponse.from_tuple]. *)

Record ContatoDict : Type := mk_ContatoDict {
  cd_telefone : option string;
  cd_email : option string
}.

Record AlunoDict : Type := mk_AlunoDict {
  ad_matricula : Z;
  ad_cpf : string;
  ad_nome : string;
  ad_sexo : SexoEnum;
  ad_data_nascimento : date;
  ad_data_matricula : date;
  ad_codigo_plano : Z;
  ad_contato : option ContatoDict
}.

Record InstrutorDict : Type := mk_InstrutorDict {
  id_cref : Z;
  id_cpf : string;
  id_nome : string;
  id_data_nascimento : date;
  id_data_admissao : date;
  id_turno : TurnoEnum;
  id_contato : option ContatoDict
}.


(** [float(row[2])]: the stored hundredths as a number. *)
Definition plano_to_dict (row : plano_row) : PlanoResponse :=
  mk_PlanoResponse (pl_codigo_plano row) (pl_nome_plano row) (Dec (pl_preco row) 2)
                   (pl_descricao row).

(** [{...} if row[7] or row[8] else None] *)
Definition contato_to_dict (telefone email : option string) : option ContatoDict :=
  if truthy_string telefone || truthy_string email
  then Some (mk_ContatoDict telefone email)
  else None.

Definition aluno_to_dict (row : aluno_row * option contato_aluno_row) : AlunoDict :=
  let a := fst row in
  mk_AlunoDict (al_matricula a) (al_cpf a) (al_nome a) (al_sexo a) (al_data_nascimento a)
               (al_data_matricula a) (al_codigo_plano a)
               (contato_to_dict (option_map ca_telefone (snd row))
                                (match snd row with Some c => ca_email c | None => None end)).

Definition bioimpedancia_to_dict (row : bioimpedancia_row) : bioimpedancia_row :=
  mk_bioimpedancia (bi_matricula row) (bi_peso row) (bi_altura row) (bi_tmb row)
                   (bi_percentual_gordura row) (bi_quantidade_agua row).

Definition instrutor_to_dict (row : instrutor_row * option contato_instrutor_row)
  : InstrutorDict :=
  let i := fst row in
  mk_InstrutorDict (in_cref i) (in_cpf i) (in_nome i) (in_data_nascimento i)
                   (in_data_admissao i) (in_turno i)
                   (contato_to_dict (option_map ci_telefone (snd row))
                                    (match snd row with Some c => ci_email c | None => None end)).


(** [PlanoResponse(codigo_plano=..., **plano.model_dump())]: pydantic
    refuses [None] for a required field. *)
Definition PlanoResponse_init (codigo_plano : Z) (nome_plano : option string)
           (preco : option pyfloat) (descricao : option string) : Py PlanoResponse :=
  match nome_plano, preco with
  | Some n, Some p => ret (mk_PlanoResponse codigo_plano n p descricao)
  | None, Some _ => raise (ValidationError "PlanoResponse" "nome_plano")
  | Some _, None => raise (ValidationError "PlanoResponse" "preco")
  | None, None => raise (ValidationError "PlanoResponse" "nome_plano, preco")
  end.

(** ** Routes ([routes/api.py]) *)

(** The store between two requests. *)
Record Db : Type := mk_db {
  db_tables : Tables;
  db_seqs : Seqs
}.

Definition init_database : Db := mk_db empty_tables fresh_seqs.

Definition get_connection (db : Db) : Conn :=
  mk_conn (db_tables db) (db_tables db) (db_seqs db).

(** A connection that is dropped loses what it did not commit. *)
Definition close_connection (c : Conn) : Db := mk_db (committed c) (seqs c).

(** What the client receives: the body with its status code, or the error
    raised as [HTTPException(status_code, detail)], where [detail] is the
    text of the exception carried. *)
Inductive Response (A : Type) : Type :=
| Reply (status_code : Z) (body : A)
| HTTPError (status_code : Z) (detail : PyException).

#[global] Arguments Reply {A} status_code body.
#[global] Arguments HTTPError {A} status_code detail.

(** The store a handler leaves behind. *)
Definition store_after {A : Type} (handler : Py A) (db : Db) : Db :=
  close_connection (snd (handler (get_connection db))).

(** [try: ... except Exception as e: raise HTTPException(400, detail=str(e))];
    with [reraise_http], [except HTTPException as he: raise he] comes first. *)
Definition respond {A : Type} (status_code : Z) (reraise_http : bool) (handler : Py A)
           (db : Db) : Response A * Db :=
  (match fst (handler (get_connection db)) with
   | inr body => Reply status_code body
   | inl (HTTPExc s d) => if reraise_http then HTTPError s (HTTPExc s d)
                          else HTTPError 400 (HTTPExc s d)
   | inl e => HTTPError 400 e
   end,
   store_after handler db).

(** *** Planos *)

Definition criar_plano (p : PlanoCreate) : Db -> Response PlanoResponse * Db :=
  respond 201 false
    (codigo <- create_plano (pc_nome_plano p) (pc_preco p) (pc_descricao p) ;;
     commit ;;;
     PlanoResponse_init codigo (Some (pc_nome_plano p)) (Some (pc_preco p))
                        (pc_descricao p)).


Definition atualizar_plano (codigo_plano : Z) (p : PlanoUpdate)
  : Db -> Response PlanoResponse * Db :=
  respond 200 false
    (update_plano codigo_plano (pu_nome_plano p) (pu_preco p) (pu_descricao p) ;;;
     commit ;;;
     PlanoResponse_init codigo_plano (pu_nome_plano p) (pu_preco p) (pu_descricao p)).

Definition deletar_plano (codigo_plano : Z) : Db -> Response string * Db :=
  respond 204 false
    (delete_plano codigo_plano ;;;
     commit ;;;
     ret "Plano deletado com sucesso").

(** *** Alunos

    For the routes that create or update a student, a measurement, an
    instructor or a class, only the store they leave is described. *)

Definition criar_aluno (a : AlunoCreate) : Db -> Db :=
  store_after
    (matricula <- create_aluno (ac_cpf a) (ac_nome a) (ac_sexo a) (ac_data_nascimento a)
                               (ac_data_matricula a) (ac_codigo_plano a) ;;
     create_contato_aluno matricula (cb_telefone (ac_contato a)) (cb_email (ac_contato a)) ;;;
     commit).


Definition atualizar_aluno (matricula : Z) (a : AlunoUpdate) : Db -> Db :=
  store_after
    (update_aluno matricula (au_cpf a) (au_nome a) (au_sexo a) (au_data_nascimento a)
                  (au_data_matricula a) (au_codigo_plano a) ;;;
     match au_contato a with
     | Some contato =>
         update_contato_aluno matricula (Some (cb_telefone contato)) (cb_email contato)
     | None => ret tt
     end ;;;
     commit).

Definition deletar_aluno (matricula : Z) : Db -> Response string * Db :=
  respond 204 false
    (delete_aluno matricula ;;;
     commit ;;;
     ret "Aluno deletado com sucesso").

(** *** Bioimpedância *)

Definition criar_bioimpedancia (bio : BioimpedanciaCreate) : Db -> Db :=
  store_after
    (create_bioimpedancia (bc_matricula bio) (bc_peso bio) (bc_altura bio) (bc_tmb bio)
                          (bc_percentual_gordura bio) (bc_quantidade_agua bio) ;;;
     commit).


(** The route takes a [BioimpedanciaCreate]: every field is present. *)
Definition atualizar_bioimpedancia (matricula : Z) (bio : BioimpedanciaCreate) : Db -> Db :=
  store_after
    (update_bioimpedancia matricula (Some (bc_peso bio)) (Some (bc_altura bio))
                          (Some (bc_tmb bio)) (Some (bc_percentual_gordura bio))
                          (Some (bc_quantidade_agua bio)) ;;;
     commit).

Definition deletar_bioimpedancia (matricula : Z) : Db -> Response string * Db :=
  respond 204 false
    (delete_bioimpedancia matricula ;;;
     commit ;;;
     ret "Medição deletada com sucesso").

(** *** Instrutores *)

Definition criar_instrutor (hoje : date) (i : InstrutorCreate) : Db -> Db :=
  store_after
    (create_instrutor hoje (ic_cref i) (ic_cpf i) (ic_nome i) (ic_data_nascimento i)
                      (ic_data_admissao i) (ic_turno i) ;;;
     create_contato_instrutor (ic_cref i) (cb_telefone (ic_contato i))
                              (cb_email (ic_contato i)) ;;;
     commit).


Definition atualizar_instrutor (hoje : date) (cref : Z) (i : InstrutorUpdate) : Db -> Db :=
  store_after
    (update_instrutor hoje cref (iu_cpf i) (iu_nome i) (iu_data_nascimento i)
                      (iu_data_admissao i) (iu_turno i) ;;;
     match iu_contato i with
     | Some contato =>
         update_contato_instrutor cref (Some (cb_telefone contato)) (cb_email contato)
     | None => ret tt
     end ;;;
     commit).

Definition deletar_instrutor (cref : Z) : Db -> Response string * Db :=
  respond 204 false
    (delete_instrutor cref ;;;
     commit ;;;
     ret "Instrutor deletado com sucesso").

(** *** Turmas *)

Definition criar_turma (turma : TurmaCreate) : Db -> Db :=
  store_after
    (instrutor_result <- read_instrutor_por_cref (tc_cref turma) ;;
     match instrutor_result with
     | [] => raise (HTTPExc 404 "Instrutor não encontrado")
     | _ :: _ =>
         create_turma (tc_nome_atividade turma) (tc_quantidade_vagas turma)
                      (tc_turno turma) (tc_cref turma) ;;;
         commit
     end).


Definition atualizar_turma (id_turma : Z) (turma : TurmaUpdate) : Db -> Db :=
  store_after
    (update_turma id_turma (tup_nome_atividade turma) (tup_quantidade_vagas turma)
                  (tup_turno turma) (tup_cref turma) ;;;
     commit).

Definition deletar_turma (id_turma : Z) : Db -> Response string * Db :=
  respond 204 false
    (delete_turma id_turma ;;;
     commit ;;;
     ret "Turma deletada com sucesso").

Definition matricular_aluno_turma (id_turma matricula : Z) : Db -> Response string * Db :=
  respond 201 false
    (create_matricula_turma id_turma matricula ;;;
     commit ;;;
     ret "Aluno matriculado com sucesso").

Definition remover_aluno_turma (id_turma matricula : Z) : Db -> Response string * Db :=
  respond 204 false
    (delete_matricula_turma id_turma matricula ;;;
     commit ;;;
     ret "Aluno removido da turma com sucesso").

(** *** Relatórios *)

Definition relatorio_alunos (hoje : date) (skip limit : Z)
  : Db -> Response (list relatorio_row) * Db :=
  respond 200 false
    (result <- get_relatorio_alunos hoje ;;
     ret (py_slice (map (fun row => row) result) skip (skip + limit))).

(** ** The requests that write, and the store they leave *)

Inductive Request : Type :=
| CriarPlano (p : PlanoCreate)
| AtualizarPlano (codigo_plano : Z) (p : PlanoUpdate)
| DeletarPlano (codigo_plano : Z)
| CriarAluno (a : AlunoCreate)
| AtualizarAluno (matricula : Z) (a : AlunoUpdate)
| DeletarAluno (matricula : Z)
| CriarBioimpedancia (bio : BioimpedanciaCreate)
| AtualizarBioimpedancia (matricula : Z) (bio : BioimpedanciaCreate)
| DeletarBioimpedancia (matricula : Z)
| CriarInstrutor (i : InstrutorCreate)
| AtualizarInstrutor (cref : Z) (i : InstrutorUpdate)
| DeletarInstrutor (cref : Z)
| CriarTurma (t : TurmaCreate)
| AtualizarTurma (id_turma : Z) (t : TurmaUpdate)
| DeletarTurma (id_turma : Z)
| MatricularAlunoTurma (id_turma matricula : Z)
| RemoverAlunoTurma (id_turma matricula : Z).

(** [hoje] is the current date of the store when the request is served. *)
Definition serve (hoje : date) (r : Request) (db : Db) : Db :=
  match r with
  | CriarPlano p => snd (criar_plano p db)
  | AtualizarPlano c p => snd (atualizar_plano c p db)
  | DeletarPlano c => snd (deletar_plano c db)
  | CriarAluno a => criar_aluno a db
  | AtualizarAluno m a => atualizar_aluno m a db
  | DeletarAluno m => snd (deletar_aluno m db)
  | CriarBioimpedancia b => criar_bioimpedancia b db
  | AtualizarBioimpedancia m b => atualizar_bioimpedancia m b db
  | DeletarBioimpedancia m => snd (deletar_bioimpedancia m db)
  | CriarInstrutor i => criar_instrutor hoje i db
  | AtualizarInstrutor c i => atualizar_instrutor hoje c i db
  | DeletarInstrutor c => snd (deletar_instrutor c db)
  | CriarTurma t => criar_turma t db
  | AtualizarTurma i t => atualizar_turma i t db
  | DeletarTurma i => snd (deletar_turma i db)
  | MatricularAlunoTurma i m => snd (matricular_aluno_turma i m db)
  | RemoverAlunoTurma i m => snd (remover_aluno_turma i m db)
  end.

(** Requests served one after the other, all on the same day. *)
Definition serve_all (hoje : date) (rs : list Request) (db : Db) : Db :=
  fold_left (fun acc r => serve hoje r acc) rs db.

(** ** Integrity of the stored data *)

(** Primary keys and [UNIQUE] columns. *)
Record chaves_unicas (t : Tables) : Prop := mk_chaves_unicas {
  pk_plano : NoDup (map pl_codigo_plano (plano t));
  pk_aluno : NoDup (map al_matricula (aluno t));
  uq_aluno_cpf : NoDup (map al_cpf (aluno t));
  pk_contato_aluno : NoDup (map ca_telefone (contato_aluno t));
  pk_bioimpedancia : NoDup (map bi_matricula (bioimpedancia t));
  pk_instrutor : NoDup (map in_cref (instrutor t));
  uq_instrutor_cpf : NoDup (map in_cpf (instrutor t));
  pk_contato_instrutor : NoDup (map ci_telefone (contato_instrutor t));
  pk_turma : NoDup (map tu_id_turma (turma t));
  pk_turma_instrutor_aluno : NoDup (turma_instrutor_aluno t)
}.

(** Foreign keys: every dependent row has its parent. *)
Record sem_orfaos (t : Tables) : Prop := mk_sem_orfaos {
  fk_aluno_plano :
    forall a, In a (aluno t) -> In (al_codigo_plano a) (map pl_codigo_plano (plano t));
  fk_contato_aluno :
    forall c, In c (contato_aluno t) -> In (ca_matricula c) (map al_matricula (aluno t));
  fk_bioimpedancia :
    forall b, In b (bioimpedancia t) -> In (bi_matricula b) (map al_matricula (aluno t));
  fk_contato_instrutor :
    forall c, In c (contato_instrutor t) -> In (ci_cref c) (map in_cref (instrutor t));
  fk_turma_instrutor :
    forall c, In c (turma t) -> In (tu_cref c) (map in_cref (instrutor t));
  fk_matricula_turma :
    forall e, In e (turma_instrutor_aluno t) -> In (fst e) (map tu_id_turma (turma t));
  fk_matricula_aluno :
    forall e, In e (turma_instrutor_aluno t) -> In (snd e) (map al_matricula (aluno t))
}.

(** [CHECK (quantidade_vagas > 0)] *)
Definition vagas_positivas (t : Tables) : Prop :=
  forall c, In c (turma t) -> 0 < tu_quantidade_vagas c.

(** The keys are [INTEGER] values. *)
Record chaves_int4 (t : Tables) : Prop := mk_chaves_int4 {
  i4_plano : forall r, In r (plano t) -> int4_ok (pl_codigo_plano r) = true;
  i4_aluno : forall r, In r (aluno t) -> int4_ok (al_matricula r) = true;
  i4_instrutor : forall r, In r (instrutor t) -> int4_ok (in_cref r) = true;
  i4_turma : forall r, In r (turma t) -> int4_ok (tu_id_turma r) = true
}.

(** No identifier of a [SERIAL] column is ahead of its sequence. *)
Record seqs_ok (t : Tables) (q : Seqs) : Prop := mk_seqs_ok {
  sq_plano : forall r, In r (plano t) -> pl_codigo_plano r <= plano_codigo_plano_seq q;
  sq_aluno : forall r, In r (aluno t) -> al_matricula r <= aluno_matricula_seq q;
  sq_turma : forall r, In r (turma t) -> tu_id_turma r <= turma_id_turma_seq q
}.

Record wf_tables (t : Tables) : Prop := mk_wf_tables {
  wf_chaves : chaves_unicas t;
  wf_orfaos : sem_orfaos t;
  wf_vagas : vagas_positivas t;
  wf_int4 : chaves_int4 t
}.

Definition wf_store (t : Tables) (q : Seqs) : Prop := wf_tables t /\ seqs_ok t q.

Definition wf_db (db : Db) : Prop := wf_store (db_tables db) (db_seqs db).

(** The same, as a test that can be run on given tables. *)
Fixpoint nodup_pairb (l : list matricula_turma_row) : bool :=
  match l with
  | [] => true
  | x :: r => negb (existsb (eqb_matricula_turma x) r) && nodup_pairb r
  end.

Definition chaves_unicasb (t : Tables) : bool :=
  nodup_Zb (map pl_codigo_plano (plano t)) &&
  nodup_Zb (map al_matricula (aluno t)) &&
  nodup_stringb (map al_cpf (aluno t)) &&
  nodup_stringb (map ca_telefone (contato_aluno t)) &&
  nodup_Zb (map bi_matricula (bioimpedancia t)) &&
  nodup_Zb (map in_cref (instrutor t)) &&
  nodup_stringb (map in_cpf (instrutor t)) &&
  nodup_stringb (map ci_telefone (contato_instrutor t)) &&
  nodup_Zb (map tu_id_turma (turma t)) &&
  nodup_pairb (turma_instrutor_aluno t).

Definition sem_orfaosb (t : Tables) : bool :=
  forallb (fun a => mem_Z (al_codigo_plano a) (map pl_codigo_plano (plano t))) (aluno t) &&
  forallb (fun c => mem_Z (ca_matricula c) (map al_matricula (aluno t))) (contato_aluno t) &&
  forallb (fun b => mem_Z (bi_matricula b) (map al_matricula (aluno t))) (bioimpedancia t) &&
  forallb (fun c => mem_Z (ci_cref c) (map in_cref (instrutor t))) (contato_instrutor t) &&
  forallb (fun c => mem_Z (tu_cref c) (map in_cref (instrutor t))) (turma t) &&
  forallb (fun e => mem_Z (fst e) (map tu_id_turma (turma t))) (turma_instrutor_aluno t) &&
  forallb (fun e => mem_Z (snd e) (map al_matricula (aluno t))) (turma_instrutor_aluno t).

Definition chaves_int4b (t : Tables) : bool :=
  forallb (fun r => int4_ok (pl_codigo_plano r)) (plano t) &&
  forallb (fun r => int4_ok (al_matricula r)) (aluno t) &&
  forallb (fun r => int4_ok (in_cref r)) (instrutor t) &&
  forallb (fun r => int4_ok (tu_id_turma r)) (turma t).

Definition wf_tablesb (t : Tables) : bool :=
  chaves_unicasb t && sem_orfaosb t &&
  forallb (fun c => 0 <? tu_quantidade_vagas c) (turma t) &&
  chaves_int4b t.

(** ** The seat invariant *)

(** No class holds more enrolments than it has seats. *)
Definition capacidade_ok (t : Tables) : Prop :=
  forall c, In c (turma t) -> count_matriculas (tu_id_turma c) t <= tu_quantidade_vagas c.

(** A request that sets the seats of a class below its current number of
    enrolments. *)
Definition reduz_vagas (r : Request) (db : Db) : bool :=
  match r with
  | AtualizarTurma id_turma t =>
      match tup_quantidade_vagas t with
      | Some vagas => vagas <? count_matriculas id_turma (db_tables db)
      | None => false
      end
  | _ => false
  end.

(** The stores the routes can produce from a fresh database. *)
Inductive reachable : Db -> Prop :=
| reachable_init : reachable init_database
| reachable_serve : forall hoje r db, reachable db -> reachable (serve hoje r db).

(** The same, without the requests that cut seats below the enrolments. *)
Inductive reachable_sem_reducao : Db -> Prop :=
| rsr_init : reachable_sem_reducao init_database
| rsr_serve : forall hoje r db,
    reachable_sem_reducao db -> reduz_vagas r db = false ->
    reachable_sem_reducao (serve hoje r db).

(** ** Sample data *)

(** A stand-in for the age check of the store, on the side of caution:
    18 years never have more than 6575 days, so whoever passes is of age. *)
Definition maioridade_exemplo (hoje nascimento : date) : bool :=
  6575 <=? hoje - nascimento.

(** Likewise for the age in whole years. *)
Definition idade_exemplo (hoje nascimento : date) : Z :=
  (hoje - nascimento) / 365.

(** Two orders of the rows on disk: as they were inserted, and the other
    way round. *)
Definition ordem_insercao : Scan :=
  mk_scan (fun A l => l) (fun A l => Permutation_refl l).

Definition ordem_inversa : Scan :=
  mk_scan (fun A l => rev l) (fun A l => Permutation_sym (Permutation_rev l)).

Definition cenario_turma_cheia : list Request :=
  [ CriarPlano (mk_PlanoCreate "Basic" (Dec 50 0) None);
    CriarPlano (mk_PlanoCreate "Premium" (Dec 1000 1) (Some "Acesso completo"));
    CriarInstrutor (mk_InstrutorCreate "11111111111" "Ana" 1000 19000 MANHA 77
                                       (mk_ContatoBase "(11)99999-0000" None));
    CriarTurma (mk_TurmaCreate "Yoga" 2 MANHA 77);
    CriarTurma (mk_TurmaCreate "Pilates" 1 TARDE 77);
    CriarAluno (mk_AlunoCreate "22222222222" "Bia" FEMININO 5000 19990 1
                               (mk_ContatoBase "(11)99999-0001" None));
    CriarAluno (mk_AlunoCreate "33333333333" "Caio" MASCULINO 5000 19990 2
                               (mk_ContatoBase "(11)99999-0002" None));
    MatricularAlunoTurma 1 1;
    MatricularAlunoTurma 1 2 ].

(** The same, followed by a cut of the seats of the full class. *)
Definition cenario_reducao : list Request :=
  cenario_turma_cheia ++ [ AtualizarTurma 1 (mk_TurmaUpdate None (Some 1) None None) ].

(** The tables [cenario_turma_cheia] leaves: class 1 is full, class 2 is
    empty. *)
Definition tabelas_exemplo : Tables :=
  mk_tables
    [ mk_plano 1 "Basic" 5000 None; mk_plano 2 "Premium" 10000 (Some "Acesso completo") ]
    [ mk_aluno 1 "22222222222" "Bia" FEMININO 5000 19990 1;
      mk_aluno 2 "33333333333" "Caio" MASCULINO 5000 19990 2 ]
    [ mk_contato_aluno "(11)99999-0001" None 1; mk_contato_aluno "(11)99999-0002" None 2 ]
    []
    [ mk_instrutor 77 "11111111111" "Ana" 1000 19000 MANHA ]
    [ mk_contato_instrutor "(11)99999-0000" None 77 ]
    [ mk_turma 1 "Yoga" 2 MANHA 77; mk_turma 2 "Pilates" 1 TARDE 77 ]
    [ (1, 1); (1, 2) ].

Definition db_exemplo : Db := mk_db tabelas_exemplo (mk_seqs 2 2 2).

(** ** What statements and handlers preserve *)

Definition seqs_le (q q' : Seqs) : Prop :=
  plano_codigo_plano_seq q <= plano_codigo_plano_seq q' /\
  aluno_matricula_seq q <= aluno_matricula_seq q' /\
  turma_id_turma_seq q <= turma_id_turma_seq q'.

(** A statement keeps the store well formed and never rewinds a sequence. *)
Definition stmt_ok {A : Type} (s : Stmt A) : Prop :=
  forall t q, wf_store t q ->
    seqs_le q (snd (s t q)) /\
    match fst (s t q) with
    | inr (_, t') => wf_store t' (snd (s t q))
    | inl _ => True
    end.

(** A statement keeps a further property [P] of well-formed tables. *)
Definition stmt_keeps (P : Tables -> Prop) {A : Type} (s : Stmt A) : Prop :=
  forall t q, wf_store t q -> P t ->
    match fst (s t q) with
    | inr (_, t') => P t'
    | inl _ => True
    end.

Definition conn_ok (P : Tables -> Prop) (c : Conn) : Prop :=
  (wf_store (committed c) (seqs c) /\ P (committed c)) /\
  (wf_store (working c) (seqs c) /\ P (working c)).

Definition py_keeps_at (P : Tables -> Prop) {A : Type} (m : Py A) (c : Conn) : Prop :=
  conn_ok P c -> conn_ok P (snd (m c)).

Definition py_keeps (P : Tables -> Prop) {A : Type} (m : Py A) : Prop :=
  forall c, py_keeps_at P m c.

Definition db_ok (P : Tables -> Prop) (db : Db) : Prop :=
  wf_db db /\ P (db_tables db).

(** ** Partial updates, field by field

    The update as the specification words it: one optional value per
    mutable field, an absent one keeping what is stored, a present one
    stored as its column keeps it.  The [update_*] functions build a [SET]
    list instead; the two are compared below. *)

Definition patch_plano (nome_plano : option string) (preco : option pyfloat)
           (descricao : option string) (r : plano_row) : plano_row :=
  mk_plano (pl_codigo_plano r) (opt_set (opt_varchar 45 nome_plano) (pl_nome_plano r))
           (opt_set (option_map hundredths preco) (pl_preco r))
           (opt_set_nullable (opt_varchar 180 descricao) (pl_descricao r)).

Definition patch_turma (nome_atividade : option string) (quantidade_vagas : option Z)
           (turno : option TurnoEnum) (cref : option Z) (r : turma_row) : turma_row :=
  mk_turma (tu_id_turma r) (opt_set (opt_varchar 45 nome_atividade) (tu_nome_atividade r))
           (opt_set quantidade_vagas (tu_quantidade_vagas r))
           (opt_set turno (tu_turno r)) (opt_set cref (tu_cref r)).

Definition patch_aluno (cpf nome : option string) (sexo : option SexoEnum)
           (data_nascimento data_matricula : option date) (codigo_plano : option Z)
           (r : aluno_row) : aluno_row :=
  mk_aluno (al_matricula r) (opt_set (opt_varchar 11 cpf) (al_cpf r))
           (opt_set (opt_varchar 45 nome) (al_nome r))
           (opt_set sexo (al_sexo r)) (opt_set data_nascimento (al_data_nascimento r))
           (opt_set data_matricula (al_data_matricula r))
           (opt_set codigo_plano (al_codigo_plano r)).

Definition patch_contato_aluno (telefone email : option string) (r : contato_aluno_row)
  : contato_aluno_row :=
  mk_contato_aluno (opt_set (opt_varchar 15 telefone) (ca_telefone r))
                   (opt_set_nullable (opt_varchar 45 email) (ca_email r))
                   (ca_matricula r).

Definition patch_contato_instrutor (telefone email : option string)
           (r : contato_instrutor_row) : contato_instrutor_row :=
  mk_contato_instrutor (opt_set (opt_varchar 15 telefone) (ci_telefone r))
                       (opt_set_nullable (opt_varchar 45 email) (ci_email r)) (ci_cref r).

Definition patch_bioimpedancia (peso altura : option pyfloat) (tmb : option Z)
           (percentual_gordura quantidade_agua : option pyfloat)
           (r : bioimpedancia_row) : bioimpedancia_row :=
  mk_bioimpedancia (bi_matricula r) (opt_set (option_map hundredths peso) (bi_peso r))
                   (opt_set (option_map hundredths altura) (bi_altura r))
                   (opt_set tmb (bi_tmb r))
                   (opt_set (option_map hundredths percentual_gordura)
                            (bi_percentual_gordura r))
                   (opt_set (option_map hundredths quantidade_agua) (bi_quantidade_agua r)).

Definition patch_instrutor (cpf nome : option string) (data_nascimento data_admissao : option date)
           (turno : option TurnoEnum) (r : instrutor_row) : instrutor_row :=
  mk_instrutor (in_cref r) (opt_set (opt_varchar 11 cpf) (in_cpf r))
               (opt_set (opt_varchar 30 nome) (in_nome r))
               (opt_set data_nascimento (in_data_nascimento r))
               (opt_set data_admissao (in_data_admissao r)) (opt_set turno (in_turno r)).

(** A stored row [old] and the row [new] in its place after an update of
    the entity [key]: rows of other entities are left alone, the addressed
    row is patched, and whatever was passed as absent is as it was. *)

Definition mantem_plano (codigo_plano : Z) (nome_plano : option string)
           (preco : option pyfloat) (descricao : option string) (old new : plano_row)
  : Prop :=
  new = (if pl_codigo_plano old =? codigo_plano
         then patch_plano nome_plano preco descricao old else old) /\
  pl_codigo_plano new = pl_codigo_plano old /\
  (nome_plano = None -> pl_nome_plano new = pl_nome_plano old) /\
  (preco = None -> pl_preco new = pl_preco old) /\
  (descricao = None -> pl_descricao new = pl_descricao old).

Definition mantem_turma (id_turma : Z) (nome_atividade : option string)
           (quantidade_vagas : option Z) (turno : option TurnoEnum) (cref : option Z)
           (old new : turma_row) : Prop :=
  new = (if tu_id_turma old =? id_turma
         then patch_turma nome_atividade quantidade_vagas turno cref old else old) /\
  tu_id_turma new = tu_id_turma old /\
  (nome_atividade = None -> tu_nome_atividade new = tu_nome_atividade old) /\
  (quantidade_vagas = None -> tu_quantidade_vagas new = tu_quantidade_vagas old) /\
  (turno = None -> tu_turno new = tu_turno old) /\
  (cref = None -> tu_cref new = tu_cref old).

Definition mantem_aluno (matricula : Z) (cpf nome : option string) (sexo : option SexoEnum)
           (data_nascimento data_matricula : option date) (codigo_plano : option Z)
           (old new : aluno_row) : Prop :=
  new = (if al_matricula old =? matricula
         then patch_aluno cpf nome sexo data_nascimento data_matricula codigo_plano old
         else old) /\
  al_matricula new = al_matricula old /\
  (cpf = None -> al_cpf new = al_cpf old) /\
  (nome = None -> al_nome new = al_nome old) /\
  (sexo = None -> al_sexo new = al_sexo old) /\
  (data_nascimento = None -> al_data_nascimento new = al_data_nascimento old) /\
  (data_matricula = None -> al_data_matricula new = al_data_matricula old) /\
  (codigo_plano = None -> al_codigo_plano new = al_codigo_plano old).

Definition mantem_contato_aluno (matricula : Z) (telefone email : option string)
           (old new : contato_aluno_row) : Prop :=
  new = (if ca_matricula old =? matricula
         then patch_contato_aluno telefone email old else old) /\
  ca_matricula new = ca_matricula old /\
  (telefone = None -> ca_telefone new = ca_telefone old) /\
  (email = None -> ca_email new = ca_email old).

Definition mantem_contato_instrutor (cref : Z) (telefone email : option string)
           (old new : contato_instrutor_row) : Prop :=
  new = (if ci_cref old =? cref
         then patch_contato_instrutor telefone email old else old) /\
  ci_cref new = ci_cref old /\
  (telefone = None -> ci_telefone new = ci_telefone old) /\
  (email = None -> ci_email new = ci_email old).

Definition mantem_bioimpedancia (matricula : Z) (peso altura : option pyfloat)
           (tmb : option Z) (percentual_gordura quantidade_agua : option pyfloat)
           (old new : bioimpedancia_row) : Prop :=
  new = (if bi_matricula old =? matricula
         then patch_bioimpedancia peso altura tmb percentual_gordura quantidade_agua old
         else old) /\
  bi_matricula new = bi_matricula old /\
  (peso = None -> bi_peso new = bi_peso old) /\
  (altura = None -> bi_altura new = bi_altura old) /\
  (tmb = None -> bi_tmb new = bi_tmb old) /\
  (percentual_gordura = None -> bi_percentual_gordura new = bi_percentual_gordura old) /\
  (quantidade_agua = None -> bi_quantidade_agua new = bi_quantidade_agua old).

Definition mantem_instrutor (cref : Z) (cpf nome : option string)
           (data_nascimento data_admissao : option date) (turno : option TurnoEnum)
           (old new : instrutor_row) : Prop :=
  new = (if in_cref old =? cref
         then patch_instrutor cpf nome data_nascimento data_admissao turno old else old) /\
  in_cref new = in_cref old /\
  (cpf = None -> in_cpf new = in_cpf old) /\
  (nome = None -> in_nome new = in_nome old) /\
  (data_nascimento = None -> in_data_nascimento new = in_data_nascimento old) /\
  (data_admissao = None -> in_data_admissao new = in_data_admissao old) /\
  (turno = None -> in_turno new = in_turno old).

(** What an [update_*] call may do to the connection [c]: it commits
    nothing and moves no sequence; when it returns, one table of the open
    transaction was rewritten row by row under [rel] and the other tables
    are as before; when it raises, the transaction is back at the last
    commit. *)
Definition so_escreve {R : Type} (tbl : Tables -> list R)
           (set_tbl : list R -> Tables -> Tables) (rel : R -> R -> Prop)
           (c : Conn) (out : (PyException + unit) * Conn) : Prop :=
  committed (snd out) = committed c /\
  seqs (snd out) = seqs c /\
  match fst out with
  | inr _ => exists rows, working (snd out) = set_tbl rows (working c) /\
                          Forall2 rel (tbl (working c)) rows
  | inl _ => working (snd out) = committed c
  end.

(** ** Pages *)

(** The entries of [full] from position [skip] on, [limit] of them at
    most. *)
Definition pagina {A : Type} (full : list A) (skip limit : Z) : list A :=
  firstn (Z.to_nat limit) (skipn (Z.to_nat skip) full).

(** ** The routes that read one entity ([routes/api.py]) *)

(** [buscar_plano]: [except HTTPException as he: raise he] lets the 404
    through. *)
Definition buscar_plano (codigo_plano : Z) : Db -> Response PlanoResponse * Db :=
  respond 200 true
    (result <- read_plano (Some codigo_plano) ;;
     match result with
     | [] => raise (HTTPExc 404 "Plano não encontrado")
     | row :: _ => ret (plano_to_dict row)
     end).

Definition buscar_aluno (matricula : Z) : Db -> Response AlunoDict * Db :=
  respond 200 true
    (result <- read_aluno (Some matricula) ;;
     match result with
     | [] => raise (HTTPExc 404 "Aluno não encontrado")
     | row :: _ => ret (aluno_to_dict row)
     end).

Definition buscar_bioimpedancia (matricula : Z) : Db -> Response bioimpedancia_row * Db :=
  respond 200 true
    (result <- read_bioimpedancia (Some matricula) ;;
     match result with
     | [] => raise (HTTPExc 404 "Medição não encontrada")
     | row :: _ => ret (bioimpedancia_to_dict row)
     end).

Definition buscar_instrutor (cref : Z) : Db -> Response InstrutorDict * Db :=
  respond 200 true
    (result <- read_instrutor (Some cref) ;;
     match result with
     | [] => raise (HTTPExc 404 "Instrutor não encontrado")
     | row :: _ => ret (instrutor_to_dict row)
     end).

(** ** Helpers on untyped data ([utils/helpers.py]) *)

(** [validate_input(data, required_fields)]: [data] is a dictionary, given
    by its items; [field not in data] looks at the keys. *)
Fixpoint validate_input {V : Type} (data : list (string * V)) (required_fields : list string)
  : bool * string :=
  match required_fields with
  | [] => (true, "")
  | field :: rest =>
      if negb (mem_string field (map fst data))
      then (false, "Missing field: " ++ field)
      else validate_input data rest
  end.

(** The values found in the tuples that the store returns. *)
Inductive PyValue : Type :=
| PyNone
| PyInt (n : Z)
| PyStr (s : string)
| PyDate (d : date)
| PyList (l : list Z).

(** Truth value of a Python value ([x or y], [x if x else y]). *)
Definition py_truthy (v : PyValue) : bool :=
  match v with
  | PyNone => false
  | PyInt n => negb (n =? 0)
  | PyStr s => negb (String.eqb s "")
  | PyDate _ => true
  | PyList l => match l with [] => false | _ :: _ => true end
  end.

(** [row[i]]: a negative index counts from the end; [None] stands for
    [IndexError]. *)
Definition py_getitem (row : list PyValue) (i : Z) : option PyValue :=
  let len := Z.of_nat (List.length row) in
  let j := if i <? 0 then i + len else i in
  if (j <? 0) || (len <=? j) then None else nth_error row (Z.to_nat j).

Definition TurnoEnum_value (t : TurnoEnum) : string :=
  match t with
  | MANHA => "Manhã"
  | TARDE => "Tarde"
  | NOITE => "Noite"
  end.

Definition py_opt_str (o : option string) : PyValue :=
  match o with Some s => PyStr s | None => PyNone end.

(** The tuple of the eight columns that [read_instrutor] selects. *)
Definition instrutor_tuple (row : instrutor_row * option contato_instrutor_row)
  : list PyValue :=
  let i := fst row in
  [ PyInt (in_cref i); PyStr (in_cpf i); PyStr (in_nome i);
    PyDate (in_data_nascimento i); PyDate (in_data_admissao i);
    PyStr (TurnoEnum_value (in_turno i));
    py_opt_str (option_map ci_telefone (snd row));
    py_opt_str (match snd row with Some c => ci_email c | None => None end) ].

(** The tuple of the thirteen columns that [read_turma] selects. *)
Definition turma_tuple (row : turma_join_row) : list PyValue :=
  match row with
  | (tu, i, ci, alunos) =>
      [ PyInt (tu_id_turma tu); PyStr (tu_nome_atividade tu);
        PyInt (tu_quantidade_vagas tu); PyStr (TurnoEnum_value (tu_turno tu));
        PyInt (tu_cref tu);
        PyStr (in_cpf i); PyStr (in_nome i); PyDate (in_data_nascimento i);
        PyDate (in_data_admissao i); PyStr (TurnoEnum_value (in_turno i));
        py_opt_str (option_map ci_telefone ci);
        py_opt_str (match ci with Some c => ci_email c | None => None end);
        match alunos with Some l => PyList l | None => PyNone end ]
  end.

(** The dictionaries of [instrutor_to_dict] and [turma_to_dict], key by
    key, as they come out of the tuple. *)
Record InstrutorPyDict : Type := mk_InstrutorPyDict {
  ipd_cref : PyValue;
  ipd_cpf : PyValue;
  ipd_nome : PyValue;
  ipd_data_nascimento : PyValue;
  ipd_data_admissao : PyValue;
  ipd_turno : PyValue;
  ipd_contato : option (PyValue * PyValue)
}.

Record TurmaPyDict : Type := mk_TurmaPyDict {
  tpd_id_turma : PyValue;
  tpd_nome_atividade : PyValue;
  tpd_quantidade_vagas : PyValue;
  tpd_turno : PyValue;
  tpd_cref : PyValue;
  tpd_instrutor : InstrutorPyDict;
  tpd_alunos : PyValue
}.

Definition obind {A B : Type} (o : option A) (k : A -> option B) : option B :=
  match o with Some a => k a | None => None end.

(** [instrutor_to_dict] of [helpers.py], on a tuple: keys [cref] to [turno]
    read [row[0]] to [row[5]], and [contato] is
    [{"telefone": row[6], "email": row[7]} if row[6] or row[7] else None]. *)
Definition instrutor_to_dict_tuple (row : list PyValue) : option InstrutorPyDict :=
  obind (py_getitem row 0) (fun r0 =>
  obind (py_getitem row 1) (fun r1 =>
  obind (py_getitem row 2) (fun r2 =>
  obind (py_getitem row 3) (fun r3 =>
  obind (py_getitem row 4) (fun r4 =>
  obind (py_getitem row 5) (fun r5 =>
  obind (py_getitem row 6) (fun r6 =>
  obind (py_getitem row 7) (fun r7 =>
  Some (mk_InstrutorPyDict r0 r1 r2 r3 r4 r5
          (if py_truthy r6 || py_truthy r7 then Some (r6, r7) else None)))))))))).

(** [turma_to_dict] of [helpers.py]: the instructor is
    [instrutor_to_dict(row[5:13])] and the students are
    [row[-1] if row[-1] else []]. *)
Definition turma_to_dict (row : list PyValue) : option TurmaPyDict :=
  obind (py_getitem row 0) (fun r0 =>
  obind (py_getitem row 1) (fun r1 =>
  obind (py_getitem row 2) (fun r2 =>
  obind (py_getitem row 3) (fun r3 =>
  obind (py_getitem row 4) (fun r4 =>
  obind (instrutor_to_dict_tuple (py_slice row 5 13)) (fun inst =>
  obind (py_getitem row (-1)) (fun ultimo =>
  Some (mk_TurmaPyDict r0 r1 r2 r3 r4 inst
          (if py_truthy ultimo then ultimo else PyList []))))))))).

(** The typed dictionaries, key by key, for comparison. *)
Definition contato_pydict (c : option ContatoDict) : option (PyValue * PyValue) :=
  option_map (fun d => (py_opt_str (cd_telefone d), py_opt_str (cd_email d))) c.

Definition InstrutorDict_values (d : InstrutorDict) : InstrutorPyDict :=
  mk_InstrutorPyDict (PyInt (id_cref d)) (PyStr (id_cpf d)) (PyStr (id_nome d))
                     (PyDate (id_data_nascimento d)) (PyDate (id_data_admissao d))
                     (PyStr (TurnoEnum_value (id_turno d)))
                     (contato_pydict (id_contato d)).

(** ** Further sample data *)

Definition aluno_exemplo : AlunoCreate :=
  mk_AlunoCreate "44444444444" "Davi" MASCULINO 6000 20000 2
                 (mk_ContatoBase "(11)99999-0003" (Some "davi@exemplo.com")).

Definition instrutor_exemplo : InstrutorCreate :=
  mk_InstrutorCreate "55555555555" "Eva" 2000 19500 NOITE 88
                     (mk_ContatoBase "(11)99999-0004" None).

(** [db_exemplo] after student 1 has taken the only seat of class 2. *)
Definition db_lotado : Db :=
  mk_db (set_turma_instrutor_aluno [ (1, 1); (1, 2); (2, 1) ] tabelas_exemplo)
        (mk_seqs 2 2 2).


Definition medicao_exemplo : BioimpedanciaCreate :=
  mk_BioimpedanciaCreate 1 (Dec 705 1) (Dec 175 2) 1800 (Dec 155 1) (Dec 602 1).

(** The least number above the [INTEGER] range. *)
Definition fora_de_int4 : Z := 2147483648.

(** * Properties *)

(** ** Lists, keys and tests *)

Lemma mem_Z_In (x : Z) (l : list Z) : mem_Z x l = true <-> In x l.
Proof.
  unfold mem_Z. rewrite existsb_exists. split.
  - intros [y [Hy E]]. apply Z.eqb_eq in E. now subst.
  - intros H. exists x. split; [assumption | apply Z.eqb_refl].
Qed.

Lemma mem_Z_false (x : Z) (l : list Z) : mem_Z x l = false <-> ~ In x l.
Proof.
  rewrite <- mem_Z_In. destruct (mem_Z x l); split; congruence.
Qed.

Lemma mem_string_In (x : string) (l : list string) : mem_string x l = true <-> In x l.
Proof.
  unfold mem_string. rewrite existsb_exists. split.
  - intros [y [Hy E]]. apply String.eqb_eq in E. now subst.
  - intros H. exists x. split; [assumption | apply String.eqb_refl].
Qed.

Lemma mem_string_false (x : string) (l : list string) : mem_string x l = false <-> ~ In x l.
Proof.
  rewrite <- mem_string_In. destruct (mem_string x l); split; congruence.
Qed.

Lemma nodup_Zb_NoDup (l : list Z) : nodup_Zb l = true <-> NoDup l.
Proof.
  induction l as [|x r IH]; simpl.
  - split; [constructor | reflexivity].
  - rewrite andb_true_iff, negb_true_iff, mem_Z_false, IH. split.
    + intros [H1 H2]. now constructor.
    + intros H. inversion H; subst. now split.
Qed.

Lemma nodup_stringb_NoDup (l : list string) : nodup_stringb l = true <-> NoDup l.
Proof.
  induction l as [|x r IH]; simpl.
  - split; [constructor | reflexivity].
  - rewrite andb_true_iff, negb_true_iff, mem_string_false, IH. split.
    + intros [H1 H2]. now constructor.
    + intros H. inversion H; subst. now split.
Qed.

Lemma eqb_matricula_turma_eq (x y : matricula_turma_row) :
  eqb_matricula_turma x y = true <-> x = y.
Proof.
  unfold eqb_matricula_turma. destruct x as [a b], y as [c d]. simpl.
  rewrite andb_true_iff, !Z.eqb_eq. split.
  - intros [-> ->]. reflexivity.
  - intros E. inversion E. now split.
Qed.

Lemma existsb_matricula_turma (x : matricula_turma_row) (l : list matricula_turma_row) :
  existsb (eqb_matricula_turma x) l = true <-> In x l.
Proof.
  rewrite existsb_exists. split.
  - intros [y [Hy E]]. apply eqb_matricula_turma_eq in E. now subst.
  - intros H. exists x. split; [assumption | now apply eqb_matricula_turma_eq].
Qed.

Lemma nodup_pairb_NoDup (l : list matricula_turma_row) : nodup_pairb l = true <-> NoDup l.
Proof.
  induction l as [|x r IH]; simpl.
  - split; [constructor | reflexivity].
  - rewrite andb_true_iff, negb_true_iff, IH. split.
    + intros [H1 H2]. constructor; [|assumption].
      intros Hin. apply existsb_matricula_turma in Hin. congruence.
    + intros H. inversion H as [|? ? Hn Hd]; subst. split; [|assumption].
      destruct (existsb (eqb_matricula_turma x) r) eqn:E; [|reflexivity].
      apply existsb_matricula_turma in E. contradiction.
Qed.

Lemma NoDup_snoc {A : Type} (l : list A) (x : A) :
  NoDup l -> ~ In x l -> NoDup (l ++ [x]).
Proof.
  intros Hl Hx. induction Hl as [|y r Hy Hr IH]; simpl.
  - constructor; [intros [] | constructor].
  - constructor.
    + rewrite in_app_iff. intros [H|[H|[]]]; [contradiction|].
      subst. apply Hx. now left.
    + apply IH. intros H. apply Hx. now right.
Qed.

Lemma In_sql_delete {A : Type} (cond : A -> bool) (l : list A) (r : A) :
  In r (sql_delete cond l) <-> In r l /\ cond r = false.
Proof.
  unfold sql_delete. rewrite filter_In, negb_true_iff. tauto.
Qed.

(** A key that was unique stays unique among the rows a delete leaves. *)
Lemma NoDup_map_sql_delete {A B : Type} (key : A -> B) (cond : A -> bool) (rows : list A) :
  NoDup (map key rows) -> NoDup (map key (sql_delete cond rows)).
Proof.
  unfold sql_delete. induction rows as [|x rest IH]; simpl; intros Hnd.
  - constructor.
  - apply NoDup_cons_iff in Hnd. destruct Hnd as [Hx Hrest].
    destruct (cond x); simpl; [now apply IH|].
    apply NoDup_cons_iff. split; [|now apply IH].
    rewrite in_map_iff. intros [y [Ey Hy]]. apply Hx.
    rewrite <- Ey. apply in_map. apply filter_In in Hy. tauto.
Qed.

Lemma NoDup_sql_delete {A : Type} (cond : A -> bool) (rows : list A) :
  NoDup rows -> NoDup (sql_delete cond rows).
Proof.
  intros H. rewrite <- (map_id (sql_delete cond rows)). apply NoDup_map_sql_delete.
  now rewrite map_id.
Qed.


Lemma sql_delete_none {A : Type} (cond : A -> bool) (l : list A) :
  (forall r, In r l -> cond r = false) -> sql_delete cond l = l.
Proof.
  unfold sql_delete. induction l as [|x r IH]; simpl; intros H; [reflexivity|].
  rewrite (H x (or_introl eq_refl)). simpl. f_equal. apply IH.
  intros y Hy. apply H. now right.
Qed.

Lemma filter_none {A : Type} (cond : A -> bool) (l : list A) :
  (forall r, In r l -> cond r = false) -> filter cond l = [].
Proof.
  induction l as [|x r IH]; simpl; intros H; [reflexivity|].
  rewrite (H x (or_introl eq_refl)). apply IH. intros y Hy. apply H. now right.
Qed.

Lemma In_sql_update {A : Type} (cond : A -> bool) (set : A -> A) (l : list A) (r' : A) :
  In r' (sql_update cond set l) <->
  exists r, In r l /\ r' = (if cond r then set r else r).
Proof.
  unfold sql_update. rewrite in_map_iff. split; intros [r [H1 H2]]; exists r.
  - split; [assumption | now symmetry].
  - split; [now symmetry | assumption].
Qed.

Lemma map_sql_update {A B : Type} (key : A -> B) (cond : A -> bool) (set : A -> A)
      (l : list A) :
  (forall r, key (set r) = key r) -> map key (sql_update cond set l) = map key l.
Proof.
  intros H. unfold sql_update. rewrite map_map. apply map_ext.
  intros r. destruct (cond r); [apply H | reflexivity].
Qed.


Lemma sql_update_none {A : Type} (cond : A -> bool) (set : A -> A) (l : list A) :
  existsb cond l = false -> sql_update cond set l = l.
Proof.
  unfold sql_update. induction l as [|x r IH]; simpl; intros H; [reflexivity|].
  apply orb_false_iff in H. destruct H as [H1 H2]. rewrite H1. f_equal. now apply IH.
Qed.

Lemma touched_ok_spec {A : Type} (cond chk : A -> bool) (l : list A) :
  touched_ok cond chk l = true <-> forall r, In r l -> cond r = true -> chk r = true.
Proof.
  unfold touched_ok. rewrite forallb_forall. split; intros H r Hr.
  - intros Hc. specialize (H r Hr). now rewrite Hc in H.
  - destruct (cond r) eqn:E; simpl; [now apply H | reflexivity].
Qed.

Lemma find_key_In {A : Type} (key : A -> Z) (k : Z) (l : list A) (r : A) :
  NoDup (map key l) -> In r l -> key r = k ->
  find (fun x => key x =? k) l = Some r.
Proof.
  induction l as [|x l IH]; simpl; intros Hnd Hin Hk; [contradiction|].
  inversion Hnd as [|? ? Hn Hd]; subst.
  destruct Hin as [->|Hin].
  - now rewrite Z.eqb_refl.
  - destruct (key x =? key r) eqn:E.
    + apply Z.eqb_eq in E. exfalso. apply Hn. rewrite E. now apply in_map.
    + now apply IH.
Qed.

Lemma filter_filter_length_le {A : Type} (p q : A -> bool) (l : list A) :
  (List.length (filter p (filter q l)) <= List.length (filter p l))%nat.
Proof.
  induction l as [|x r IH]; simpl; [lia|].
  destruct (q x) eqn:Eq, (p x) eqn:Ep; simpl; rewrite ?Ep; simpl; lia.
Qed.

(** ** Soundness of the tests *)

Lemma chaves_unicasb_sound (t : Tables) : chaves_unicasb t = true -> chaves_unicas t.
Proof.
  unfold chaves_unicasb. rewrite !andb_true_iff.
  intros [[[[[[[[[H1 H2] H3] H4] H5] H6] H7] H8] H9] H10].
  constructor;
    first [ now apply nodup_Zb_NoDup | now apply nodup_stringb_NoDup
          | now apply nodup_pairb_NoDup ].
Qed.

Lemma sem_orfaosb_sound (t : Tables) : sem_orfaosb t = true -> sem_orfaos t.
Proof.
  unfold sem_orfaosb. rewrite !andb_true_iff, !forallb_forall.
  intros [[[[[[H1 H2] H3] H4] H5] H6] H7].
  constructor; intros x Hx; apply mem_Z_In; auto.
Qed.

Lemma chaves_int4b_sound (t : Tables) : chaves_int4b t = true -> chaves_int4 t.
Proof.
  unfold chaves_int4b. rewrite !andb_true_iff, !forallb_forall.
  intros [[[H1 H2] H3] H4]. constructor; assumption.
Qed.

Lemma wf_tablesb_sound (t : Tables) : wf_tablesb t = true -> wf_tables t.
Proof.
  unfold wf_tablesb. rewrite !andb_true_iff, forallb_forall. intros [[[H1 H2] H3] H4].
  constructor.
  - now apply chaves_unicasb_sound.
  - now apply sem_orfaosb_sound.
  - intros c Hc. apply Z.ltb_lt. now apply H3.
  - now apply chaves_int4b_sound.
Qed.

(** ** Values that fit their column *)

Lemma take_chars_fits (n : nat) (s : string) :
  (char_length s <= n)%nat -> take_chars n s = s.
Proof.
  revert n. induction s as [|c r IH]; intros n H; [reflexivity|].
  cbn [take_chars char_length] in *. destruct (is_continuation c).
  - f_equal. apply IH. exact H.
  - destruct n as [|k]; [cbn in H; lia|]. f_equal. apply IH. cbn in H. lia.
Qed.

Lemma varchar_fits (n : nat) (s : string) :
  (char_length s <= n)%nat -> varchar n s = s.
Proof. apply take_chars_fits. Qed.

Lemma varchar_ok_fits (n : nat) (s : string) :
  has_nul s = false -> (char_length s <= n)%nat -> varchar_ok n s = true.
Proof.
  intros Hn Hl. unfold varchar_ok. rewrite Hn. cbn [negb andb].
  apply orb_true_iff. left. now apply Nat.leb_le.
Qed.

Lemma hundredths_centavos (h : Z) : hundredths (Dec h 2) = h.
Proof. cbn. apply Z.mul_1_r. Qed.


(** ** The connection discipline *)

Lemma seqs_le_refl (q : Seqs) : seqs_le q q.
Proof. unfold seqs_le. lia. Qed.

Lemma seqs_ok_mono (t : Tables) (q q' : Seqs) :
  seqs_ok t q -> seqs_le q q' -> seqs_ok t q'.
Proof.
  intros [H1 H2 H3] [L1 [L2 L3]].
  constructor; intros r Hr;
    [specialize (H1 r Hr) | specialize (H2 r Hr) | specialize (H3 r Hr)]; lia.
Qed.

Lemma wf_store_mono (t : Tables) (q q' : Seqs) :
  wf_store t q -> seqs_le q q' -> wf_store t q'.
Proof. intros [H1 H2] L. split; [assumption | eapply seqs_ok_mono; eauto]. Qed.

Lemma ret_keeps (P : Tables -> Prop) {A : Type} (a : A) : py_keeps P (ret a).
Proof. intros c H. exact H. Qed.

Lemma raise_keeps (P : Tables -> Prop) {A : Type} (e : PyException) :
  py_keeps P (@raise A e).
Proof. intros c H. exact H. Qed.

Lemma bind_keeps_at (P : Tables -> Prop) {A B : Type} (m : Py A) (k : A -> Py B) (c : Conn) :
  py_keeps_at P m c -> (forall a, py_keeps P (k a)) -> py_keeps_at P (bind m k) c.
Proof.
  unfold py_keeps_at, bind. intros Hm Hk Hc. specialize (Hm Hc).
  destruct (m c) as [[e|a] c']; simpl in *; [assumption|].
  now apply Hk.
Qed.

Lemma bind_keeps (P : Tables -> Prop) {A B : Type} (m : Py A) (k : A -> Py B) :
  py_keeps P m -> (forall a, py_keeps P (k a)) -> py_keeps P (bind m k).
Proof. intros Hm Hk c. apply bind_keeps_at; [apply Hm | assumption]. Qed.

Lemma commit_keeps (P : Tables -> Prop) : py_keeps P commit.
Proof. intros c [_ H]. split; exact H. Qed.

Lemma execute_query_keeps_at (P : Tables -> Prop) {A : Type} (s : Stmt A) (c : Conn) :
  (wf_store (working c) (seqs c) ->
   seqs_le (seqs c) (snd (s (working c) (seqs c))) /\
   match fst (s (working c) (seqs c)) with
   | inr (_, t') => wf_store t' (snd (s (working c) (seqs c)))
   | inl _ => True
   end) ->
  (wf_store (working c) (seqs c) -> P (working c) ->
   match fst (s (working c) (seqs c)) with
   | inr (_, t') => P t'
   | inl _ => True
   end) ->
  py_keeps_at P (execute_query s) c.
Proof.
  unfold py_keeps_at, execute_query. intros Hs Hp [[Hc Pc] [Hw Pw]].
  specialize (Hs Hw). specialize (Hp Hw Pw).
  destruct (s (working c) (seqs c)) as [[e|[a t']] q']; simpl in *.
  - destruct Hs as [L _].
    assert (Hc' : wf_store (committed c) q') by (eapply wf_store_mono; eauto).
    unfold conn_ok. simpl. tauto.
  - destruct Hs as [L Hwf].
    assert (Hc' : wf_store (committed c) q') by (eapply wf_store_mono; eauto).
    unfold conn_ok. simpl. tauto.
Qed.

Lemma execute_query_keeps (P : Tables -> Prop) {A : Type} (s : Stmt A) :
  stmt_ok s -> stmt_keeps P s -> py_keeps P (execute_query s).
Proof.
  intros Hs Hp c. apply execute_query_keeps_at.
  - apply Hs.
  - apply Hp.
Qed.

Lemma store_after_keeps_at (P : Tables -> Prop) {A : Type} (h : Py A) (db : Db) :
  py_keeps_at P h (get_connection db) -> db_ok P db -> db_ok P (store_after h db).
Proof.
  unfold py_keeps_at, store_after, db_ok, wf_db. intros Hh [Hwf HP].
  destruct Hh as [[H1 H2] _].
  - unfold get_connection, conn_ok. simpl. tauto.
  - simpl. split; assumption.
Qed.

Lemma store_after_keeps (P : Tables -> Prop) {A : Type} (h : Py A) (db : Db) :
  py_keeps P h -> db_ok P db -> db_ok P (store_after h db).
Proof. intros Hh. apply store_after_keeps_at. apply Hh. Qed.

Lemma sql_select_ok {A : Type} (f : Tables -> A) : stmt_ok (sql_select f).
Proof. intros t q H. simpl. split; [apply seqs_le_refl | assumption]. Qed.

Lemma sql_select_keeps (P : Tables -> Prop) {A : Type} (f : Tables -> A) :
  stmt_keeps P (sql_select f).
Proof. intros t q _ H. exact H. Qed.

(** ** Keys under [SET] lists *)

Lemma apply_set_key {C A B : Type} (assign : C -> A -> A) (key : A -> B) (updates : list C) :
  (forall c r, key (assign c r) = key r) ->
  forall r, key (apply_set assign updates r) = key r.
Proof.
  intros H. unfold apply_set. induction updates as [|c us IH]; simpl; intros r.
  - reflexivity.
  - rewrite IH. apply H.
Qed.

Lemma plano_set_codigo (us : list plano_col) (r : plano_row) :
  pl_codigo_plano (apply_set assign_plano us r) = pl_codigo_plano r.
Proof. apply apply_set_key. intros [v|v|v] x; reflexivity. Qed.

Lemma turma_set_id (us : list turma_col) (r : turma_row) :
  tu_id_turma (apply_set assign_turma us r) = tu_id_turma r.
Proof. apply apply_set_key. intros [v|v|v|v] x; reflexivity. Qed.

Lemma aluno_set_matricula (us : list aluno_col) (r : aluno_row) :
  al_matricula (apply_set assign_aluno us r) = al_matricula r.
Proof. apply apply_set_key. intros [v|v|v|v|v|v] x; reflexivity. Qed.

Lemma contato_aluno_set_matricula (us : list contato_col) (r : contato_aluno_row) :
  ca_matricula (apply_set assign_contato_aluno us r) = ca_matricula r.
Proof. apply apply_set_key. intros [v|v] x; reflexivity. Qed.

Lemma contato_instrutor_set_cref (us : list contato_col) (r : contato_instrutor_row) :
  ci_cref (apply_set assign_contato_instrutor us r) = ci_cref r.
Proof. apply apply_set_key. intros [v|v] x; reflexivity. Qed.

Lemma bioimpedancia_set_matricula (us : list bioimpedancia_col) (r : bioimpedancia_row) :
  bi_matricula (apply_set assign_bioimpedancia us r) = bi_matricula r.
Proof. apply apply_set_key. intros [v|v|v|v|v] x; reflexivity. Qed.

Lemma instrutor_set_cref (us : list instrutor_col) (r : instrutor_row) :
  in_cref (apply_set assign_instrutor us r) = in_cref r.
Proof. apply apply_set_key. intros [v|v|v|v|v] x; reflexivity. Qed.

Lemma sql_update_key_In {A B : Type} (key : A -> B) (cond : A -> bool) (set : A -> A)
      (l : list A) (r' : A) :
  (forall r, key (set r) = key r) ->
  In r' (sql_update cond set l) -> exists r, In r l /\ key r' = key r.
Proof.
  intros H Hin. apply In_sql_update in Hin. destruct Hin as [r [Hr E]].
  exists r. split; [assumption|]. subst. destruct (cond r); [apply H | reflexivity].
Qed.

Lemma In_map_snoc {A B : Type} (f : A -> B) (l : list A) (x : A) (y : B) :
  In y (map f l) -> In y (map f (l ++ [x])).
Proof. intros H. rewrite map_app. apply in_or_app. now left. Qed.

Lemma In_snoc {A : Type} (l : list A) (x y : A) :
  In y (l ++ [x]) <-> In y l \/ y = x.
Proof.
  rewrite in_app_iff. simpl. intuition congruence.
Qed.

(** A cascade leaves no child behind: the children whose parent was
    deleted are deleted with it. *)
Lemma cascade_fk {P C : Type} (pk : P -> Z) (fk : C -> Z) (cond : P -> bool)
      (parents : list P) (children : list C) :
  (forall c, In c children -> In (fk c) (map pk parents)) ->
  forall c,
    In c (sql_delete (fun c => mem_Z (fk c) (map pk (filter cond parents))) children) ->
    In (fk c) (map pk (sql_delete cond parents)).
Proof.
  intros Hfk c Hc. apply In_sql_delete in Hc. destruct Hc as [Hc Hm].
  apply mem_Z_false in Hm. specialize (Hfk c Hc).
  apply in_map_iff in Hfk. destruct Hfk as [p [E Hp]].
  apply in_map_iff. exists p. split; [assumption|].
  apply In_sql_delete. split; [assumption|].
  destruct (cond p) eqn:Ec; [|reflexivity].
  exfalso. apply Hm. rewrite <- E. apply in_map. apply filter_In. now split.
Qed.

Lemma sql_delete_incl {A : Type} (cond : A -> bool) (l : list A) (r : A) :
  In r (sql_delete cond l) -> In r l.
Proof. intros H. apply In_sql_delete in H. tauto. Qed.


(** ** Every statement keeps the store well formed *)

Ltac split_wf H :=
  let K1 := fresh "K_plano" in let K2 := fresh "K_aluno" in
  let K3 := fresh "K_cpf" in let K4 := fresh "K_contato_aluno" in
  let K5 := fresh "K_bio" in let K6 := fresh "K_instrutor" in
  let K7 := fresh "K_icpf" in let K8 := fresh "K_contato_instrutor" in
  let K9 := fresh "K_turma" in let K10 := fresh "K_tia" in
  let F1 := fresh "F_aluno_plano" in let F2 := fresh "F_contato_aluno" in
  let F3 := fresh "F_bio" in let F4 := fresh "F_contato_instrutor" in
  let F5 := fresh "F_turma" in let F6 := fresh "F_tia_turma" in
  let F7 := fresh "F_tia_aluno" in
  let V := fresh "V_vagas" in
  let I1 := fresh "I_plano" in let I2 := fresh "I_aluno" in
  let I3 := fresh "I_instrutor" in let I4 := fresh "I_turma" in
  let S1 := fresh "S_plano" in let S2 := fresh "S_aluno" in let S3 := fresh "S_turma" in
  destruct H as [[[K1 K2 K3 K4 K5 K6 K7 K8 K9 K10] [F1 F2 F3 F4 F5 F6 F7] V [I1 I2 I3 I4]]
                   [S1 S2 S3]].

(** The key of an inserted row passed the conversion; the keys of
    rewritten rows are those of the rows they replace. *)
Ltac int4_tac :=
  let r := fresh "r" in let Hr := fresh "Hr" in
  intros r Hr;
  first
    [ apply In_snoc in Hr; destruct Hr as [Hr| ->]; cbn; now auto
    | apply sql_update_key_In with (key := pl_codigo_plano) in Hr;
      [|apply plano_set_codigo]; destruct Hr as [? [? ->]]; now auto
    | apply sql_update_key_In with (key := al_matricula) in Hr;
      [|apply aluno_set_matricula]; destruct Hr as [? [? ->]]; now auto
    | apply sql_update_key_In with (key := in_cref) in Hr;
      [|apply instrutor_set_cref]; destruct Hr as [? [? ->]]; now auto
    | apply sql_update_key_In with (key := tu_id_turma) in Hr;
      [|apply turma_set_id]; destruct Hr as [? [? ->]]; now auto
    | apply sql_delete_incl in Hr; now auto ].

Ltac mk_wf :=
  split;
  [ constructor;
    [ constructor | constructor | unfold vagas_positivas
    | constructor;
      cbn [plano aluno instrutor turma set_plano set_aluno set_contato_aluno
           set_bioimpedancia set_instrutor set_contato_instrutor set_turma
           set_turma_instrutor_aluno];
      first [assumption | int4_tac] ]
  | constructor ];
  cbn [plano aluno contato_aluno bioimpedancia instrutor contato_instrutor turma
       turma_instrutor_aluno set_plano set_aluno set_contato_aluno set_bioimpedancia
       set_instrutor set_contato_instrutor set_turma set_turma_instrutor_aluno
       plano_codigo_plano_seq aluno_matricula_seq turma_id_turma_seq
       next_plano next_aluno next_turma];
  try assumption.

Ltac seqs_le_tac := unfold seqs_le, next_plano, next_aluno, next_turma; simpl; lia.

Ltac case_checks :=
  repeat match goal with
    | |- context [if negb ?b then _ else _] => destruct b eqn:?; cbn [negb]
    | |- context [if ?b then _ else _] => destruct b eqn:?
    | |- context [match verificar_vagas_turma ?n ?t with _ => _ end] =>
        destruct (verificar_vagas_turma n t) eqn:?
    end.

Ltac norm_checks :=
  repeat match goal with
    | H : mem_Z _ _ = true |- _ => apply mem_Z_In in H
    | H : mem_Z _ _ = false |- _ => apply mem_Z_false in H
    | H : mem_string _ _ = true |- _ => apply mem_string_In in H
    | H : mem_string _ _ = false |- _ => apply mem_string_false in H
    | H : (_ <? _) = true |- _ => apply Z.ltb_lt in H
    | H : touched_ok _ _ _ = true |- _ => rewrite touched_ok_spec in H
    | H : (_ && _) = true |- _ => apply andb_true_iff in H; destruct H
    end.

(** Opens a statement: one case per check, the failing ones closed. *)
Ltac open_stmt H :=
  case_checks; simpl; (split; [seqs_le_tac|]); try exact I;
  norm_checks; split_wf H; mk_wf.

Ltac snoc_key :=
  rewrite map_app; simpl; apply NoDup_snoc; assumption.

Ltac snoc_parent := let c := fresh in let Hc := fresh in
  intros c Hc; apply In_map_snoc; auto.

Ltac snoc_child := let c := fresh in let Hc := fresh in
  intros c Hc; apply In_snoc in Hc; destruct Hc as [Hc| ->]; simpl; auto.

Lemma sql_insert_plano_ok (n : string) (p : pyfloat) (d : option string) :
  stmt_ok (sql_insert_plano n p d).
Proof.
  intros t q H. unfold sql_insert_plano. open_stmt H.
  - snoc_key.
  - snoc_parent.
  - intros r Hr. apply In_snoc in Hr. destruct Hr as [Hr| ->]; simpl;
      [specialize (S_plano r Hr); lia | lia].
Qed.

Lemma sql_insert_aluno_ok (cpf nome : string) (sexo : SexoEnum) (dn dm : date) (cp : Z) :
  stmt_ok (sql_insert_aluno cpf nome sexo dn dm cp).
Proof.
  intros t q H. unfold sql_insert_aluno. open_stmt H.
  - snoc_key.
  - snoc_key.
  - snoc_child.
  - snoc_parent.
  - snoc_parent.
  - snoc_parent.
  - intros r Hr. apply In_snoc in Hr. destruct Hr as [Hr| ->]; simpl;
      [specialize (S_aluno r Hr); lia | lia].
Qed.

Lemma sql_insert_contato_aluno_ok (m : Z) (tel : string) (email : option string) :
  stmt_ok (sql_insert_contato_aluno m tel email).
Proof.
  intros t q H. unfold sql_insert_contato_aluno. open_stmt H.
  - snoc_key.
  - snoc_child.
Qed.

Lemma sql_insert_bioimpedancia_ok (m : Z) (p a : pyfloat) (tmb : Z) (g ag : pyfloat) :
  stmt_ok (sql_insert_bioimpedancia m p a tmb g ag).
Proof.
  intros t q H. unfold sql_insert_bioimpedancia. open_stmt H.
  - snoc_key.
  - snoc_child.
Qed.

Lemma sql_insert_instrutor_ok (hoje : date) (cref : Z) (cpf nome : string) (dn da : date)
      (turno : TurnoEnum) :
  stmt_ok (sql_insert_instrutor hoje cref cpf nome dn da turno).
Proof.
  intros t q H. unfold sql_insert_instrutor. open_stmt H.
  - snoc_key.
  - snoc_key.
  - snoc_parent.
  - snoc_parent.
Qed.

Lemma sql_insert_contato_instrutor_ok (cref : Z) (tel : string) (email : option string) :
  stmt_ok (sql_insert_contato_instrutor cref tel email).
Proof.
  intros t q H. unfold sql_insert_contato_instrutor. open_stmt H.
  - snoc_key.
  - snoc_child.
Qed.

Lemma sql_insert_turma_ok (nome : string) (vagas : Z) (turno : TurnoEnum) (cref : Z) :
  stmt_ok (sql_insert_turma nome vagas turno cref).
Proof.
  intros t q H. unfold sql_insert_turma. open_stmt H.
  - snoc_key.
  - snoc_child.
  - snoc_parent.
  - snoc_child.
  - intros r Hr. apply In_snoc in Hr. destruct Hr as [Hr| ->]; simpl;
      [specialize (S_turma r Hr); lia | lia].
Qed.

Lemma sql_insert_matricula_turma_ok (id m : Z) :
  stmt_ok (sql_insert_matricula_turma id m).
Proof.
  intros t q H. unfold sql_insert_matricula_turma. open_stmt H.
  - apply NoDup_snoc; [assumption|]. intros Hin.
    apply existsb_matricula_turma in Hin. congruence.
  - snoc_child.
  - snoc_child.
Qed.

Lemma sql_update_checked {A : Type} (cond chk : A -> bool) (set : A -> A) (P : A -> Prop)
      (l : list A) :
  (forall r, cond (set r) = cond r) ->
  (forall r, In r (sql_update cond set l) -> cond r = true -> chk r = true) ->
  (forall r, chk r = true -> P r) ->
  (forall r, In r l -> P r) ->
  forall r', In r' (sql_update cond set l) -> P r'.
Proof.
  intros Hc Hchk HP Hl r' Hr'. pose proof Hr' as Hin.
  apply In_sql_update in Hr'. destruct Hr' as [r [Hr E]].
  destruct (cond r) eqn:Ec; subst r'.
  - apply HP. apply Hchk; [assumption|]. now rewrite Hc.
  - now apply Hl.
Qed.

Lemma unique_after_update {A : Type} (key : A -> string) (cond : A -> bool) (set : A -> A)
      (l : list A) :
  existsb cond l && negb (nodup_stringb (map key (sql_update cond set l))) = false ->
  NoDup (map key l) -> NoDup (map key (sql_update cond set l)).
Proof.
  intros H Hl. apply andb_false_iff in H. destruct H as [H|H].
  - now rewrite sql_update_none.
  - apply negb_false_iff in H. now apply nodup_stringb_NoDup.
Qed.

Ltac upd_seq k key_lemma S :=
  let r := fresh "r" in let Hr := fresh "Hr" in let r0 := fresh "r0" in
  let Hr0 := fresh "Hr0" in let E := fresh "E" in
  intros r Hr; apply sql_update_key_In with (key := k) in Hr; [|apply key_lemma];
  destruct Hr as [r0 [Hr0 E]]; rewrite E; apply S; assumption.

Lemma sql_update_plano_ok (us : list plano_col) (codigo : Z) :
  stmt_ok (sql_update_plano us codigo).
Proof.
  intros t q H. unfold sql_update_plano. open_stmt H.
  - rewrite map_sql_update by apply plano_set_codigo. assumption.
  - rewrite map_sql_update by apply plano_set_codigo. assumption.
  - upd_seq pl_codigo_plano plano_set_codigo S_plano.
Qed.

Lemma turma_cond_set (us : list turma_col) (id : Z) (r : turma_row) :
  (tu_id_turma (apply_set assign_turma us r) =? id) = (tu_id_turma r =? id).
Proof. now rewrite turma_set_id. Qed.

Lemma sql_update_turma_ok (us : list turma_col) (id : Z) :
  stmt_ok (sql_update_turma us id).
Proof.
  intros t q H. unfold sql_update_turma. open_stmt H.
  - rewrite map_sql_update by apply turma_set_id. assumption.
  - eapply sql_update_checked with (chk := fun r => mem_Z (tu_cref r) _);
      [apply turma_cond_set | eassumption | | assumption].
    intros r Hr. now apply mem_Z_In.
  - rewrite map_sql_update by apply turma_set_id. assumption.
  - eapply sql_update_checked with (chk := fun r => 0 <? tu_quantidade_vagas r);
      [apply turma_cond_set | eassumption | | assumption].
    intros r Hr. now apply Z.ltb_lt.
  - upd_seq tu_id_turma turma_set_id S_turma.
Qed.

Lemma aluno_cond_set (us : list aluno_col) (m : Z) (r : aluno_row) :
  (al_matricula (apply_set assign_aluno us r) =? m) = (al_matricula r =? m).
Proof. now rewrite aluno_set_matricula. Qed.

Lemma sql_update_aluno_set_ok (us : list aluno_col) (m : Z) :
  stmt_ok (sql_update_aluno_set us m).
Proof.
  intros t q H. unfold sql_update_aluno_set. open_stmt H.
  - rewrite map_sql_update by apply aluno_set_matricula. assumption.
  - now apply unique_after_update.
  - eapply sql_update_checked with (chk := fun r => mem_Z (al_codigo_plano r) _);
      [apply aluno_cond_set | eassumption | | assumption].
    intros r Hr. now apply mem_Z_In.
  - rewrite map_sql_update by apply aluno_set_matricula. assumption.
  - rewrite map_sql_update by apply aluno_set_matricula. assumption.
  - rewrite map_sql_update by apply aluno_set_matricula. assumption.
  - upd_seq al_matricula aluno_set_matricula S_aluno.
Qed.

Lemma sql_update_aluno_ok (us : list aluno_col) (m : Z) :
  stmt_ok (sql_update_aluno us m).
Proof.
  intros t q H. unfold sql_update_aluno.
  destruct (forallb aluno_col_ok us); cbn [negb]; [now apply sql_update_aluno_set_ok|].
  simpl. split; [apply seqs_le_refl | exact I].
Qed.

Lemma sql_update_contato_aluno_ok (us : list contato_col) (m : Z) :
  stmt_ok (sql_update_contato_aluno us m).
Proof.
  intros t q H. unfold sql_update_contato_aluno. open_stmt H.
  - now apply unique_after_update.
  - intros c Hc.
    apply sql_update_key_In with (key := ca_matricula) in Hc;
      [|apply contato_aluno_set_matricula].
    destruct Hc as [r [Hr E]]. rewrite E. auto.
Qed.

Lemma sql_update_contato_instrutor_ok (us : list contato_col) (cref : Z) :
  stmt_ok (sql_update_contato_instrutor us cref).
Proof.
  intros t q H. unfold sql_update_contato_instrutor. open_stmt H.
  - now apply unique_after_update.
  - intros c Hc.
    apply sql_update_key_In with (key := ci_cref) in Hc;
      [|apply contato_instrutor_set_cref].
    destruct Hc as [r [Hr E]]. rewrite E. auto.
Qed.

Lemma sql_update_bioimpedancia_ok (us : list bioimpedancia_col) (m : Z) :
  stmt_ok (sql_update_bioimpedancia us m).
Proof.
  intros t q H. unfold sql_update_bioimpedancia. open_stmt H.
  - rewrite map_sql_update by apply bioimpedancia_set_matricula. assumption.
  - intros c Hc.
    apply sql_update_key_In with (key := bi_matricula) in Hc;
      [|apply bioimpedancia_set_matricula].
    destruct Hc as [r [Hr E]]. rewrite E. auto.
Qed.

Lemma sql_update_instrutor_ok (hoje : date) (us : list instrutor_col) (cref : Z) :
  stmt_ok (sql_update_instrutor hoje us cref).
Proof.
  intros t q H. unfold sql_update_instrutor. open_stmt H.
  - rewrite map_sql_update by apply instrutor_set_cref. assumption.
  - now apply unique_after_update.
  - rewrite map_sql_update by apply instrutor_set_cref. assumption.
  - rewrite map_sql_update by apply instrutor_set_cref. assumption.
Qed.

Lemma atualizar_plano_aluno_ok (hoje : date) (m novo : Z) :
  stmt_ok (atualizar_plano_aluno hoje m novo).
Proof.
  intros t q H. unfold atualizar_plano_aluno.
  destruct (match option_map pl_preco (find _ (plano t)) with Some _ => _ | None => _ end).
  - simpl. split; [apply seqs_le_refl | assumption].
  - pose proof (sql_update_aluno_set_ok [Set_codigo_plano novo; Set_data_matricula hoje]
                  m H) as Hu.
    destruct (sql_update_aluno_set _ m t q) as [[e|[u t']] q']; simpl in *; assumption.
Qed.

(** *** Deletes *)

Ltac del_tac :=
  first [ apply NoDup_map_sql_delete; assumption
        | apply NoDup_sql_delete; assumption
        | apply cascade_fk; assumption
        | let x := fresh in let Hx := fresh in
          intros x Hx; apply sql_delete_incl in Hx; auto ].

Lemma sql_delete_aluno_ok (m : Z) : stmt_ok (sql_delete_aluno m).
Proof.
  intros t q H. unfold sql_delete_aluno, cascade_delete_aluno.
  open_stmt H; del_tac.
Qed.

Lemma sql_delete_plano_ok (c : Z) : stmt_ok (sql_delete_plano c).
Proof.
  intros t q H. unfold sql_delete_plano, cascade_delete_plano, cascade_delete_aluno.
  open_stmt H; del_tac.
Qed.

Lemma sql_delete_turma_ok (id : Z) : stmt_ok (sql_delete_turma id).
Proof.
  intros t q H. unfold sql_delete_turma, cascade_delete_turma.
  open_stmt H; del_tac.
Qed.

Lemma sql_delete_instrutor_ok (cref : Z) : stmt_ok (sql_delete_instrutor cref).
Proof.
  intros t q H. unfold sql_delete_instrutor, cascade_delete_instrutor, cascade_delete_turma.
  open_stmt H; del_tac.
Qed.

Lemma sql_delete_bioimpedancia_ok (m : Z) : stmt_ok (sql_delete_bioimpedancia m).
Proof.
  intros t q H. unfold sql_delete_bioimpedancia.
  open_stmt H; del_tac.
Qed.

Lemma sql_delete_matricula_turma_ok (id m : Z) : stmt_ok (sql_delete_matricula_turma id m).
Proof.
  intros t q H. unfold sql_delete_matricula_turma.
  open_stmt H; del_tac.
Qed.

(** ** Statements and the seat invariant *)

Lemma capacidade_ok_ext (t t' : Tables) :
  turma t' = turma t -> turma_instrutor_aluno t' = turma_instrutor_aluno t ->
  capacidade_ok t -> capacidade_ok t'.
Proof.
  unfold capacidade_ok, count_matriculas. intros E1 E2 H c Hc.
  rewrite E1 in Hc. rewrite E2. now apply H.
Qed.

Lemma capacidade_ok_shrink (t t' : Tables) :
  capacidade_ok t ->
  (forall c, In c (turma t') -> In c (turma t)) ->
  (forall id, count_matriculas id t' <= count_matriculas id t) ->
  capacidade_ok t'.
Proof.
  unfold capacidade_ok. intros H Hsub Hle c Hc.
  specialize (H c (Hsub c Hc)). specialize (Hle (tu_id_turma c)). lia.
Qed.

Lemma count_sql_delete_le (id : Z) (cond : matricula_turma_row -> bool)
      (l : list matricula_turma_row) :
  Z.of_nat (List.length (filter (fun e => fst e =? id) (sql_delete cond l))) <=
  Z.of_nat (List.length (filter (fun e => fst e =? id) l)).
Proof. apply Nat2Z.inj_le. apply filter_filter_length_le. Qed.

Lemma count_zero (id : Z) (t : Tables) :
  (forall e, In e (turma_instrutor_aluno t) -> fst e <> id) -> count_matriculas id t = 0.
Proof.
  intros H. unfold count_matriculas. rewrite filter_none; [reflexivity|].
  intros e He. apply Z.eqb_neq. now apply H.
Qed.

(** A statement that writes neither [turma] nor [turma_instrutor_aluno]. *)
Lemma frame_keeps_capacidade {A : Type} (s : Stmt A) :
  (forall t q, match fst (s t q) with
               | inr (_, t') => turma t' = turma t /\
                                turma_instrutor_aluno t' = turma_instrutor_aluno t
               | inl _ => True
               end) ->
  stmt_keeps capacidade_ok s.
Proof.
  intros H t q _ Hc. specialize (H t q).
  destruct (fst (s t q)) as [e|[a t']]; [exact I|].
  destruct H as [E1 E2]. eapply capacidade_ok_ext; eauto.
Qed.

Ltac frame_tac := apply frame_keeps_capacidade; intros t q; case_checks; simpl; auto.

Lemma sql_insert_plano_cap n p d : stmt_keeps capacidade_ok (sql_insert_plano n p d).
Proof. unfold sql_insert_plano. frame_tac. Qed.

Lemma sql_insert_aluno_cap cpf nome sexo dn dm cp :
  stmt_keeps capacidade_ok (sql_insert_aluno cpf nome sexo dn dm cp).
Proof. unfold sql_insert_aluno. frame_tac. Qed.

Lemma sql_insert_contato_aluno_cap m tel email :
  stmt_keeps capacidade_ok (sql_insert_contato_aluno m tel email).
Proof. unfold sql_insert_contato_aluno. frame_tac. Qed.

Lemma sql_insert_bioimpedancia_cap m p a tmb g ag :
  stmt_keeps capacidade_ok (sql_insert_bioimpedancia m p a tmb g ag).
Proof. unfold sql_insert_bioimpedancia. frame_tac. Qed.

Lemma sql_insert_instrutor_cap hoje cref cpf nome dn da turno :
  stmt_keeps capacidade_ok (sql_insert_instrutor hoje cref cpf nome dn da turno).
Proof. unfold sql_insert_instrutor. frame_tac. Qed.

Lemma sql_insert_contato_instrutor_cap cref tel email :
  stmt_keeps capacidade_ok (sql_insert_contato_instrutor cref tel email).
Proof. unfold sql_insert_contato_instrutor. frame_tac. Qed.

Lemma sql_update_plano_cap us c : stmt_keeps capacidade_ok (sql_update_plano us c).
Proof. unfold sql_update_plano. frame_tac. Qed.

Lemma sql_update_aluno_set_cap us m :
  stmt_keeps capacidade_ok (sql_update_aluno_set us m).
Proof. unfold sql_update_aluno_set. frame_tac. Qed.

Lemma sql_update_aluno_cap us m : stmt_keeps capacidade_ok (sql_update_aluno us m).
Proof. unfold sql_update_aluno, sql_update_aluno_set. frame_tac. Qed.

Lemma sql_update_contato_aluno_cap us m :
  stmt_keeps capacidade_ok (sql_update_contato_aluno us m).
Proof. unfold sql_update_contato_aluno. frame_tac. Qed.

Lemma sql_update_contato_instrutor_cap us c :
  stmt_keeps capacidade_ok (sql_update_contato_instrutor us c).
Proof. unfold sql_update_contato_instrutor. frame_tac. Qed.

Lemma sql_update_bioimpedancia_cap us m :
  stmt_keeps capacidade_ok (sql_update_bioimpedancia us m).
Proof. unfold sql_update_bioimpedancia. frame_tac. Qed.

Lemma sql_update_instrutor_cap hoje us c :
  stmt_keeps capacidade_ok (sql_update_instrutor hoje us c).
Proof. unfold sql_update_instrutor. frame_tac. Qed.

Lemma sql_delete_bioimpedancia_cap m : stmt_keeps capacidade_ok (sql_delete_bioimpedancia m).
Proof. unfold sql_delete_bioimpedancia. frame_tac. Qed.

(** Deletes only remove classes and enrolments. *)
Ltac shrink_tac :=
  intros t q _ Hc; simpl; apply capacidade_ok_shrink with (t := t); simpl;
  [ assumption | | ]; revgoals;
  [ intros ?; unfold count_matriculas; simpl;
    first [ apply count_sql_delete_le | lia ]
  | first [ now auto | intros ?; apply sql_delete_incl ] ].

Lemma sql_delete_aluno_cap m : stmt_keeps capacidade_ok (sql_delete_aluno m).
Proof. unfold sql_delete_aluno, cascade_delete_aluno. shrink_tac. Qed.

Lemma sql_delete_plano_cap c : stmt_keeps capacidade_ok (sql_delete_plano c).
Proof.
  unfold sql_delete_plano, cascade_delete_plano, cascade_delete_aluno. shrink_tac.
Qed.

Lemma sql_delete_turma_cap id : stmt_keeps capacidade_ok (sql_delete_turma id).
Proof. unfold sql_delete_turma, cascade_delete_turma. shrink_tac. Qed.

Lemma sql_delete_instrutor_cap c : stmt_keeps capacidade_ok (sql_delete_instrutor c).
Proof.
  unfold sql_delete_instrutor, cascade_delete_instrutor, cascade_delete_turma. shrink_tac.
Qed.

Lemma sql_delete_matricula_turma_cap id m :
  stmt_keeps capacidade_ok (sql_delete_matricula_turma id m).
Proof. unfold sql_delete_matricula_turma. shrink_tac. Qed.

(** A new class starts empty. *)
Lemma sql_insert_turma_cap nome vagas turno cref :
  stmt_keeps capacidade_ok (sql_insert_turma nome vagas turno cref).
Proof.
  intros t q Hwf Hc. unfold sql_insert_turma. case_checks; simpl; try exact I.
  norm_checks. split_wf Hwf.
  intros c Hin. simpl in Hin. apply In_snoc in Hin.
  unfold count_matriculas. simpl. destruct Hin as [Hin| ->].
  - now apply Hc.
  - simpl. fold (count_matriculas (turma_id_turma_seq q + 1) t).
    rewrite count_zero; [lia|].
    intros e He E. apply F_tia_turma in He. rewrite E in He. contradiction.
Qed.

Lemma count_matriculas_snoc (id i m : Z) (t : Tables) :
  count_matriculas id
    (set_turma_instrutor_aluno (turma_instrutor_aluno t ++ [(i, m)]) t) =
  count_matriculas id t + (if i =? id then 1 else 0).
Proof.
  unfold count_matriculas. simpl. rewrite filter_app, length_app, Nat2Z.inj_add.
  simpl. destruct (i =? id); reflexivity.
Qed.

(** The trigger leaves room for the row it lets in. *)
Lemma sql_insert_matricula_turma_cap id m :
  stmt_keeps capacidade_ok (sql_insert_matricula_turma id m).
Proof.
  intros t q Hwf Hc. unfold sql_insert_matricula_turma. cbv zeta.
  destruct (int4_ok id && int4_ok m); cbn [negb]; [|exact I].
  destruct (verificar_vagas_turma (id, m) t) eqn:Ev; simpl; [exact I|].
  case_checks; simpl; try exact I. norm_checks. split_wf Hwf.
  intros c Hin. rewrite count_matriculas_snoc. simpl in Hin.
  specialize (Hc c Hin).
  destruct (id =? tu_id_turma c) eqn:E; [|lia].
  apply Z.eqb_eq in E. subst id.
  unfold verificar_vagas_turma in Ev. simpl in Ev.
  pose proof (@find_key_In _ tu_id_turma (tu_id_turma c) (turma t) c K_turma Hin eq_refl)
    as Hf.
  rewrite Hf in Ev. simpl in Ev.
  destruct (count_matriculas (tu_id_turma c) t >=? tu_quantidade_vagas c) eqn:Eg;
    [discriminate|].
  rewrite Z.geb_leb in Eg. apply Z.leb_gt in Eg. lia.
Qed.

Lemma apply_set_vagas (us : list turma_col) (r : turma_row) :
  tu_quantidade_vagas (apply_set assign_turma us r) = tu_quantidade_vagas r \/
  In (Set_quantidade_vagas (tu_quantidade_vagas (apply_set assign_turma us r))) us.
Proof.
  unfold apply_set. revert r. induction us as [|c us IH]; simpl; intros r.
  - now left.
  - destruct (IH (assign_turma c r)) as [E|Hin]; [|now right; right].
    rewrite E. destruct c; simpl; auto.
Qed.

(** Changing the seats of a class keeps the invariant as long as the new
    number covers the current enrolments. *)
Lemma sql_update_turma_cap (us : list turma_col) (id : Z) (t : Tables) (q : Seqs) :
  capacidade_ok t ->
  (forall v, In (Set_quantidade_vagas v) us -> count_matriculas id t <= v) ->
  match fst (sql_update_turma us id t q) with
  | inr (_, t') => capacidade_ok t'
  | inl _ => True
  end.
Proof.
  intros Hc Hv. unfold sql_update_turma. case_checks; simpl; try exact I.
  intros c Hin. simpl in Hin. unfold count_matriculas. simpl.
  apply In_sql_update in Hin. destruct Hin as [r [Hr E]].
  specialize (Hc r Hr). unfold count_matriculas in Hc.
  destruct (tu_id_turma r =? id) eqn:Eid; subst c; [|assumption].
  rewrite turma_set_id. apply Z.eqb_eq in Eid.
  destruct (apply_set_vagas us r) as [Ev|Ev].
  - now rewrite Ev.
  - apply Hv in Ev. unfold count_matriculas in Ev. now rewrite Eid.
Qed.

Lemma atualizar_plano_aluno_cap hoje m novo :
  stmt_keeps capacidade_ok (atualizar_plano_aluno hoje m novo).
Proof.
  intros t q Hwf Hc. unfold atualizar_plano_aluno.
  destruct (match option_map pl_preco (find _ (plano t)) with Some _ => _ | None => _ end).
  - exact Hc.
  - pose proof (@sql_update_aluno_set_cap [Set_codigo_plano novo; Set_data_matricula hoje]
                  m t q Hwf Hc) as Hu.
    destruct (sql_update_aluno_set _ m t q) as [[e|[u t']] q']; simpl in *; assumption.
Qed.

(** ** Every route keeps the store well formed *)

Lemma stmt_keeps_trivial {A : Type} (s : Stmt A) : stmt_keeps (fun _ => True) s.
Proof. intros t q _ _. destruct (fst (s t q)) as [e|[a t']]; exact I. Qed.

Create HintDb keeps.
Create HintDb handlers.

#[local] Hint Resolve
  sql_select_ok sql_insert_plano_ok sql_insert_aluno_ok sql_insert_contato_aluno_ok
  sql_insert_bioimpedancia_ok sql_insert_instrutor_ok sql_insert_contato_instrutor_ok
  sql_insert_turma_ok sql_insert_matricula_turma_ok sql_update_plano_ok
  sql_update_turma_ok sql_update_aluno_ok sql_update_contato_aluno_ok
  sql_update_contato_instrutor_ok sql_update_bioimpedancia_ok sql_update_instrutor_ok
  sql_delete_aluno_ok sql_delete_plano_ok sql_delete_turma_ok sql_delete_instrutor_ok
  sql_delete_bioimpedancia_ok sql_delete_matricula_turma_ok
  stmt_keeps_trivial sql_select_keeps
  sql_insert_plano_cap sql_insert_aluno_cap sql_insert_contato_aluno_cap
  sql_insert_bioimpedancia_cap sql_insert_instrutor_cap sql_insert_contato_instrutor_cap
  sql_insert_turma_cap sql_insert_matricula_turma_cap sql_update_plano_cap
  sql_update_aluno_cap sql_update_contato_aluno_cap sql_update_contato_instrutor_cap
  sql_update_bioimpedancia_cap sql_update_instrutor_cap
  sql_delete_aluno_cap sql_delete_plano_cap sql_delete_turma_cap sql_delete_instrutor_cap
  sql_delete_bioimpedancia_cap sql_delete_matricula_turma_cap : keeps.

#[local] Hint Unfold
  create_plano update_plano delete_plano create_turma update_turma delete_turma
  create_matricula_turma delete_matricula_turma create_aluno update_aluno delete_aluno
  create_contato_aluno create_contato_instrutor update_contato_aluno
  update_contato_instrutor create_bioimpedancia update_bioimpedancia delete_bioimpedancia
  create_instrutor update_instrutor delete_instrutor read_instrutor_por_cref
  PlanoResponse_init : handlers.

(** Walks through a handler: binds, branches, statements. *)
Ltac keeps_tac :=
  lazymatch goal with
  | |- py_keeps _ (bind _ _) => apply bind_keeps; [keeps_tac | intros; keeps_tac]
  | |- py_keeps _ (ret _) => apply ret_keeps
  | |- py_keeps _ (raise _) => apply raise_keeps
  | |- py_keeps _ commit => apply commit_keeps
  | |- py_keeps _ (execute_query _) => apply execute_query_keeps; auto with keeps
  | |- py_keeps _ (match ?x with _ => _ end) => destruct x; keeps_tac
  | |- py_keeps _ _ => progress autounfold with handlers; keeps_tac
  end.

Lemma serve_wf (hoje : date) (r : Request) (db : Db) :
  wf_db db -> wf_db (serve hoje r db).
Proof.
  intros H.
  assert (Hok : db_ok (fun _ => True) db) by (split; [assumption | exact I]).
  cut (db_ok (fun _ => True) (serve hoje r db)); [intros [Hw _]; exact Hw|].
  destruct r; simpl;
    unfold criar_plano, atualizar_plano, deletar_plano, criar_aluno, atualizar_aluno,
      deletar_aluno, criar_bioimpedancia, atualizar_bioimpedancia, deletar_bioimpedancia,
      criar_instrutor, atualizar_instrutor, deletar_instrutor, criar_turma,
      atualizar_turma, deletar_turma, matricular_aluno_turma, remover_aluno_turma,
      respond; simpl;
    apply store_after_keeps; try assumption; keeps_tac.
Qed.

Ltac unfold_routes :=
  unfold criar_plano, atualizar_plano, deletar_plano, criar_aluno, atualizar_aluno,
    deletar_aluno, criar_bioimpedancia, atualizar_bioimpedancia, deletar_bioimpedancia,
    criar_instrutor, atualizar_instrutor, deletar_instrutor, criar_turma,
    atualizar_turma, deletar_turma, matricular_aluno_turma, remover_aluno_turma,
    respond; simpl.

(** The [SET] list that [update_turma] builds holds the seats it was given
    and no other. *)
Lemma update_turma_vagas (nome : option string) (vagas : option Z)
      (turno : option TurnoEnum) (cref : option Z) (v : Z) :
  In (Set_quantidade_vagas v)
     (append_given Set_turma_cref cref
        (append_given Set_turma_turno turno
           (append_given Set_quantidade_vagas vagas
              (append_given Set_nome_atividade nome [])))) ->
  vagas = Some v.
Proof.
  destruct nome, vagas, turno, cref; simpl; intros H;
    repeat (destruct H as [H|H]; try discriminate; try (inversion H; subst; reflexivity));
    try contradiction.
Qed.

Lemma atualizar_turma_capacidade (id : Z) (u : TurmaUpdate) (db : Db) :
  reduz_vagas (AtualizarTurma id u) db = false ->
  db_ok capacidade_ok db -> db_ok capacidade_ok (atualizar_turma id u db).
Proof.
  intros Hg Hok. unfold atualizar_turma. apply store_after_keeps_at; [|assumption].
  apply bind_keeps_at; [|intros; apply commit_keeps].
  unfold update_turma.
  destruct (append_given Set_turma_cref _ _) as [|c us] eqn:Eus; [apply ret_keeps|].
  rewrite <- Eus. apply execute_query_keeps_at.
  - apply sql_update_turma_ok.
  - intros _ Hc. apply sql_update_turma_cap; [assumption|].
    intros v Hv. apply update_turma_vagas in Hv.
    simpl in Hg. rewrite Hv in Hg. apply Z.ltb_ge in Hg. exact Hg.
Qed.

Lemma serve_capacidade (hoje : date) (r : Request) (db : Db) :
  reduz_vagas r db = false ->
  db_ok capacidade_ok db -> db_ok capacidade_ok (serve hoje r db).
Proof.
  intros Hg Hok.
  destruct r; try (now apply atualizar_turma_capacidade); simpl; unfold_routes;
    apply store_after_keeps; try assumption; keeps_tac.
Qed.

Lemma wf_init_database : wf_db init_database.
Proof.
  split; [apply wf_tablesb_sound; reflexivity|].
  constructor; simpl; intros r [].
Qed.

Lemma reachable_wf (db : Db) : reachable db -> wf_db db.
Proof.
  induction 1 as [|hoje r db _ IH]; [apply wf_init_database | now apply serve_wf].
Qed.

Lemma reachable_sem_reducao_reachable (db : Db) :
  reachable_sem_reducao db -> reachable db.
Proof. induction 1; constructor; assumption. Qed.

Lemma reachable_capacidade (db : Db) :
  reachable_sem_reducao db -> db_ok capacidade_ok db.
Proof.
  induction 1 as [|hoje r db _ IH Hg].
  - split; [apply wf_init_database | intros c []].
  - now apply serve_capacidade.
Qed.

(** ** Enrolment *)

Lemma db_eta (db : Db) : mk_db (db_tables db) (db_seqs db) = db.
Proof. destruct db; reflexivity. Qed.

Lemma filter_key_unique {A : Type} (key : A -> Z) (l : list A) (r : A) :
  NoDup (map key l) -> In r l -> filter (fun x => key x =? key r) l = [r].
Proof.
  induction l as [|x l IH]; simpl; intros Hnd Hin; [contradiction|].
  inversion Hnd as [|? ? Hn Hd]; subst. destruct Hin as [->|Hin].
  - rewrite Z.eqb_refl. f_equal. apply filter_none.
    intros y Hy. apply Z.eqb_neq. intros E. apply Hn. rewrite <- E. now apply in_map.
  - destruct (key x =? key r) eqn:E.
    + apply Z.eqb_eq in E. exfalso. apply Hn. rewrite E. now apply in_map.
    + now apply IH.
Qed.

Lemma filter_key_absent {A : Type} (key : A -> Z) (k : Z) (l : list A) :
  ~ In k (map key l) -> filter (fun x => key x =? k) l = [].
Proof.
  intros H. apply filter_none. intros r Hr. apply Z.eqb_neq. intros E.
  apply H. rewrite <- E. now apply in_map.
Qed.

(** The key of a stored row is an [INTEGER]. *)
Lemma aluno_int4 (t : Tables) (m : Z) :
  wf_tables t -> In m (map al_matricula (aluno t)) -> int4_ok m = true.
Proof.
  intros Hwf Hm. apply in_map_iff in Hm. destruct Hm as [a [<- Ha]].
  now apply (i4_aluno (wf_int4 Hwf)).
Qed.

Lemma plano_int4 (t : Tables) (k : Z) :
  wf_tables t -> In k (map pl_codigo_plano (plano t)) -> int4_ok k = true.
Proof.
  intros Hwf Hk. apply in_map_iff in Hk. destruct Hk as [p [<- Hp]].
  now apply (i4_plano (wf_int4 Hwf)).
Qed.

Lemma instrutor_int4 (t : Tables) (k : Z) :
  wf_tables t -> In k (map in_cref (instrutor t)) -> int4_ok k = true.
Proof.
  intros Hwf Hk. apply in_map_iff in Hk. destruct Hk as [p [<- Hp]].
  now apply (i4_instrutor (wf_int4 Hwf)).
Qed.

(** What the route does, read off its code: the class lookup, the seat
    comparison, then the insert. *)
Lemma matricular_aluno_turma_eq (id m : Z) (db : Db) :
  matricular_aluno_turma id m db =
  match filter (fun r => tu_id_turma r =? id) (turma (db_tables db)) with
  | [] => (HTTPError 400 (PyExc "Turma não encontrada"), db)
  | c :: _ =>
      if count_matriculas id (db_tables db) >=? tu_quantidade_vagas c
      then (HTTPError 400 (PyExc "Turma sem vagas disponíveis"), db)
      else
        match fst (sql_insert_matricula_turma id m (db_tables db) (db_seqs db)) with
        | inl e => (HTTPError 400 (QueryError e), db)
        | inr (_, t') => (Reply 201 "Aluno matriculado com sucesso", mk_db t' (db_seqs db))
        end
  end.
Proof.
  destruct db as [t q].
  unfold matricular_aluno_turma, respond, store_after, bind, create_matricula_turma, bind,
    execute_query, sql_select, get_connection, close_connection, commit, raise, ret.
  simpl.
  destruct (filter (fun r => tu_id_turma r =? id) (turma t)) as [|c cs]; simpl;
    [reflexivity|].
  destruct (count_matriculas id t >=? tu_quantidade_vagas c); simpl; [reflexivity|].
  unfold sql_insert_matricula_turma.
  destruct (int4_ok id && int4_ok m); simpl; [|reflexivity].
  destruct (verificar_vagas_turma (id, m) t); simpl; [reflexivity|].
  destruct (existsb _ _); simpl; [reflexivity|].
  destruct (mem_Z id _); simpl; [|reflexivity].
  destruct (mem_Z m _); simpl; reflexivity.
Qed.

(** With a free seat in an existing class, the trigger lets the row in. *)
Lemma verificar_vagas_turma_livre (id m : Z) (t : Tables) (c : turma_row) :
  NoDup (map tu_id_turma (turma t)) -> In c (turma t) -> tu_id_turma c = id ->
  count_matriculas id t < tu_quantidade_vagas c ->
  verificar_vagas_turma (id, m) t = None.
Proof.
  intros Hnd Hin Hid Hlt. unfold verificar_vagas_turma. simpl.
  rewrite (@find_key_In _ tu_id_turma id (turma t) c Hnd Hin Hid). simpl.
  destruct (count_matriculas id t >=? tu_quantidade_vagas c) eqn:E; [|reflexivity].
  rewrite Z.geb_leb in E. apply Z.leb_le in E. lia.
Qed.


Lemma matricular_turma_cheia (id m : Z) (db : Db) (c : turma_row) :
  wf_db db -> In c (turma (db_tables db)) -> tu_id_turma c = id ->
  tu_quantidade_vagas c <= count_matriculas id (db_tables db) ->
  matricular_aluno_turma id m db =
  (HTTPError 400 (PyExc "Turma sem vagas disponíveis"), db).
Proof.
  intros Hwf Hin Hid Hfull. rewrite matricular_aluno_turma_eq. subst id.
  rewrite filter_key_unique by (try apply Hwf; assumption).
  destruct (_ >=? _) eqn:E; [reflexivity|].
  rewrite Z.geb_leb in E. apply Z.leb_gt in E. lia.
Qed.

Lemma matricular_com_vaga (id m : Z) (db : Db) (c : turma_row) :
  wf_db db -> In c (turma (db_tables db)) -> tu_id_turma c = id ->
  count_matriculas id (db_tables db) < tu_quantidade_vagas c ->
  matricular_aluno_turma id m db =
  if negb (int4_ok m)
  then (HTTPError 400 (QueryError DataException), db)
  else if existsb (eqb_matricula_turma (id, m)) (turma_instrutor_aluno (db_tables db))
  then (HTTPError 400
          (QueryError (UniqueViolation "turma_instrutor_aluno.(id_turma, matricula)")), db)
  else if mem_Z m (map al_matricula (aluno (db_tables db)))
  then (Reply 201 "Aluno matriculado com sucesso",
        mk_db (set_turma_instrutor_aluno
                 (turma_instrutor_aluno (db_tables db) ++ [(id, m)]) (db_tables db))
              (db_seqs db))
  else (HTTPError 400
          (QueryError (ForeignKeyViolation "turma_instrutor_aluno.matricula")), db).
Proof.
  intros Hwf Hin Hid Hfree. rewrite matricular_aluno_turma_eq.
  assert (Hnd : NoDup (map tu_id_turma (turma (db_tables db)))) by apply Hwf.
  pose proof (@verificar_vagas_turma_livre id m _ c Hnd Hin Hid Hfree) as Hv.
  pose proof (i4_turma (wf_int4 (proj1 Hwf)) c Hin) as Hid4.
  subst id. rewrite filter_key_unique by assumption.
  destruct (_ >=? _) eqn:E.
  { rewrite Z.geb_leb in E. apply Z.leb_le in E. lia. }
  unfold sql_insert_matricula_turma. cbv zeta. rewrite Hid4. cbn [andb].
  destruct (int4_ok m); cbn [negb fst]; [|reflexivity].
  rewrite Hv.
  destruct (existsb _ _); simpl; [reflexivity|].
  assert (Hm : mem_Z (tu_id_turma c) (map tu_id_turma (turma (db_tables db))) = true)
    by (apply mem_Z_In; now apply in_map).
  rewrite Hm. simpl. destruct (mem_Z m _); reflexivity.
Qed.


Lemma create_matricula_turma_com_vaga (id m : Z) (db : Db) (c : turma_row) :
  wf_db db -> In c (turma (db_tables db)) -> tu_id_turma c = id ->
  count_matriculas id (db_tables db) < tu_quantidade_vagas c ->
  fst (create_matricula_turma id m (get_connection db)) =
  match fst (sql_insert_matricula_turma id m (db_tables db) (db_seqs db)) with
  | inl e => inl (QueryError e)
  | inr _ => inr tt
  end.
Proof.
  intros Hwf Hin Hid Hfree.
  unfold create_matricula_turma, bind, execute_query, sql_select, get_connection, raise.
  simpl. subst id.
  rewrite filter_key_unique by (try apply Hwf; assumption). simpl.
  destruct (_ >=? _) eqn:E.
  { rewrite Z.geb_leb in E. apply Z.leb_le in E. lia. }
  destruct (sql_insert_matricula_turma _ m _ _) as [[e|[u t']] q']; try destruct u;
    reflexivity.
Qed.

(** C8, as amended.  The route looks the class up and never the student:
    with a free seat in an existing class and a [matricula] that no student
    has, the call gets as far as the [INSERT] and fails with the error of
    that statement, which comes back as the query error of [execute_query]
    while nothing is inserted.  The error is the violation of the foreign
    key of [matricula] when the number is in the range of the [INTEGER]
    column; beyond that range the store refuses the value itself. *)
Theorem C8_enroll_unknown_student (id m : Z) (db : Db) (c : turma_row) :
  wf_db db ->
  In c (turma (db_tables db)) -> tu_id_turma c = id ->
  count_matriculas id (db_tables db) < tu_quantidade_vagas c ->
  ~ In m (map al_matricula (aluno (db_tables db))) ->
  let e := if int4_ok m
           then ForeignKeyViolation "turma_instrutor_aluno.matricula"
           else DataException in
  fst (sql_insert_matricula_turma id m (db_tables db) (db_seqs db)) = inl e /\
  fst (create_matricula_turma id m (get_connection db)) = inl (QueryError e) /\
  matricular_aluno_turma id m db = (HTTPError 400 (QueryError e), db).
Proof.
  intros Hwf Hin Hid Hfree Hm e.
  assert (Hp : existsb (eqb_matricula_turma (id, m))
                       (turma_instrutor_aluno (db_tables db)) = false).
  { destruct (existsb _ _) eqn:E; [|reflexivity].
    apply existsb_matricula_turma in E. exfalso. apply Hm.
    pose proof (fk_matricula_aluno (wf_orfaos (proj1 Hwf)) _ E) as Hfk. exact Hfk. }
  assert (Hmm : mem_Z m (map al_matricula (aluno (db_tables db))) = false)
    by now apply mem_Z_false.
  assert (Hins : fst (sql_insert_matricula_turma id m (db_tables db) (db_seqs db)) = inl e).
  { assert (Hnd : NoDup (map tu_id_turma (turma (db_tables db)))) by apply Hwf.
    pose proof (@verificar_vagas_turma_livre id m _ c Hnd Hin Hid Hfree) as Hv.
    pose proof (i4_turma (wf_int4 (proj1 Hwf)) c Hin) as Hid4. rewrite Hid in Hid4.
    assert (Hc : mem_Z id (map tu_id_turma (turma (db_tables db))) = true)
      by (apply mem_Z_In; rewrite <- Hid; now apply in_map).
    unfold sql_insert_matricula_turma. cbv zeta. rewrite Hid4. cbn [andb]. subst e.
    destruct (int4_ok m); cbn [negb fst]; [|reflexivity].
    now rewrite Hv, Hp, Hc, Hmm. }
  split; [exact Hins|]. split.
  - rewrite (@create_matricula_turma_com_vaga id m db c Hwf Hin Hid Hfree).
    now rewrite Hins.
  - rewrite (@matricular_com_vaga id m db c Hwf Hin Hid Hfree). subst e.
    destruct (int4_ok m); cbn [negb]; [|reflexivity]. now rewrite Hp, Hmm.
Qed.

(** ** The seat invariant along the requests *)

(** C1, as amended.  In every store reached from a fresh database by
    requests none of which sets the seats of a class below its current
    number of enrolments, no class holds more enrolments than it has seats;
    enrolling into a class that is full is refused and leaves the store as
    it was; and one more request of that kind keeps the invariant. *)
Theorem C1_capacity_invariant (db : Db) :
  reachable_sem_reducao db ->
  capacidade_ok (db_tables db) /\
  (forall id m c,
     In c (turma (db_tables db)) -> tu_id_turma c = id ->
     tu_quantidade_vagas c <= count_matriculas id (db_tables db) ->
     matricular_aluno_turma id m db =
     (HTTPError 400 (PyExc "Turma sem vagas disponíveis"), db)) /\
  (forall hoje r,
     reduz_vagas r db = false -> capacidade_ok (db_tables (serve hoje r db))).
Proof.
  intros Hr. pose proof (reachable_capacidade Hr) as [Hwf Hc].
  split; [exact Hc|]. split.
  - intros id m c Hin Hid Hfull. now apply matricular_turma_cheia with (c := c).
  - intros hoje r Hg.
    apply (@serve_capacidade hoje r db Hg). split; assumption.
Qed.

(** ** The plan-upgrade function *)

Lemma NoDup_map_inj {A B : Type} (key : A -> B) (l : list A) (x y : A) :
  NoDup (map key l) -> In x l -> In y l -> key x = key y -> x = y.
Proof.
  induction l as [|z l IH]; simpl; intros Hnd Hx Hy E; [contradiction|].
  inversion Hnd as [|? ? Hn Hd]; subst.
  destruct Hx as [->|Hx], Hy as [->|Hy]; try reflexivity.
  - exfalso. apply Hn. rewrite E. now apply in_map.
  - exfalso. apply Hn. rewrite <- E. now apply in_map.
  - now apply IH.
Qed.

(** The rows the function writes on success. *)
Lemma atualizar_plano_aluno_sucesso (hoje : date) (t : Tables) (q : Seqs) (m novo : Z) :
  wf_tables t ->
  In novo (map pl_codigo_plano (plano t)) ->
  sql_update_aluno_set [Set_codigo_plano novo; Set_data_matricula hoje] m t q =
  (inr (tt, set_aluno
              (map (fun r => if al_matricula r =? m
                             then mk_aluno (al_matricula r) (al_cpf r) (al_nome r) (al_sexo r)
                                           (al_data_nascimento r) hoje novo
                             else r) (aluno t)) t), q).
Proof.
  intros Hwf Hnovo. unfold sql_update_aluno_set.
  change (sql_update (fun r => al_matricula r =? m)
            (apply_set assign_aluno [Set_codigo_plano novo; Set_data_matricula hoje])
            (aluno t))
    with (map (fun r => if al_matricula r =? m
                        then mk_aluno (al_matricula r) (al_cpf r) (al_nome r) (al_sexo r)
                                      (al_data_nascimento r) hoje novo
                        else r) (aluno t)).
  set (rows := map _ (aluno t)).
  assert (Hcpf : map al_cpf rows = map al_cpf (aluno t)).
  { unfold rows. rewrite map_map. apply map_ext. intros r.
    destruct (al_matricula r =? m); reflexivity. }
  rewrite Hcpf.
  assert (Hnd : nodup_stringb (map al_cpf (aluno t)) = true)
    by (apply nodup_stringb_NoDup; apply Hwf).
  rewrite Hnd, andb_false_r.
  assert (Hfk : touched_ok (fun r => al_matricula r =? m)
                  (fun r => mem_Z (al_codigo_plano r) (map pl_codigo_plano (plano t)))
                  rows = true).
  { apply touched_ok_spec. intros r Hr Hc. unfold rows in Hr.
    apply in_map_iff in Hr. destruct Hr as [r0 [E Hr0]].
    destruct (al_matricula r0 =? m) eqn:E0; subst r.
    - simpl. now apply mem_Z_In.
    - congruence. }
  rewrite Hfk. reflexivity.
Qed.

(** The rule of the stored function.  For a student that exists, whose
    current plan is [p_atual], and a new plan [p_novo] that exists:
    [atualizar_plano_aluno] answers "Plano alterado com sucesso!" exactly
    when the new price is strictly above the current one; it then sets the
    student's plan to the new one and the enrolment date to the current
    date, touching nothing else; otherwise it answers "Erro: O novo plano
    deve ser mais caro que o atual!" and leaves every table as it was. *)
Lemma atualizar_plano_aluno_regra (hoje : date) (t : Tables) (q : Seqs) (m novo : Z)
        (a : aluno_row) (p_atual p_novo : plano_row) :
  wf_tables t ->
  In a (aluno t) -> al_matricula a = m ->
  In p_atual (plano t) -> pl_codigo_plano p_atual = al_codigo_plano a ->
  In p_novo (plano t) -> pl_codigo_plano p_novo = novo ->
  ((exists t', atualizar_plano_aluno hoje m novo t q =
               (inr ("Plano alterado com sucesso!", t'), q)) <->
   pl_preco p_atual < pl_preco p_novo) /\
  (pl_preco p_atual < pl_preco p_novo ->
   atualizar_plano_aluno hoje m novo t q =
   (inr ("Plano alterado com sucesso!",
         set_aluno
           (map (fun r => if al_matricula r =? m
                          then mk_aluno (al_matricula r) (al_cpf r) (al_nome r) (al_sexo r)
                                        (al_data_nascimento r) hoje novo
                          else r) (aluno t)) t), q) /\
   In (mk_aluno m (al_cpf a) (al_nome a) (al_sexo a) (al_data_nascimento a) hoje novo)
      (map (fun r => if al_matricula r =? m
                     then mk_aluno (al_matricula r) (al_cpf r) (al_nome r) (al_sexo r)
                                   (al_data_nascimento r) hoje novo
                     else r) (aluno t))) /\
  (pl_preco p_novo <= pl_preco p_atual ->
   atualizar_plano_aluno hoje m novo t q =
   (inr ("Erro: O novo plano deve ser mais caro que o atual!", t), q)).
Proof.
  intros Hwf Ha Hm Hpa Hca Hpn Hcn.
  assert (Hnovo : In novo (map pl_codigo_plano (plano t)))
    by (rewrite <- Hcn; now apply in_map).
  assert (Eup : pl_preco p_atual < pl_preco p_novo ->
                atualizar_plano_aluno hoje m novo t q =
                (inr ("Plano alterado com sucesso!",
                      set_aluno
                        (map (fun r => if al_matricula r =? m
                                       then mk_aluno (al_matricula r) (al_cpf r) (al_nome r)
                                                     (al_sexo r) (al_data_nascimento r)
                                                     hoje novo
                                       else r) (aluno t)) t), q)).
  { intros Hlt. unfold atualizar_plano_aluno.
    rewrite (@find_key_In _ al_matricula m (aluno t) a) by (try apply Hwf; assumption).
    rewrite (@find_key_In _ pl_codigo_plano (al_codigo_plano a) (plano t) p_atual)
      by (try apply Hwf; assumption).
    rewrite (@find_key_In _ pl_codigo_plano novo (plano t) p_novo)
      by (try apply Hwf; assumption).
    simpl option_map. cbv iota beta.
    replace (pl_preco p_novo <=? pl_preco p_atual) with false
      by (symmetry; apply Z.leb_gt; lia).
    now rewrite atualizar_plano_aluno_sucesso. }
  assert (Edown : pl_preco p_novo <= pl_preco p_atual ->
                  atualizar_plano_aluno hoje m novo t q =
                  (inr ("Erro: O novo plano deve ser mais caro que o atual!", t), q)).
  { intros Hle. unfold atualizar_plano_aluno.
    rewrite (@find_key_In _ al_matricula m (aluno t) a) by (try apply Hwf; assumption).
    rewrite (@find_key_In _ pl_codigo_plano (al_codigo_plano a) (plano t) p_atual)
      by (try apply Hwf; assumption).
    rewrite (@find_key_In _ pl_codigo_plano novo (plano t) p_novo)
      by (try apply Hwf; assumption).
    simpl option_map. cbv iota beta.
    replace (pl_preco p_novo <=? pl_preco p_atual) with true
      by (symmetry; apply Z.leb_le; lia).
    reflexivity. }
  split; [|split].
  - split.
    + intros [t' E]. destruct (Z.lt_ge_cases (pl_preco p_atual) (pl_preco p_novo))
        as [Hlt|Hge]; [assumption|].
      rewrite (Edown Hge) in E. discriminate.
    + intros Hlt. eexists. apply (Eup Hlt).
  - intros Hlt. split; [apply (Eup Hlt)|].
    apply in_map_iff. exists a. split; [|assumption].
    rewrite Hm, Z.eqb_refl. reflexivity.
  - exact Edown.
Qed.

(** The route writes [codigo_plano] with the plain [UPDATE] of
    [update_aluno]. *)
Lemma sql_update_aluno_so_plano (t : Tables) (q : Seqs) (m novo : Z) :
  wf_tables t ->
  In novo (map pl_codigo_plano (plano t)) ->
  sql_update_aluno [Set_codigo_plano novo] m t q =
  (inr (tt, set_aluno
              (map (fun r => if al_matricula r =? m
                             then mk_aluno (al_matricula r) (al_cpf r) (al_nome r) (al_sexo r)
                                           (al_data_nascimento r) (al_data_matricula r) novo
                             else r) (aluno t)) t), q).
Proof.
  intros Hwf Hnovo. unfold sql_update_aluno. cbn [forallb aluno_col_ok].
  rewrite (@plano_int4 t novo Hwf Hnovo). cbn [andb negb].
  unfold sql_update_aluno_set.
  change (sql_update (fun r => al_matricula r =? m)
            (apply_set assign_aluno [Set_codigo_plano novo]) (aluno t))
    with (map (fun r => if al_matricula r =? m
                        then mk_aluno (al_matricula r) (al_cpf r) (al_nome r) (al_sexo r)
                                      (al_data_nascimento r) (al_data_matricula r) novo
                        else r) (aluno t)).
  set (rows := map _ (aluno t)).
  assert (Hcpf : map al_cpf rows = map al_cpf (aluno t)).
  { unfold rows. rewrite map_map. apply map_ext. intros r.
    destruct (al_matricula r =? m); reflexivity. }
  rewrite Hcpf.
  assert (Hnd : nodup_stringb (map al_cpf (aluno t)) = true)
    by (apply nodup_stringb_NoDup; apply Hwf).
  rewrite Hnd, andb_false_r.
  assert (Hfk : touched_ok (fun r => al_matricula r =? m)
                  (fun r => mem_Z (al_codigo_plano r) (map pl_codigo_plano (plano t)))
                  rows = true).
  { apply touched_ok_spec. intros r Hr Hc. unfold rows in Hr.
    apply in_map_iff in Hr. destruct Hr as [r0 [E Hr0]].
    destruct (al_matricula r0 =? m) eqn:E0; subst r.
    - simpl. now apply mem_Z_In.
    - congruence. }
  rewrite Hfk. reflexivity.
Qed.

Lemma atualizar_aluno_so_plano (m novo : Z) (db : Db) :
  wf_db db ->
  In novo (map pl_codigo_plano (plano (db_tables db))) ->
  atualizar_aluno m (mk_AlunoUpdate None None None None None (Some novo) None) db =
  mk_db (set_aluno
           (map (fun r => if al_matricula r =? m
                          then mk_aluno (al_matricula r) (al_cpf r) (al_nome r) (al_sexo r)
                                        (al_data_nascimento r) (al_data_matricula r) novo
                          else r) (aluno (db_tables db))) (db_tables db))
        (db_seqs db).
Proof.
  intros [Hwf _] Hnovo. destruct db as [t q]. cbn [db_tables db_seqs] in *.
  unfold atualizar_aluno, store_after, bind, update_aluno, append_given, execute_query,
    commit, get_connection, close_connection.
  cbn [au_cpf au_nome au_sexo au_data_nascimento au_data_matricula au_codigo_plano
       au_contato app working seqs committed db_tables db_seqs].
  rewrite (@sql_update_aluno_so_plano t q m novo Hwf Hnovo). reflexivity.
Qed.

(** C2.  The rule on the prices is in the stored function
    [atualizar_plano_aluno] only, and no route calls it.  For a student that
    exists, on the plan [p_atual], and a plan [p_novo] that exists: the
    route that updates a student, given [codigo_plano] alone, moves the
    student to the new plan whatever the two prices are and leaves the
    enrolment date as it was; so it accepts the change that the stored
    function refuses when the new plan is not more expensive, and it skips
    the reset of the enrolment date that the function makes when it is. *)
Theorem C2_plan_rule_bypassed (hoje : date) (db : Db) (m novo : Z)
        (a : aluno_row) (p_atual p_novo : plano_row) :
  wf_db db ->
  In a (aluno (db_tables db)) -> al_matricula a = m ->
  In p_atual (plano (db_tables db)) -> pl_codigo_plano p_atual = al_codigo_plano a ->
  In p_novo (plano (db_tables db)) -> pl_codigo_plano p_novo = novo ->
  let db' :=
    atualizar_aluno m (mk_AlunoUpdate None None None None None (Some novo) None) db in
  In (mk_aluno m (al_cpf a) (al_nome a) (al_sexo a) (al_data_nascimento a)
               (al_data_matricula a) novo) (aluno (db_tables db')) /\
  (forall r, In r (aluno (db_tables db')) -> al_matricula r = m ->
             al_codigo_plano r = novo /\ al_data_matricula r = al_data_matricula a) /\
  (pl_preco p_novo <= pl_preco p_atual ->
   atualizar_plano_aluno hoje m novo (db_tables db) (db_seqs db) =
   (inr ("Erro: O novo plano deve ser mais caro que o atual!", db_tables db),
    db_seqs db)) /\
  (pl_preco p_atual < pl_preco p_novo ->
   exists t',
     atualizar_plano_aluno hoje m novo (db_tables db) (db_seqs db) =
     (inr ("Plano alterado com sucesso!", t'), db_seqs db) /\
     In (mk_aluno m (al_cpf a) (al_nome a) (al_sexo a) (al_data_nascimento a) hoje novo)
        (aluno t')).
Proof.
  intros Hwf Ha Hm Hpa Hca Hpn Hcn db'.
  assert (Hnovo : In novo (map pl_codigo_plano (plano (db_tables db))))
    by (rewrite <- Hcn; now apply in_map).
  pose proof (@atualizar_plano_aluno_regra hoje (db_tables db) (db_seqs db) m novo a
                p_atual p_novo (proj1 Hwf) Ha Hm Hpa Hca Hpn Hcn) as [_ [Hup Hdown]].
  subst db'. rewrite (@atualizar_aluno_so_plano m novo db Hwf Hnovo). cbn [db_tables aluno set_aluno].
  split; [|split; [|split]].
  - apply in_map_iff. exists a. split; [|exact Ha]. now rewrite Hm, Z.eqb_refl.
  - intros r Hr Hk. apply in_map_iff in Hr. destruct Hr as [r0 [E Hr0]].
    destruct (al_matricula r0 =? m) eqn:E0.
    + apply Z.eqb_eq in E0. subst r. cbn [al_codigo_plano al_data_matricula].
      split; [reflexivity|].
      assert (r0 = a)
        by (apply (NoDup_map_inj al_matricula (aluno (db_tables db)));
            [apply Hwf | assumption | assumption | congruence]).
      now subst r0.
    + subst r. apply Z.eqb_neq in E0. contradiction.
  - exact Hdown.
  - intros Hlt. destruct (Hup Hlt) as [E Hin]. eexists. split; [exact E | exact Hin].
Qed.

(** ** Partial updates *)

Lemma Forall2_sql_update {A : Type} (K : A -> A -> Prop) (cond : A -> bool) (set : A -> A)
      (l : list A) :
  (forall r, K r (if cond r then set r else r)) -> Forall2 K l (sql_update cond set l).
Proof.
  intros H. unfold sql_update. induction l as [|x l IH]; simpl; constructor; auto.
Qed.

Lemma Forall2_same {A : Type} (K : A -> A -> Prop) (l : list A) :
  (forall r, K r r) -> Forall2 K l l.
Proof. intros H. induction l; constructor; auto. Qed.

(** The common shape of the [update_*] functions: nothing is executed for
    an empty [SET] list, one [UPDATE] otherwise. *)
Lemma update_so_escreve {R C : Type} (tbl : Tables -> list R)
      (set_tbl : list R -> Tables -> Tables) (assign : C -> R -> R) (cond : R -> bool)
      (patch : R -> R) (rel : R -> R -> Prop) (us : list C) (s : Stmt unit) (c : Conn) :
  (forall t, set_tbl (tbl t) t = t) ->
  (forall r, apply_set assign us r = patch r) ->
  (forall r, rel r (if cond r then patch r else r)) ->
  (forall t q,
     snd (s t q) = q /\
     match fst (s t q) with
     | inr (_, t') => t' = set_tbl (sql_update cond (apply_set assign us) (tbl t)) t
     | inl _ => True
     end) ->
  so_escreve tbl set_tbl rel c
    ((match us with [] => ret tt | _ :: _ => execute_query s end) c).
Proof.
  intros Heta Hpatch Hrel Hs. unfold so_escreve.
  destruct us as [|u us].
  - simpl. split; [reflexivity|]. split; [reflexivity|].
    exists (tbl (working c)). split; [now rewrite Heta|].
    apply Forall2_same. intros r. specialize (Hrel r). rewrite <- Hpatch in Hrel.
    simpl in Hrel. now destruct (cond r).
  - unfold execute_query. specialize (Hs (working c) (seqs c)).
    destruct (s (working c) (seqs c)) as [[e|[a t']] q'];
      cbn [fst snd committed working seqs] in *;
      destruct Hs as [-> Ht]; (split; [reflexivity|]); (split; [reflexivity|]);
      [reflexivity|].
    eexists. split; [exact Ht|].
    apply Forall2_sql_update. intros r. rewrite Hpatch. apply Hrel.
Qed.

Ltac eta_tac := let t := fresh "t" in intros t; destruct t; reflexivity.

Ltac rel_tac :=
  let r := fresh "r" in
  intros r;
  unfold mantem_plano, mantem_turma, mantem_aluno, mantem_contato_aluno,
    mantem_contato_instrutor, mantem_bioimpedancia, mantem_instrutor;
  match goal with
  | |- context [if ?b then _ else _] => destruct b
  end;
  destruct r; simpl; repeat split; intros; subst; try reflexivity; try discriminate.

Ltac shape_tac :=
  let t := fresh "t" in let q := fresh "q" in
  intros t q; cbv beta delta
    [sql_update_plano sql_update_turma sql_update_aluno sql_update_aluno_set
     sql_update_contato_aluno
     sql_update_contato_instrutor sql_update_bioimpedancia sql_update_instrutor];
  cbv zeta; case_checks; simpl; auto.

Lemma update_plano_so_escreve (codigo : Z) (n : option string) (p : option pyfloat)
      (d : option string) (c : Conn) :
  so_escreve plano set_plano (mantem_plano codigo n p d) c (update_plano codigo n p d c).
Proof.
  unfold update_plano. cbv zeta.
  apply update_so_escreve
    with (assign := assign_plano) (cond := fun r => pl_codigo_plano r =? codigo)
         (patch := patch_plano n p d).
  - eta_tac.
  - intros r. destruct n, p, d; destruct r; reflexivity.
  - destruct n, p, d; rel_tac.
  - shape_tac.
Qed.

Lemma update_turma_so_escreve (id : Z) (n : option string) (v : option Z)
      (tn : option TurnoEnum) (cr : option Z) (c : Conn) :
  so_escreve turma set_turma (mantem_turma id n v tn cr) c (update_turma id n v tn cr c).
Proof.
  unfold update_turma. cbv zeta.
  apply update_so_escreve
    with (assign := assign_turma) (cond := fun r => tu_id_turma r =? id)
         (patch := patch_turma n v tn cr).
  - eta_tac.
  - intros r. destruct n, v, tn, cr; destruct r; reflexivity.
  - destruct n, v, tn, cr; rel_tac.
  - shape_tac.
Qed.

Lemma update_aluno_so_escreve (m : Z) (cpf nome : option string) (sexo : option SexoEnum)
      (dn dm : option date) (cp : option Z) (c : Conn) :
  so_escreve aluno set_aluno (mantem_aluno m cpf nome sexo dn dm cp) c
             (update_aluno m cpf nome sexo dn dm cp c).
Proof.
  unfold update_aluno. cbv zeta.
  apply update_so_escreve
    with (assign := assign_aluno) (cond := fun r => al_matricula r =? m)
         (patch := patch_aluno cpf nome sexo dn dm cp).
  - eta_tac.
  - intros r. destruct cpf, nome, sexo, dn, dm, cp; destruct r; reflexivity.
  - destruct cpf, nome, sexo, dn, dm, cp; rel_tac.
  - shape_tac.
Qed.

Lemma update_contato_aluno_so_escreve (m : Z) (tel email : option string) (c : Conn) :
  so_escreve contato_aluno set_contato_aluno (mantem_contato_aluno m tel email) c
             (update_contato_aluno m tel email c).
Proof.
  unfold update_contato_aluno. cbv zeta.
  apply update_so_escreve
    with (assign := assign_contato_aluno) (cond := fun r => ca_matricula r =? m)
         (patch := patch_contato_aluno tel email).
  - eta_tac.
  - intros r. destruct tel, email; destruct r; reflexivity.
  - destruct tel, email; rel_tac.
  - shape_tac.
Qed.

Lemma update_contato_instrutor_so_escreve (cref : Z) (tel email : option string) (c : Conn) :
  so_escreve contato_instrutor set_contato_instrutor
             (mantem_contato_instrutor cref tel email) c
             (update_contato_instrutor cref tel email c).
Proof.
  unfold update_contato_instrutor. cbv zeta.
  apply update_so_escreve
    with (assign := assign_contato_instrutor) (cond := fun r => ci_cref r =? cref)
         (patch := patch_contato_instrutor tel email).
  - eta_tac.
  - intros r. destruct tel, email; destruct r; reflexivity.
  - destruct tel, email; rel_tac.
  - shape_tac.
Qed.

Lemma update_bioimpedancia_so_escreve (m : Z) (p a : option pyfloat) (tmb : option Z)
      (g ag : option pyfloat) (c : Conn) :
  so_escreve bioimpedancia set_bioimpedancia (mantem_bioimpedancia m p a tmb g ag) c
             (update_bioimpedancia m p a tmb g ag c).
Proof.
  unfold update_bioimpedancia. cbv zeta.
  apply update_so_escreve
    with (assign := assign_bioimpedancia) (cond := fun r => bi_matricula r =? m)
         (patch := patch_bioimpedancia p a tmb g ag).
  - eta_tac.
  - intros r. destruct p, a, tmb, g, ag; destruct r; reflexivity.
  - destruct p, a, tmb, g, ag; rel_tac.
  - shape_tac.
Qed.

Lemma update_instrutor_so_escreve (hoje : date) (cref : Z) (cpf nome : option string)
      (dn da : option date) (turno : option TurnoEnum) (c : Conn) :
  so_escreve instrutor set_instrutor (mantem_instrutor cref cpf nome dn da turno) c
             (update_instrutor hoje cref cpf nome dn da turno c).
Proof.
  unfold update_instrutor. cbv zeta.
  apply update_so_escreve
    with (assign := assign_instrutor) (cond := fun r => in_cref r =? cref)
         (patch := patch_instrutor cpf nome dn da turno).
  - eta_tac.
  - intros r. destruct cpf, nome, dn, da, turno; destruct r; reflexivity.
  - destruct cpf, nome, dn, da, turno; rel_tac.
  - shape_tac.
Qed.

(** C5.  For each of the seven [update_*] functions (plan, class, student,
    the two contact tables, measurement, instructor): the call writes one
    table only, row by row; rows of other entities are left alone; in the
    addressed row every argument passed as [None] leaves its column as it
    was stored, for every combination of present and absent arguments; a
    refused update is rolled back as a whole; and a call with every
    argument absent executes no statement and returns the connection as it
    received it. *)
Theorem C5_partial_update_frame (c : Conn) :
  (forall codigo n p d,
     so_escreve plano set_plano (mantem_plano codigo n p d) c (update_plano codigo n p d c))
  /\
  (forall id n v tn cr,
     so_escreve turma set_turma (mantem_turma id n v tn cr) c (update_turma id n v tn cr c))
  /\
  (forall m cpf nome sexo dn dm cp,
     so_escreve aluno set_aluno (mantem_aluno m cpf nome sexo dn dm cp) c
                (update_aluno m cpf nome sexo dn dm cp c))
  /\
  (forall m tel email,
     so_escreve contato_aluno set_contato_aluno (mantem_contato_aluno m tel email) c
                (update_contato_aluno m tel email c))
  /\
  (forall cref tel email,
     so_escreve contato_instrutor set_contato_instrutor
                (mantem_contato_instrutor cref tel email) c
                (update_contato_instrutor cref tel email c))
  /\
  (forall m p a tmb g ag,
     so_escreve bioimpedancia set_bioimpedancia (mantem_bioimpedancia m p a tmb g ag) c
                (update_bioimpedancia m p a tmb g ag c))
  /\
  (forall hoje cref cpf nome dn da turno,
     so_escreve instrutor set_instrutor (mantem_instrutor cref cpf nome dn da turno) c
                (update_instrutor hoje cref cpf nome dn da turno c))
  /\
  (forall id hoje,
     update_plano id None None None c = (inr tt, c) /\
     update_turma id None None None None c = (inr tt, c) /\
     update_aluno id None None None None None None c = (inr tt, c) /\
     update_contato_aluno id None None c = (inr tt, c) /\
     update_contato_instrutor id None None c = (inr tt, c) /\
     update_bioimpedancia id None None None None None c = (inr tt, c) /\
     update_instrutor hoje id None None None None None c = (inr tt, c)).
Proof.
  repeat split; intros;
    first [ apply update_plano_so_escreve | apply update_turma_so_escreve
          | apply update_aluno_so_escreve | apply update_contato_aluno_so_escreve
          | apply update_contato_instrutor_so_escreve
          | apply update_bioimpedancia_so_escreve | apply update_instrutor_so_escreve ].
Qed.

(** ** Deletes *)

Lemma deletar_plano_eq (codigo : Z) (db : Db) :
  deletar_plano codigo db =
  (Reply 204 "Plano deletado com sucesso",
   mk_db (cascade_delete_plano (fun r => pl_codigo_plano r =? codigo) (db_tables db))
         (db_seqs db)).
Proof. reflexivity. Qed.

Lemma deletar_aluno_eq (m : Z) (db : Db) :
  deletar_aluno m db =
  (Reply 204 "Aluno deletado com sucesso",
   mk_db (cascade_delete_aluno (fun r => al_matricula r =? m) (db_tables db)) (db_seqs db)).
Proof. reflexivity. Qed.

Lemma deletar_bioimpedancia_eq (m : Z) (db : Db) :
  deletar_bioimpedancia m db =
  (Reply 204 "Medição deletada com sucesso",
   mk_db (set_bioimpedancia
            (sql_delete (fun r => bi_matricula r =? m) (bioimpedancia (db_tables db)))
            (db_tables db)) (db_seqs db)).
Proof. reflexivity. Qed.

Lemma deletar_instrutor_eq (cref : Z) (db : Db) :
  deletar_instrutor cref db =
  (Reply 204 "Instrutor deletado com sucesso",
   mk_db (cascade_delete_instrutor (fun r => in_cref r =? cref) (db_tables db))
         (db_seqs db)).
Proof. reflexivity. Qed.

Lemma deletar_turma_eq (id : Z) (db : Db) :
  deletar_turma id db =
  (Reply 204 "Turma deletada com sucesso",
   mk_db (cascade_delete_turma (fun r => tu_id_turma r =? id) (db_tables db)) (db_seqs db)).
Proof. reflexivity. Qed.

Lemma remover_aluno_turma_eq (id m : Z) (db : Db) :
  remover_aluno_turma id m db =
  (Reply 204 "Aluno removido da turma com sucesso",
   mk_db (set_turma_instrutor_aluno
            (sql_delete (fun e => (fst e =? id) && (snd e =? m))
                        (turma_instrutor_aluno (db_tables db)))
            (db_tables db)) (db_seqs db)).
Proof. reflexivity. Qed.

Lemma key_absent_cond {A : Type} (key : A -> Z) (k : Z) (l : list A) :
  ~ In k (map key l) -> forall r, In r l -> (key r =? k) = false.
Proof.
  intros H r Hr. apply Z.eqb_neq. intros E. apply H. rewrite <- E. now apply in_map.
Qed.

Lemma find_key_absent {A : Type} (key : A -> Z) (k : Z) (l : list A) :
  ~ In k (map key l) -> find (fun x => key x =? k) l = None.
Proof.
  induction l as [|x l IH]; simpl; intros H; [reflexivity|].
  destruct (key x =? k) eqn:E.
  - apply Z.eqb_eq in E. exfalso. apply H. now left.
  - apply IH. intros Hin. apply H. now right.
Qed.

Lemma existsb_key_absent {A : Type} (key : A -> Z) (k : Z) (l : list A) :
  ~ In k (map key l) -> existsb (fun x => key x =? k) l = false.
Proof.
  intros H. destruct (existsb (fun x => key x =? k) l) eqn:E; [|reflexivity].
  apply existsb_exists in E. destruct E as [x [Hx Ek]].
  now rewrite (key_absent_cond key k l H x Hx) in Ek.
Qed.

Lemma sql_delete_mem_nil {A : Type} (fk : A -> Z) (l : list A) :
  sql_delete (fun r => mem_Z (fk r) []) l = l.
Proof. apply sql_delete_none. reflexivity. Qed.

Lemma tables_eta (t : Tables) :
  mk_tables (plano t) (aluno t) (contato_aluno t) (bioimpedancia t) (instrutor t)
            (contato_instrutor t) (turma t) (turma_instrutor_aluno t) = t.
Proof. destruct t; reflexivity. Qed.

Lemma cascade_delete_aluno_none (cond : aluno_row -> bool) (t : Tables) :
  (forall r, In r (aluno t) -> cond r = false) -> cascade_delete_aluno cond t = t.
Proof.
  intros H. unfold cascade_delete_aluno. rewrite (filter_none _ _ H). cbn [map].
  rewrite !sql_delete_mem_nil, (sql_delete_none _ _ H). apply tables_eta.
Qed.

Lemma cascade_delete_plano_none (cond : plano_row -> bool) (t : Tables) :
  (forall r, In r (plano t) -> cond r = false) -> cascade_delete_plano cond t = t.
Proof.
  intros H. unfold cascade_delete_plano. rewrite (filter_none _ _ H). cbn [map].
  rewrite cascade_delete_aluno_none by reflexivity.
  unfold set_plano. rewrite (sql_delete_none _ _ H). apply tables_eta.
Qed.

Lemma cascade_delete_turma_none (cond : turma_row -> bool) (t : Tables) :
  (forall r, In r (turma t) -> cond r = false) -> cascade_delete_turma cond t = t.
Proof.
  intros H. unfold cascade_delete_turma. rewrite (filter_none _ _ H). cbn [map].
  rewrite sql_delete_mem_nil, (sql_delete_none _ _ H).
  unfold set_turma_instrutor_aluno, set_turma. cbn. apply tables_eta.
Qed.

Lemma cascade_delete_instrutor_none (cond : instrutor_row -> bool) (t : Tables) :
  (forall r, In r (instrutor t) -> cond r = false) -> cascade_delete_instrutor cond t = t.
Proof.
  intros H. unfold cascade_delete_instrutor. rewrite (filter_none _ _ H). cbn [map].
  rewrite cascade_delete_turma_none by reflexivity.
  rewrite sql_delete_mem_nil, (sql_delete_none _ _ H).
  unfold set_contato_instrutor, set_instrutor. cbn. apply tables_eta.
Qed.

(** C7, as amended.  Deleting an identifier that no row has leaves the
    store exactly as it was, for plans, students, measurements, instructors,
    classes and enrolments; the route then still answers with its success
    message under status 204. *)
Theorem C7_delete_missing (db : Db) :
  (forall codigo,
     ~ In codigo (map pl_codigo_plano (plano (db_tables db))) ->
     deletar_plano codigo db = (Reply 204 "Plano deletado com sucesso", db)) /\
  (forall m,
     ~ In m (map al_matricula (aluno (db_tables db))) ->
     deletar_aluno m db = (Reply 204 "Aluno deletado com sucesso", db)) /\
  (forall m,
     ~ In m (map bi_matricula (bioimpedancia (db_tables db))) ->
     deletar_bioimpedancia m db = (Reply 204 "Medição deletada com sucesso", db)) /\
  (forall cref,
     ~ In cref (map in_cref (instrutor (db_tables db))) ->
     deletar_instrutor cref db = (Reply 204 "Instrutor deletado com sucesso", db)) /\
  (forall id,
     ~ In id (map tu_id_turma (turma (db_tables db))) ->
     deletar_turma id db = (Reply 204 "Turma deletada com sucesso", db)) /\
  (forall id m,
     ~ In (id, m) (turma_instrutor_aluno (db_tables db)) ->
     remover_aluno_turma id m db = (Reply 204 "Aluno removido da turma com sucesso", db)).
Proof.
  repeat split.
  - intros k H. rewrite deletar_plano_eq, cascade_delete_plano_none, db_eta;
      [reflexivity | now apply key_absent_cond].
  - intros k H. rewrite deletar_aluno_eq, cascade_delete_aluno_none, db_eta;
      [reflexivity | now apply key_absent_cond].
  - intros k H. rewrite deletar_bioimpedancia_eq, sql_delete_none.
    + unfold set_bioimpedancia. now rewrite tables_eta, db_eta.
    + now apply key_absent_cond.
  - intros k H. rewrite deletar_instrutor_eq, cascade_delete_instrutor_none, db_eta;
      [reflexivity | now apply key_absent_cond].
  - intros k H. rewrite deletar_turma_eq, cascade_delete_turma_none, db_eta;
      [reflexivity | now apply key_absent_cond].
  - intros id m H. rewrite remover_aluno_turma_eq, sql_delete_none.
    + unfold set_turma_instrutor_aluno. now rewrite tables_eta, db_eta.
    + intros [a b] He. simpl.
      destruct ((a =? id) && (b =? m)) eqn:E; [|reflexivity].
      apply andb_true_iff in E. destruct E as [E1 E2].
      apply Z.eqb_eq in E1, E2. subst. contradiction.
Qed.

(** *** Cascades *)

Lemma deleted_key_gone {A : Type} (key : A -> Z) (k : Z) (l : list A) :
  ~ In k (map key (sql_delete (fun r => key r =? k) l)).
Proof.
  intros H. apply in_map_iff in H. destruct H as [r [E Hr]].
  apply In_sql_delete in Hr. destruct Hr as [_ Hc].
  apply Z.eqb_neq in Hc. contradiction.
Qed.

(** The children of a deleted parent row are deleted with it. *)
Lemma cascade_children_gone {P C : Type} (pk : P -> Z) (fk ck : C -> Z) (k : Z)
      (parents : list P) (children : list C) (c : C) :
  NoDup (map ck children) ->
  (forall x, In x children -> In (fk x) (map pk parents)) ->
  In c children -> fk c = k ->
  ~ In (ck c)
      (map ck (sql_delete
                 (fun x => mem_Z (fk x) (map pk (filter (fun p => pk p =? k) parents)))
                 children)).
Proof.
  intros Hnd Hfk Hc Hk Hin. apply in_map_iff in Hin. destruct Hin as [c' [E Hc']].
  apply In_sql_delete in Hc'. destruct Hc' as [Hc' Hm].
  assert (c' = c) by (eapply NoDup_map_inj; eauto). subst c'.
  apply mem_Z_false in Hm. apply Hm.
  specialize (Hfk c Hc). apply in_map_iff in Hfk. destruct Hfk as [p [Ep Hp]].
  apply in_map_iff. exists p. split; [assumption|].
  apply filter_In. split; [assumption|]. apply Z.eqb_eq. congruence.
Qed.

(** Without orphans, no row refers to a key that its parent table lacks. *)
Lemma no_child_of_missing {C : Type} (fk : C -> Z) (k : Z) (ids : list Z)
      (children : list C) :
  (forall x, In x children -> In (fk x) ids) -> ~ In k ids -> ~ In k (map fk children).
Proof.
  intros Hfk Hk Hin. apply in_map_iff in Hin. destruct Hin as [x [E Hx]].
  apply Hk. rewrite <- E. now apply Hfk.
Qed.

Lemma deletar_plano_wf (codigo : Z) (db : Db) :
  wf_db db -> wf_db (snd (deletar_plano codigo db)).
Proof. intros H. exact (proj2 (@sql_delete_plano_ok codigo _ _ H)). Qed.

Lemma deletar_aluno_wf (m : Z) (db : Db) :
  wf_db db -> wf_db (snd (deletar_aluno m db)).
Proof. intros H. exact (proj2 (@sql_delete_aluno_ok m _ _ H)). Qed.

Lemma deletar_instrutor_wf (cref : Z) (db : Db) :
  wf_db db -> wf_db (snd (deletar_instrutor cref db)).
Proof. intros H. exact (proj2 (@sql_delete_instrutor_ok cref _ _ H)). Qed.

Lemma deletar_turma_wf (id : Z) (db : Db) :
  wf_db db -> wf_db (snd (deletar_turma id db)).
Proof. intros H. exact (proj2 (@sql_delete_turma_ok id _ _ H)). Qed.

(** C6.  In a well-formed store, deleting a plan removes it, every student
    that referenced it and, with each such student, the student's contact,
    measurement and enrolments; deleting an instructor removes the
    instructor, the contact, the instructor's classes and the enrolments of
    those classes; deleting a student removes the contact, the measurement
    and the enrolments; deleting a class removes its enrolments; and after
    each of these deletes, as after the delete of a measurement or of an
    enrolment, no row is left without its parent. *)
Theorem C6_cascade_delete (db : Db) :
  wf_db db ->
  (forall codigo,
     let t' := db_tables (snd (deletar_plano codigo db)) in
     sem_orfaos t' /\
     ~ In codigo (map pl_codigo_plano (plano t')) /\
     (forall a, In a (aluno (db_tables db)) -> al_codigo_plano a = codigo ->
        ~ In (al_matricula a) (map al_matricula (aluno t')) /\
        ~ In (al_matricula a) (map ca_matricula (contato_aluno t')) /\
        ~ In (al_matricula a) (map bi_matricula (bioimpedancia t')) /\
        ~ In (al_matricula a) (map snd (turma_instrutor_aluno t')))) /\
  (forall cref,
     let t' := db_tables (snd (deletar_instrutor cref db)) in
     sem_orfaos t' /\
     ~ In cref (map in_cref (instrutor t')) /\
     ~ In cref (map ci_cref (contato_instrutor t')) /\
     (forall c, In c (turma (db_tables db)) -> tu_cref c = cref ->
        ~ In (tu_id_turma c) (map tu_id_turma (turma t')) /\
        ~ In (tu_id_turma c) (map fst (turma_instrutor_aluno t')))) /\
  (forall m,
     let t' := db_tables (snd (deletar_aluno m db)) in
     sem_orfaos t' /\
     ~ In m (map al_matricula (aluno t')) /\
     ~ In m (map ca_matricula (contato_aluno t')) /\
     ~ In m (map bi_matricula (bioimpedancia t')) /\
     ~ In m (map snd (turma_instrutor_aluno t'))) /\
  (forall id,
     let t' := db_tables (snd (deletar_turma id db)) in
     sem_orfaos t' /\
     ~ In id (map tu_id_turma (turma t')) /\
     ~ In id (map fst (turma_instrutor_aluno t'))) /\
  (forall m, sem_orfaos (db_tables (snd (deletar_bioimpedancia m db)))) /\
  (forall id m, sem_orfaos (db_tables (snd (remover_aluno_turma id m db)))).
Proof.
  intros Hwf. pose proof Hwf as [[Hk Ho _] _].
  split; [|split; [|split; [|split; [|split]]]];
    [ | | | | intros m; apply (proj2 (@sql_delete_bioimpedancia_ok m _ _ Hwf))
          | intros id m; apply (proj2 (@sql_delete_matricula_turma_ok id m _ _ Hwf)) ].
  - intros codigo t'.
    assert (Ho' : sem_orfaos t') by apply (deletar_plano_wf codigo Hwf).
    split; [exact Ho'|]. split; [apply deleted_key_gone|].
    intros a Ha Hp.
    assert (Hgone : ~ In (al_matricula a) (map al_matricula (aluno t'))).
    { apply (cascade_children_gone pl_codigo_plano al_codigo_plano al_matricula);
        try assumption; [apply Hk | apply Ho]. }
    split; [exact Hgone|].
    split; [|split]; eapply no_child_of_missing; try exact Hgone; apply Ho'.
  - intros cref t'.
    assert (Ho' : sem_orfaos t') by apply (deletar_instrutor_wf cref Hwf).
    assert (Hi : ~ In cref (map in_cref (instrutor t'))) by apply deleted_key_gone.
    split; [exact Ho'|]. split; [exact Hi|].
    split; [eapply no_child_of_missing; try exact Hi; apply Ho'|].
    intros c Hc Hcr.
    assert (Hgone : ~ In (tu_id_turma c) (map tu_id_turma (turma t'))).
    { apply (cascade_children_gone in_cref tu_cref tu_id_turma);
        try assumption; [apply Hk | apply Ho]. }
    split; [exact Hgone|].
    eapply no_child_of_missing; try exact Hgone; apply Ho'.
  - intros m t'.
    assert (Ho' : sem_orfaos t') by apply (deletar_aluno_wf m Hwf).
    assert (Hgone : ~ In m (map al_matricula (aluno t'))) by apply deleted_key_gone.
    split; [exact Ho'|]. split; [exact Hgone|].
    split; [|split]; eapply no_child_of_missing; try exact Hgone; apply Ho'.
  - intros id t'.
    assert (Ho' : sem_orfaos t') by apply (deletar_turma_wf id Hwf).
    assert (Hgone : ~ In id (map tu_id_turma (turma t'))) by apply deleted_key_gone.
    split; [exact Ho'|]. split; [exact Hgone|].
    eapply no_child_of_missing; try exact Hgone; apply Ho'.
Qed.

(** ** The plan-update route *)




(** ** The list routes *)

Lemma py_slice_pagina {A : Type} (l : list A) (skip limit : Z) :
  0 <= skip -> 0 <= limit -> py_slice l skip (skip + limit) = pagina l skip limit.
Proof.
  intros Hs Hl. unfold py_slice, pagina, py_clamp.
  assert (H1 : (skip <? 0) = false) by (apply Z.ltb_ge; lia).
  assert (H2 : (skip + limit <? 0) = false) by (apply Z.ltb_ge; lia).
  rewrite H1, H2.
  destruct (Z.le_gt_cases (Z.of_nat (List.length l)) skip) as [Hge|Hlt].
  - rewrite !Z.min_r by lia. rewrite Z.sub_diag. simpl.
    rewrite (skipn_all2 (n := Z.to_nat skip)) by lia. now rewrite firstn_nil.
  - rewrite (Z.min_l skip) by lia.
    destruct (Z.le_gt_cases (skip + limit) (Z.of_nat (List.length l))) as [Hle|Hgt].
    + rewrite Z.min_l by lia. f_equal. lia.
    + rewrite Z.min_r by lia.
      rewrite !firstn_all2; [reflexivity | |]; rewrite length_skipn; lia.
Qed.

(** [ORDER BY] returns the rows it was given, each once. *)
Lemma insert_sorted_permutation {A : Type} (leb : A -> A -> bool) (x : A) (l : list A) :
  Permutation (insert_sorted leb x l) (x :: l).
Proof.
  induction l as [|y r IH]; simpl; [apply Permutation_refl|].
  destruct (leb x y); [apply Permutation_refl|].
  eapply Permutation_trans; [apply perm_skip, IH | apply perm_swap].
Qed.

Lemma order_by_permutation {A : Type} (leb : A -> A -> bool) (l : list A) :
  Permutation (order_by leb l) l.
Proof.
  unfold order_by. induction l as [|x r IH]; simpl; [apply perm_nil|].
  eapply Permutation_trans; [apply insert_sorted_permutation | now apply perm_skip].
Qed.















Lemma filter_fk_unique {A : Type} (key : A -> Z) (l : list A) (r : A) (k : Z) :
  NoDup (map key l) -> In r l -> key r = k -> filter (fun x => k =? key x) l = [r].
Proof.
  intros Hnd Hin <-. rewrite <- (filter_key_unique key l r Hnd Hin).
  apply filter_ext. intros x. apply Z.eqb_sym.
Qed.

Lemma left_join_nil {A B : Type} (on : A -> B -> bool) (l : list A) (r : list B) :
  left_join on l r = [] -> l = [].
Proof.
  destruct l as [|a l]; [reflexivity|]. unfold left_join. cbn [flat_map].
  destruct (filter (on a) r); discriminate.
Qed.



Lemma scan_permutation {A : Type} (l : list A) : Permutation (scan l) l.
Proof. apply scan_perm. Qed.

Lemma scan_nil {A : Type} : scan (@nil A) = [].
Proof. apply Permutation_nil. apply Permutation_sym, scan_permutation. Qed.

Lemma scan_one {A : Type} (x : A) : scan [x] = [x].
Proof. apply Permutation_length_1_inv. apply Permutation_sym, scan_permutation. Qed.

Lemma order_by_scan_permutation {A : Type} (leb : A -> A -> bool) (l : list A) :
  Permutation (order_by leb (scan l)) l.
Proof.
  eapply Permutation_trans; [apply order_by_permutation | apply scan_permutation].
Qed.





Lemma relatorio_alunos_eq (hoje : date) (skip limit : Z) (db : Db) :
  relatorio_alunos hoje skip limit db =
  (Reply 200
     (py_slice (order_by (fun a b => collate_leb (re_nome_aluno a) (re_nome_aluno b))
                         (vw_relatorio_alunos hoje (db_tables db)))
               skip (skip + limit)), db).
Proof.
  destruct db as [t q].
  unfold relatorio_alunos, respond, store_after, bind, ret, get_relatorio_alunos,
    execute_query, sql_select, get_connection, close_connection.
  cbn [fst snd working committed seqs db_tables db_seqs]. now rewrite map_id.
Qed.




(** The join of the view finds the one plan of each student. *)
Lemma relatorio_join (hoje : date) (t : Tables) (l : list aluno_row) :
  wf_tables t -> (forall a, In a l -> In a (aluno t)) ->
  map re_matricula
      (flat_map
         (fun a =>
            map (fun p => mk_relatorio (al_matricula a) (al_nome a) (al_cpf a)
                                       (idade_em_anos hoje (al_data_nascimento a))
                                       (al_data_matricula a) (pl_nome_plano p) (pl_preco p))
                (filter (fun p => al_codigo_plano a =? pl_codigo_plano p) (plano t)))
         l) =
  map al_matricula l.
Proof.
  intros Hwf. pose proof (pk_plano (wf_chaves Hwf)) as Hnd.
  induction l as [|a l IH]; intros Hsub; [reflexivity|].
  cbn [flat_map map]. rewrite map_app, IH by (intros x Hx; apply Hsub; now right).
  pose proof (fk_aluno_plano (wf_orfaos Hwf) a (Hsub a (or_introl eq_refl))) as Hfk.
  destruct (proj1 (in_map_iff _ _ _) Hfk) as [p [Ep Hp]].
  rewrite (@filter_fk_unique _ pl_codigo_plano _ p _ Hnd Hp Ep). reflexivity.
Qed.

(** The view has one row for each student. *)
Lemma relatorio_linhas (hoje : date) (t : Tables) :
  wf_tables t ->
  Permutation (map re_matricula (vw_relatorio_alunos hoje t)) (map al_matricula (aluno t)) /\
  (forall r, In r (vw_relatorio_alunos hoje t) ->
     exists a p, In a (aluno t) /\ In p (plano t) /\
                 pl_codigo_plano p = al_codigo_plano a /\
                 r = mk_relatorio (al_matricula a) (al_nome a) (al_cpf a)
                                  (idade_em_anos hoje (al_data_nascimento a))
                                  (al_data_matricula a) (pl_nome_plano p) (pl_preco p)).
Proof.
  intros Hwf. unfold vw_relatorio_alunos. split.
  - rewrite <- (@relatorio_join hoje t (aluno t) Hwf (fun a Ha => Ha)).
    apply Permutation_map, scan_permutation.
  - intros r Hr. apply (Permutation_in _ (scan_permutation _)) in Hr.
    apply in_flat_map in Hr. destruct Hr as [a [Ha Hr]].
    apply in_map_iff in Hr. destruct Hr as [p [Er Hp]].
    apply filter_In in Hp. destruct Hp as [Hp Ek]. apply Z.eqb_eq in Ek.
    exists a, p. repeat split; try assumption; now symmetry.
Qed.


(** * Further properties of the code *)

(** ** The stores the routes produce *)

(** X1.  Every store that the writing routes can produce from a fresh
    database keeps the constraints declared by [init_database]: primary keys
    and [UNIQUE] columns hold no duplicate, every foreign key finds its
    parent row, every class has a positive number of seats, and no
    [SERIAL] identifier is ahead of its sequence. *)
Theorem X1_reachable_integrity (db : Db) :
  reachable db ->
  chaves_unicas (db_tables db) /\ sem_orfaos (db_tables db) /\
  vagas_positivas (db_tables db) /\ seqs_ok (db_tables db) (db_seqs db).
Proof.
  intros H. destruct (reachable_wf H) as [[Hk Ho Hv] Hs]. tauto.
Qed.

(** ** Enrolment and removal *)

Lemma find_of_filter {A : Type} (p : A -> bool) (l : list A) (x : A) (xs : list A) :
  filter p l = x :: xs -> find p l = Some x.
Proof.
  induction l as [|y l IH]; simpl; [discriminate|].
  destruct (p y); [intros E; inversion E; reflexivity | exact IH].
Qed.

(** X2.  The seat trigger never gets to refuse a row that comes from
    [create_matricula_turma]: on one connection, whenever the trigger would
    raise, the function has already raised its own "Turma sem vagas
    disponíveis", so the trigger's message never reaches the client. *)
Theorem X2_trigger_never_fires (id m : Z) (db : Db) (msg : string) :
  fst (matricular_aluno_turma id m db) <> HTTPError 400 (QueryError (RaiseException msg)).
Proof.
  rewrite matricular_aluno_turma_eq.
  destruct (filter _ (turma (db_tables db))) as [|c cs] eqn:Ef; [discriminate|].
  destruct (count_matriculas id (db_tables db) >=? tu_quantidade_vagas c) eqn:Ec;
    [discriminate|].
  unfold sql_insert_matricula_turma, verificar_vagas_turma. cbv zeta.
  destruct (int4_ok id && int4_ok m); cbn [negb]; [|discriminate].
  cbn [fst]. rewrite (find_of_filter _ _ Ef). cbn [option_map]. rewrite Ec.
  destruct (existsb _ _); [discriminate|].
  destruct (mem_Z id _); [|discriminate].
  destruct (mem_Z m _); discriminate.
Qed.

Lemma sql_delete_snoc_pair (id m : Z) (l : list matricula_turma_row) :
  existsb (eqb_matricula_turma (id, m)) l = false ->
  sql_delete (fun e => (fst e =? id) && (snd e =? m)) (l ++ [(id, m)]) = l.
Proof.
  intros H. unfold sql_delete. rewrite filter_app. simpl.
  rewrite !Z.eqb_refl. simpl. rewrite app_nil_r.
  fold (sql_delete (fun e : matricula_turma_row => (fst e =? id) && (snd e =? m)) l).
  apply sql_delete_none. intros [a b] He. simpl.
  destruct ((a =? id) && (b =? m)) eqn:E; [|reflexivity].
  apply andb_true_iff in E. destruct E as [E1 E2]. apply Z.eqb_eq in E1, E2. subst.
  assert (Hx : existsb (eqb_matricula_turma (id, m)) l = true)
    by now apply existsb_matricula_turma.
  congruence.
Qed.

(** X3.  Removing a student from a class right after a successful
    enrolment gives back the store as it was before the enrolment. *)
Theorem X3_enroll_then_unenroll (id m : Z) (db db' : Db) (msg : string) :
  matricular_aluno_turma id m db = (Reply 201 msg, db') ->
  remover_aluno_turma id m db' =
  (Reply 204 "Aluno removido da turma com sucesso", db).
Proof.
  rewrite matricular_aluno_turma_eq. intros H.
  destruct (filter _ (turma (db_tables db))) as [|c cs]; [discriminate|].
  destruct (count_matriculas id (db_tables db) >=? tu_quantidade_vagas c);
    [discriminate|].
  unfold sql_insert_matricula_turma in H. cbv zeta in H.
  destruct (int4_ok id && int4_ok m); cbn [negb] in H; [|discriminate].
  destruct (verificar_vagas_turma (id, m) (db_tables db)); [discriminate|].
  destruct (existsb _ _) eqn:Ep; [discriminate|].
  destruct (mem_Z id _); [|discriminate].
  destruct (mem_Z m _); [|discriminate].
  cbn [fst negb] in H. inversion H; subst db'. clear H.
  rewrite remover_aluno_turma_eq. cbn [db_tables db_seqs turma_instrutor_aluno
    set_turma_instrutor_aluno].
  rewrite (sql_delete_snoc_pair _ _ _ Ep).
  unfold set_turma_instrutor_aluno. cbn. now rewrite tables_eta, db_eta.
Qed.

Lemma count_after_remove (id m : Z) (l : list matricula_turma_row) :
  NoDup l -> In (id, m) l ->
  List.length (filter (fun e => fst e =? id) l) =
  S (List.length
       (filter (fun e => fst e =? id)
               (sql_delete (fun e => (fst e =? id) && (snd e =? m)) l))).
Proof.
  unfold sql_delete.
  induction l as [|[a b] l IH]; intros Hnd Hin; [contradiction|].
  apply NoDup_cons_iff in Hnd. destruct Hnd as [Hx Hl].
  cbn [filter fst snd].
  destruct Hin as [E|Hin].
  - inversion E; subst a b. rewrite !Z.eqb_refl. cbn [andb negb List.length].
    f_equal. f_equal. f_equal. symmetry.
    apply (sql_delete_none (fun e : matricula_turma_row => (fst e =? id) && (snd e =? m))).
    intros [a b] He. cbn [fst snd].
    destruct ((a =? id) && (b =? m)) eqn:E'; [|reflexivity].
    apply andb_true_iff in E'. destruct E' as [E1 E2]. apply Z.eqb_eq in E1, E2.
    subst. contradiction.
  - specialize (IH Hl Hin).
    destruct ((a =? id) && (b =? m)) eqn:E'.
    + apply andb_true_iff in E'. destruct E' as [E1 E2]. apply Z.eqb_eq in E1, E2.
      subst. contradiction.
    + cbn [negb filter fst]. destruct (a =? id); cbn [List.length]; now rewrite IH.
Qed.

(** X4.  In a well-formed store where a class is not over its seats,
    removing an enrolled student lowers the count of the class by exactly
    one, and a student who exists and is not in the class can then be
    enrolled, also when the class was full. *)
Theorem X4_unenroll_frees_seat (id m m' : Z) (db : Db) (c : turma_row) :
  wf_db db ->
  In c (turma (db_tables db)) -> tu_id_turma c = id ->
  count_matriculas id (db_tables db) <= tu_quantidade_vagas c ->
  In (id, m) (turma_instrutor_aluno (db_tables db)) ->
  In m' (map al_matricula (aluno (db_tables db))) ->
  ~ In (id, m') (turma_instrutor_aluno (db_tables db)) ->
  count_matriculas id (db_tables (snd (remover_aluno_turma id m db))) =
    count_matriculas id (db_tables db) - 1 /\
  fst (matricular_aluno_turma id m' (snd (remover_aluno_turma id m db))) =
    Reply 201 "Aluno matriculado com sucesso".
Proof.
  intros Hwf Hc Hid Hcap Hin Hm' Hnot.
  assert (Hcount : count_matriculas id (db_tables (snd (remover_aluno_turma id m db))) =
                   count_matriculas id (db_tables db) - 1).
  { rewrite remover_aluno_turma_eq. unfold count_matriculas.
    cbn [snd db_tables turma_instrutor_aluno set_turma_instrutor_aluno].
    rewrite (@count_after_remove id m (turma_instrutor_aluno (db_tables db)));
      [lia | apply Hwf | assumption]. }
  split; [exact Hcount|].
  assert (Hwf' : wf_db (snd (remover_aluno_turma id m db)))
    by exact (proj2 (@sql_delete_matricula_turma_ok id m _ _ Hwf)).
  assert (Hc' : In c (turma (db_tables (snd (remover_aluno_turma id m db)))))
    by (rewrite remover_aluno_turma_eq; exact Hc).
  rewrite (@matricular_com_vaga id m' _ c Hwf' Hc' Hid) by lia.
  rewrite (@aluno_int4 _ m' (proj1 Hwf) Hm'). cbn [negb].
  destruct (existsb _ _) eqn:Ep.
  { apply existsb_matricula_turma in Ep. rewrite remover_aluno_turma_eq in Ep.
    simpl in Ep. apply sql_delete_incl in Ep. contradiction. }
  assert (Ha : mem_Z m' (map al_matricula
                           (aluno (db_tables (snd (remover_aluno_turma id m db))))) = true)
    by (rewrite remover_aluno_turma_eq; simpl; now apply mem_Z_In).
  rewrite Ha. reflexivity.
Qed.

(** ** Routes of several statements *)

Lemma mem_Z_snoc_self (k : Z) (l : list Z) : mem_Z k (l ++ [k]) = true.
Proof. apply mem_Z_In. apply in_or_app. right. now left. Qed.

Lemma fresh_above_seq {A : Type} (key : A -> Z) (l : list A) (n : Z) :
  (forall r, In r l -> key r <= n) -> mem_Z (n + 1) (map key l) = false.
Proof.
  intros H. apply mem_Z_false. intros Hin. apply in_map_iff in Hin.
  destruct Hin as [r [E Hr]]. specialize (H r Hr). lia.
Qed.

Lemma criar_aluno_eq (a : AlunoCreate) (db : Db) :
  criar_aluno a db =
  let t := db_tables db in
  let m := aluno_matricula_seq (db_seqs db) + 1 in
  if negb (varchar_ok 11 (ac_cpf a) && varchar_ok 45 (ac_nome a)
           && int4_ok (ac_codigo_plano a))
     || negb (int4_ok m)
  then db
  else if mem_Z m (map al_matricula (aluno t))
          || mem_string (varchar 11 (ac_cpf a)) (map al_cpf (aluno t))
          || negb (mem_Z (ac_codigo_plano a) (map pl_codigo_plano (plano t)))
          || negb (varchar_ok 15 (cb_telefone (ac_contato a))
                   && opt_varchar_ok 45 (cb_email (ac_contato a)))
          || mem_string (varchar 15 (cb_telefone (ac_contato a)))
                        (map ca_telefone (contato_aluno t))
  then mk_db t (next_aluno (db_seqs db))
  else mk_db (set_contato_aluno
                (contato_aluno t ++
                 [mk_contato_aluno (varchar 15 (cb_telefone (ac_contato a)))
                                   (opt_varchar 45 (cb_email (ac_contato a))) m])
                (set_aluno
                   (aluno t ++
                    [mk_aluno m (varchar 11 (ac_cpf a)) (varchar 45 (ac_nome a)) (ac_sexo a)
                              (ac_data_nascimento a) (ac_data_matricula a)
                              (ac_codigo_plano a)]) t))
             (next_aluno (db_seqs db)).
Proof.
  destruct db as [t q]. cbv zeta.
  unfold criar_aluno, store_after, bind, create_aluno, create_contato_aluno,
    execute_query, commit, get_connection, close_connection, sql_insert_aluno,
    sql_insert_contato_aluno.
  cbn [db_tables db_seqs working seqs committed aluno_matricula_seq next_aluno].
  destruct (varchar_ok 11 (ac_cpf a) && varchar_ok 45 (ac_nome a)
            && int4_ok (ac_codigo_plano a)); [|reflexivity].
  destruct (int4_ok (aluno_matricula_seq q + 1)) eqn:E4; [|reflexivity].
  cbn [negb orb].
  destruct (mem_Z (aluno_matricula_seq q + 1) (map al_matricula (aluno t)));
    [reflexivity|].
  destruct (mem_string (varchar 11 (ac_cpf a)) (map al_cpf (aluno t))); [reflexivity|].
  destruct (mem_Z (ac_codigo_plano a) (map pl_codigo_plano (plano t)));
    [|reflexivity].
  cbn [negb orb snd fst working seqs committed set_aluno contato_aluno aluno].
  rewrite E4. cbn [andb].
  destruct (varchar_ok 15 (cb_telefone (ac_contato a))
            && opt_varchar_ok 45 (cb_email (ac_contato a))); [|reflexivity].
  cbn [negb orb].
  destruct (mem_string (varchar 15 (cb_telefone (ac_contato a)))
                       (map ca_telefone (contato_aluno t))); [reflexivity|].
  rewrite map_app. cbn [map al_matricula]. rewrite mem_Z_snoc_self. reflexivity.
Qed.

Lemma criar_aluno_nao_cabe (a : AlunoCreate) (db : Db) :
  varchar_ok 11 (ac_cpf a) && varchar_ok 45 (ac_nome a) && int4_ok (ac_codigo_plano a)
  && (varchar_ok 15 (cb_telefone (ac_contato a))
      && opt_varchar_ok 45 (cb_email (ac_contato a)))
  && int4_ok (aluno_matricula_seq (db_seqs db) + 1) = false ->
  db_tables (criar_aluno a db) = db_tables db.
Proof.
  intros H. rewrite criar_aluno_eq. cbv zeta.
  destruct (varchar_ok 11 (ac_cpf a) && varchar_ok 45 (ac_nome a)
            && int4_ok (ac_codigo_plano a)); [|reflexivity].
  destruct (int4_ok (aluno_matricula_seq (db_seqs db) + 1)); [|reflexivity].
  destruct (varchar_ok 15 (cb_telefone (ac_contato a))
            && opt_varchar_ok 45 (cb_email (ac_contato a))); [discriminate|].
  cbn [negb orb]. rewrite !orb_true_r. reflexivity.
Qed.

(** X5.  Creating a student is all or nothing.  The route leaves the
    tables as they were or adds the student and the contact together, under
    the next [matricula] and with their texts as the columns keep them.  On
    a well-formed store both are added when every value fits its column,
    the sequence is not exhausted, the [cpf] is new, the plan exists and
    the phone number is new; no table changes when a value does not fit
    (an e-mail of more than 45 characters, say), when the [cpf] or the phone
    number is taken or when the plan is unknown, so a student whose contact
    is refused is not kept.  The sequence of [matricula] advances exactly
    when the values of the student fit and the sequence is not exhausted,
    whether or not the student is stored. *)
Theorem X5_criar_aluno_all_or_nothing (a : AlunoCreate) (db : Db) :
  wf_db db ->
  let t := db_tables db in
  let m := aluno_matricula_seq (db_seqs db) + 1 in
  let cabe_aluno := varchar_ok 11 (ac_cpf a) && varchar_ok 45 (ac_nome a)
                    && int4_ok (ac_codigo_plano a) in
  let cabe_contato := varchar_ok 15 (cb_telefone (ac_contato a))
                      && opt_varchar_ok 45 (cb_email (ac_contato a)) in
  let novo :=
    set_contato_aluno
      (contato_aluno t ++
       [mk_contato_aluno (varchar 15 (cb_telefone (ac_contato a)))
                         (opt_varchar 45 (cb_email (ac_contato a))) m])
      (set_aluno
         (aluno t ++
          [mk_aluno m (varchar 11 (ac_cpf a)) (varchar 45 (ac_nome a)) (ac_sexo a)
                    (ac_data_nascimento a) (ac_data_matricula a) (ac_codigo_plano a)]) t) in
  db_seqs (criar_aluno a db) =
    (if cabe_aluno && int4_ok m then next_aluno (db_seqs db) else db_seqs db) /\
  (db_tables (criar_aluno a db) = t \/ db_tables (criar_aluno a db) = novo) /\
  (cabe_aluno && cabe_contato && int4_ok m = true ->
   ~ In (varchar 11 (ac_cpf a)) (map al_cpf (aluno t)) ->
   In (ac_codigo_plano a) (map pl_codigo_plano (plano t)) ->
   ~ In (varchar 15 (cb_telefone (ac_contato a))) (map ca_telefone (contato_aluno t)) ->
   db_tables (criar_aluno a db) = novo) /\
  (cabe_aluno && cabe_contato && int4_ok m = false \/
   In (varchar 11 (ac_cpf a)) (map al_cpf (aluno t)) \/
   ~ In (ac_codigo_plano a) (map pl_codigo_plano (plano t)) \/
   In (varchar 15 (cb_telefone (ac_contato a))) (map ca_telefone (contato_aluno t)) ->
   db_tables (criar_aluno a db) = t).
Proof.
  clear idade_minima_ok idade_em_anos collate_leb heap_order.
  intros Hwf t m cabe_aluno cabe_contato novo. rewrite criar_aluno_eq. cbv zeta.
  fold t m cabe_aluno cabe_contato.
  assert (Hnew : mem_Z m (map al_matricula (aluno t)) = false)
    by apply (@fresh_above_seq _ al_matricula _ _ (sq_aluno (proj2 Hwf))).
  rewrite Hnew. cbn [orb].
  destruct cabe_aluno, (int4_ok m), cabe_contato;
    destruct (mem_string (varchar 11 (ac_cpf a)) _) eqn:E1;
    destruct (mem_Z (ac_codigo_plano a) _) eqn:E2;
    destruct (mem_string (varchar 15 (cb_telefone (ac_contato a))) _) eqn:E3;
    cbn [orb andb negb db_seqs db_tables]; fold t; norm_checks;
    (split; [reflexivity|]); (split; [first [now left | now right]|]);
    split; intros; try reflexivity; try discriminate; intuition discriminate.
Qed.

Lemma criar_instrutor_eq (hoje : date) (i : InstrutorCreate) (db : Db) :
  criar_instrutor hoje i db =
  let t := db_tables db in
  if negb (int4_ok (ic_cref i) && varchar_ok 11 (ic_cpf i) && varchar_ok 30 (ic_nome i))
     || negb (idade_minima_ok hoje (ic_data_nascimento i))
     || mem_Z (ic_cref i) (map in_cref (instrutor t))
     || mem_string (varchar 11 (ic_cpf i)) (map in_cpf (instrutor t))
     || negb (varchar_ok 15 (cb_telefone (ic_contato i))
              && opt_varchar_ok 45 (cb_email (ic_contato i)))
     || mem_string (varchar 15 (cb_telefone (ic_contato i)))
                   (map ci_telefone (contato_instrutor t))
  then db
  else mk_db (set_contato_instrutor
                (contato_instrutor t ++
                 [mk_contato_instrutor (varchar 15 (cb_telefone (ic_contato i)))
                                       (opt_varchar 45 (cb_email (ic_contato i)))
                                       (ic_cref i)])
                (set_instrutor
                   (instrutor t ++
                    [mk_instrutor (ic_cref i) (varchar 11 (ic_cpf i))
                                  (varchar 30 (ic_nome i)) (ic_data_nascimento i)
                                  (ic_data_admissao i) (ic_turno i)]) t))
             (db_seqs db).
Proof.
  destruct db as [t q]. cbv zeta.
  unfold criar_instrutor, store_after, bind, create_instrutor, create_contato_instrutor,
    execute_query, commit, get_connection, close_connection, sql_insert_instrutor,
    sql_insert_contato_instrutor.
  cbn [db_tables db_seqs working seqs committed].
  destruct (int4_ok (ic_cref i)) eqn:E4; [|reflexivity]. cbn [andb].
  destruct (varchar_ok 11 (ic_cpf i) && varchar_ok 30 (ic_nome i)); [|reflexivity].
  destruct (idade_minima_ok hoje (ic_data_nascimento i)); [|reflexivity].
  destruct (mem_Z (ic_cref i) (map in_cref (instrutor t))); [reflexivity|].
  destruct (mem_string (varchar 11 (ic_cpf i)) (map in_cpf (instrutor t)));
    [reflexivity|].
  cbn [negb orb snd fst working seqs committed set_instrutor contato_instrutor instrutor].
  destruct (varchar_ok 15 (cb_telefone (ic_contato i))
            && opt_varchar_ok 45 (cb_email (ic_contato i))); [|reflexivity].
  cbn [negb orb].
  destruct (mem_string (varchar 15 (cb_telefone (ic_contato i)))
                       (map ci_telefone (contato_instrutor t))); [reflexivity|].
  rewrite map_app. cbn [map in_cref]. rewrite mem_Z_snoc_self. reflexivity.
Qed.

(** X6.  Creating an instructor is all or nothing, on any store: the
    instructor and the contact are both inserted, with their texts as the
    columns keep them, when every value fits its column (the [cref] an
    [INTEGER], the [cpf], the name, the phone number and the e-mail within
    their widths), the age check passes and the [cref], the [cpf] and the
    phone number are new; otherwise the store is exactly as before, and an
    instructor whose contact is refused is not kept. *)
Theorem X6_criar_instrutor_all_or_nothing (hoje : date) (i : InstrutorCreate) (db : Db) :
  let t := db_tables db in
  let cabe := int4_ok (ic_cref i) && varchar_ok 11 (ic_cpf i) && varchar_ok 30 (ic_nome i)
              && (varchar_ok 15 (cb_telefone (ic_contato i))
                  && opt_varchar_ok 45 (cb_email (ic_contato i))) in
  (cabe = true ->
   idade_minima_ok hoje (ic_data_nascimento i) = true ->
   ~ In (ic_cref i) (map in_cref (instrutor t)) ->
   ~ In (varchar 11 (ic_cpf i)) (map in_cpf (instrutor t)) ->
   ~ In (varchar 15 (cb_telefone (ic_contato i))) (map ci_telefone (contato_instrutor t)) ->
   criar_instrutor hoje i db =
   mk_db (set_contato_instrutor
            (contato_instrutor t ++
             [mk_contato_instrutor (varchar 15 (cb_telefone (ic_contato i)))
                                   (opt_varchar 45 (cb_email (ic_contato i))) (ic_cref i)])
            (set_instrutor
               (instrutor t ++
                [mk_instrutor (ic_cref i) (varchar 11 (ic_cpf i)) (varchar 30 (ic_nome i))
                              (ic_data_nascimento i) (ic_data_admissao i) (ic_turno i)]) t))
         (db_seqs db)) /\
  (cabe = false \/
   idade_minima_ok hoje (ic_data_nascimento i) = false \/
   In (ic_cref i) (map in_cref (instrutor t)) \/
   In (varchar 11 (ic_cpf i)) (map in_cpf (instrutor t)) \/
   In (varchar 15 (cb_telefone (ic_contato i))) (map ci_telefone (contato_instrutor t)) ->
   criar_instrutor hoje i db = db).
Proof.
  clear idade_em_anos collate_leb heap_order.
  intros t cabe. rewrite criar_instrutor_eq. cbv zeta. fold t. subst cabe.
  destruct (int4_ok (ic_cref i) && varchar_ok 11 (ic_cpf i) && varchar_ok 30 (ic_nome i));
    destruct (varchar_ok 15 (cb_telefone (ic_contato i))
              && opt_varchar_ok 45 (cb_email (ic_contato i)));
    destruct (idade_minima_ok hoje (ic_data_nascimento i)) eqn:E0;
    destruct (mem_Z (ic_cref i) _) eqn:E1;
    destruct (mem_string (varchar 11 (ic_cpf i)) _) eqn:E2;
    destruct (mem_string (varchar 15 (cb_telefone (ic_contato i))) _) eqn:E3;
    cbn [orb andb negb]; norm_checks;
    split; intros; try reflexivity; try tauto; try discriminate;
    intuition discriminate.
Qed.

(** X7.  Updating a student with a contact is all or nothing: either no
    table changes, or the student rows and the contact rows are both
    rewritten as [update_aluno] and [update_contato_aluno] rewrite them;
    a refused contact update undoes the student update of the same
    request.  No sequence moves. *)
Theorem X7_atualizar_aluno_all_or_nothing (m : Z) (a : AlunoUpdate) (db : Db) :
  db_seqs (atualizar_aluno m a db) = db_seqs db /\
  (db_tables (atualizar_aluno m a db) = db_tables db \/
   exists rows_a rows_c,
     db_tables (atualizar_aluno m a db) =
       set_contato_aluno rows_c (set_aluno rows_a (db_tables db)) /\
     Forall2 (mantem_aluno m (au_cpf a) (au_nome a) (au_sexo a) (au_data_nascimento a)
                           (au_data_matricula a) (au_codigo_plano a))
             (aluno (db_tables db)) rows_a /\
     Forall2 (mantem_contato_aluno m (option_map cb_telefone (au_contato a))
                                   (match au_contato a with
                                    | Some c => cb_email c
                                    | None => None
                                    end))
             (contato_aluno (db_tables db)) rows_c).
Proof.
  pose proof (update_aluno_so_escreve m (au_cpf a) (au_nome a) (au_sexo a)
                (au_data_nascimento a) (au_data_matricula a) (au_codigo_plano a)
                (get_connection db)) as H1.
  unfold atualizar_aluno, store_after, bind.
  destruct (update_aluno m (au_cpf a) (au_nome a) (au_sexo a) (au_data_nascimento a)
                         (au_data_matricula a) (au_codigo_plano a) (get_connection db))
    as [[e|u] c1].
  { destruct H1 as [Hc [Hs _]]. cbn [snd fst] in *. unfold close_connection.
    cbn [db_seqs db_tables]. rewrite Hc, Hs. simpl. auto. }
  destruct H1 as [Hc [Hs [rows_a [Hw Ha]]]]. cbn [snd fst] in *.
  cbn [get_connection working committed seqs] in Hc, Hs, Hw, Ha.
  pose proof (update_contato_aluno_so_escreve m (option_map cb_telefone (au_contato a))
                (match au_contato a with Some c => cb_email c | None => None end) c1)
    as H2.
  assert (E : (match au_contato a with
               | Some contato =>
                   update_contato_aluno m (Some (cb_telefone contato)) (cb_email contato)
               | None => ret tt
               end) c1 =
              update_contato_aluno m (option_map cb_telefone (au_contato a))
                (match au_contato a with Some c => cb_email c | None => None end) c1)
    by (destruct (au_contato a); reflexivity).
  rewrite E. clear E.
  destruct (update_contato_aluno m (option_map cb_telefone (au_contato a))
              (match au_contato a with Some c => cb_email c | None => None end) c1)
    as [[e|u2] c2].
  { destruct H2 as [Hc2 [Hs2 Hw2]]. cbn [snd fst] in *. unfold close_connection.
    cbn [db_seqs db_tables]. rewrite Hc2, Hs2, Hc, Hs. auto. }
  destruct H2 as [Hc2 [Hs2 [rows_c [Hw2 Hcc]]]]. cbn [snd fst] in *.
  unfold commit, close_connection. cbn [snd db_seqs db_tables committed seqs].
  rewrite Hs2, Hs. split; [reflexivity|]. right.
  exists rows_a, rows_c. rewrite Hw2, Hw. split; [reflexivity|].
  split; [exact Ha|]. rewrite Hw in Hcc. exact Hcc.
Qed.

(** ** The plan of a student: stored function and route *)

Lemma set_aluno_same (t : Tables) : set_aluno (aluno t) t = t.
Proof. destruct t; reflexivity. Qed.

Lemma sql_update_aluno_ausente (us : list aluno_col) (m : Z) (t : Tables) (q : Seqs) :
  ~ In m (map al_matricula (aluno t)) ->
  sql_update_aluno_set us m t q = (inr (tt, t), q).
Proof.
  intros H. unfold sql_update_aluno_set.
  rewrite (existsb_key_absent al_matricula m (aluno t) H). cbn [andb].
  rewrite sql_update_none by (apply existsb_key_absent; exact H).
  assert (Hfk : touched_ok (fun r => al_matricula r =? m)
                  (fun r => mem_Z (al_codigo_plano r) (map pl_codigo_plano (plano t)))
                  (aluno t) = true).
  { apply touched_ok_spec. intros r Hr Hc.
    now rewrite (key_absent_cond al_matricula m (aluno t) H r Hr) in Hc. }
  rewrite Hfk. cbn [negb]. now rewrite set_aluno_same.
Qed.

(** X8.  Called for a [matricula] that no student has, the stored function
    [atualizar_plano_aluno] answers "Plano alterado com sucesso!" although
    it changes no table, whatever the new plan is. *)
Theorem X8_plano_aluno_inexistente (hoje : date) (t : Tables) (q : Seqs) (m novo : Z) :
  ~ In m (map al_matricula (aluno t)) ->
  atualizar_plano_aluno hoje m novo t q = (inr ("Plano alterado com sucesso!", t), q).
Proof.
  intros H. unfold atualizar_plano_aluno.
  rewrite (find_key_absent al_matricula m (aluno t) H).
  rewrite (sql_update_aluno_ausente _ m t q H).
  destruct (option_map pl_preco (find (fun p => pl_codigo_plano p =? novo) (plano t)));
    reflexivity.
Qed.

(** X9.  Called for a student that exists and a new plan that does not,
    [atualizar_plano_aluno] skips the price comparison (the new price is
    [NULL]) and its [UPDATE] is refused by the foreign key of
    [aluno.codigo_plano]. *)
Theorem X9_plano_novo_inexistente (hoje : date) (t : Tables) (q : Seqs) (m novo : Z) :
  wf_tables t ->
  In m (map al_matricula (aluno t)) ->
  ~ In novo (map pl_codigo_plano (plano t)) ->
  atualizar_plano_aluno hoje m novo t q =
  (inl (ForeignKeyViolation "aluno.codigo_plano"), q).
Proof.
  intros Hwf Hm Hnovo. unfold atualizar_plano_aluno.
  rewrite (find_key_absent pl_codigo_plano novo (plano t) Hnovo).
  cbn [option_map]. cbv iota beta.
  unfold sql_update_aluno_set.
  change (sql_update (fun r => al_matricula r =? m)
            (apply_set assign_aluno [Set_codigo_plano novo; Set_data_matricula hoje])
            (aluno t))
    with (map (fun r => if al_matricula r =? m
                        then mk_aluno (al_matricula r) (al_cpf r) (al_nome r) (al_sexo r)
                                      (al_data_nascimento r) hoje novo
                        else r) (aluno t)).
  set (rows := map _ (aluno t)).
  assert (Hcpf : map al_cpf rows = map al_cpf (aluno t)).
  { unfold rows. rewrite map_map. apply map_ext. intros r.
    destruct (al_matricula r =? m); reflexivity. }
  rewrite Hcpf.
  assert (Hnd : nodup_stringb (map al_cpf (aluno t)) = true)
    by (apply nodup_stringb_NoDup; apply Hwf).
  rewrite Hnd, andb_false_r.
  assert (Hfk : touched_ok (fun r => al_matricula r =? m)
                  (fun r => mem_Z (al_codigo_plano r) (map pl_codigo_plano (plano t)))
                  rows = false).
  { destruct (touched_ok _ _ rows) eqn:E; [|reflexivity].
    exfalso. rewrite touched_ok_spec in E.
    apply in_map_iff in Hm. destruct Hm as [a [Ea Ha]].
    specialize (E (mk_aluno (al_matricula a) (al_cpf a) (al_nome a) (al_sexo a)
                            (al_data_nascimento a) hoje novo)).
    cbn [al_matricula al_codigo_plano] in E.
    apply Hnovo. apply mem_Z_In. apply E.
    - unfold rows. apply in_map_iff. exists a. split; [|exact Ha].
      rewrite Ea, Z.eqb_refl. reflexivity.
    - rewrite Ea. apply Z.eqb_refl. }
  rewrite Hfk.
  destruct (match find (fun a => al_matricula a =? m) (aluno t) with
            | Some a => option_map pl_preco
                          (find (fun p => pl_codigo_plano p =? al_codigo_plano a) (plano t))
            | None => None
            end); reflexivity.
Qed.

(** X10.  The route that updates a student writes [codigo_plano] with a
    plain [UPDATE]: on a well-formed store, a request that carries only
    [codigo_plano], naming a plan that exists, moves the student to that
    plan whatever the two prices are, and keeps the enrolment date. *)
Theorem X10_atualizar_aluno_troca_plano (m novo : Z) (db : Db) :
  wf_db db ->
  In novo (map pl_codigo_plano (plano (db_tables db))) ->
  atualizar_aluno m (mk_AlunoUpdate None None None None None (Some novo) None) db =
  mk_db (set_aluno
           (map (fun r => if al_matricula r =? m
                          then mk_aluno (al_matricula r) (al_cpf r) (al_nome r) (al_sexo r)
                                        (al_data_nascimento r) (al_data_matricula r) novo
                          else r) (aluno (db_tables db))) (db_tables db))
        (db_seqs db).
Proof.
  intros [Hwf _] Hnovo. destruct db as [t q]. cbn [db_tables db_seqs] in *.
  unfold atualizar_aluno, store_after, bind, update_aluno, append_given, execute_query,
    commit, get_connection, close_connection.
  cbn [au_cpf au_nome au_sexo au_data_nascimento au_data_matricula au_codigo_plano
       au_contato app working seqs committed db_tables db_seqs].
  rewrite (@sql_update_aluno_so_plano t q m novo Hwf Hnovo). reflexivity.
Qed.

(** ** Reading one entity *)

Lemma buscar_plano_eq (codigo : Z) (db : Db) :
  buscar_plano codigo db =
  (match (if codigo =? 0
          then order_by (fun a b => pl_codigo_plano a <=? pl_codigo_plano b)
                        (plano (db_tables db))
          else filter (fun r => pl_codigo_plano r =? codigo) (plano (db_tables db))) with
   | [] => HTTPError 404 (HTTPExc 404 "Plano não encontrado")
   | row :: _ => Reply 200 (plano_to_dict row)
   end, db).
Proof.
  destruct db as [t q].
  unfold buscar_plano, respond, store_after, bind, read_plano, truthy_id, execute_query,
    sql_select, get_connection, close_connection.
  cbn [db_tables db_seqs].
  destruct (codigo =? 0); cbn [fst snd working committed seqs].
  - destruct (order_by _ (plano t)); reflexivity.
  - destruct (filter _ (plano t)); reflexivity.
Qed.



Lemma criar_plano_eq (p : PlanoCreate) (db : Db) :
  criar_plano p db =
  let k := plano_codigo_plano_seq (db_seqs db) + 1 in
  if negb (varchar_ok 45 (pc_nome_plano p) && numeric_ok 10 (pc_preco p)
           && opt_varchar_ok 180 (pc_descricao p))
  then (HTTPError 400 (QueryError DataException), db)
  else if negb (int4_ok k)
  then (HTTPError 400 (QueryError (SequenceLimit "plano_codigo_plano_seq")), db)
  else if mem_Z k (map pl_codigo_plano (plano (db_tables db)))
  then (HTTPError 400 (QueryError (UniqueViolation "plano.codigo_plano")),
        mk_db (db_tables db) (next_plano (db_seqs db)))
  else (Reply 201 (mk_PlanoResponse k (pc_nome_plano p) (pc_preco p) (pc_descricao p)),
        mk_db (set_plano (plano (db_tables db) ++
                          [mk_plano k (varchar 45 (pc_nome_plano p))
                                    (hundredths (pc_preco p))
                                    (opt_varchar 180 (pc_descricao p))])
                         (db_tables db))
              (next_plano (db_seqs db))).
Proof.
  destruct db as [t q]. cbn [db_tables db_seqs] in *.
  unfold criar_plano, respond, store_after, bind, create_plano, execute_query,
    sql_insert_plano, commit, PlanoResponse_init, ret, get_connection, close_connection.
  cbv zeta. cbn [db_tables db_seqs working committed seqs].
  change (plano_codigo_plano_seq (next_plano q)) with (plano_codigo_plano_seq q + 1).
  destruct (varchar_ok 45 (pc_nome_plano p) && numeric_ok 10 (pc_preco p)
            && opt_varchar_ok 180 (pc_descricao p)); [|reflexivity].
  destruct (int4_ok (plano_codigo_plano_seq q + 1)); [|reflexivity].
  destruct (mem_Z (plano_codigo_plano_seq q + 1) (map pl_codigo_plano (plano t)));
    reflexivity.
Qed.

(** X13.  Creating a plan and reading it back.  On a well-formed store
    whose plan sequence is not negative: when the values fit their columns
    (the price, rounded to hundredths, within ten digits) and the sequence
    is not exhausted, the create route answers 201 with the payload as it
    was sent under the next code, and reading that code next answers 200
    with the plan as the columns keep it, the price rounded to hundredths,
    as long as the rounded price is still above 0, which [PlanoResponse]
    asks of a price; otherwise the create route answers with an error and
    leaves the store, the sequence included, as it was. *)
Theorem X13_criar_buscar_plano (p : PlanoCreate) (db : Db) :
  wf_db db -> 0 <= plano_codigo_plano_seq (db_seqs db) ->
  let k := plano_codigo_plano_seq (db_seqs db) + 1 in
  let cabe := varchar_ok 45 (pc_nome_plano p) && numeric_ok 10 (pc_preco p)
              && opt_varchar_ok 180 (pc_descricao p) && int4_ok k in
  (cabe = true ->
   fst (criar_plano p db) =
     Reply 201 (mk_PlanoResponse k (pc_nome_plano p) (pc_preco p) (pc_descricao p)) /\
   (0 < hundredths (pc_preco p) ->
    fst (buscar_plano k (snd (criar_plano p db))) =
      Reply 200 (mk_PlanoResponse k (varchar 45 (pc_nome_plano p))
                                  (Dec (hundredths (pc_preco p)) 2)
                                  (opt_varchar 180 (pc_descricao p))))) /\
  (cabe = false -> exists e, criar_plano p db = (HTTPError 400 e, db)).
Proof.
  intros [Hwf Hsq] Hpos k cabe.
  assert (Hnew : ~ In k (map pl_codigo_plano (plano (db_tables db)))).
  { intros Hin. apply in_map_iff in Hin. destruct Hin as [x [E Hx]].
    pose proof (sq_plano Hsq x Hx). subst k. lia. }
  rewrite criar_plano_eq. cbv zeta. fold k. subst cabe.
  apply mem_Z_false in Hnew as Hnewb. rewrite Hnewb.
  destruct (varchar_ok 45 (pc_nome_plano p) && numeric_ok 10 (pc_preco p)
            && opt_varchar_ok 180 (pc_descricao p));
    destruct (int4_ok k); cbn [andb negb]; split; intros H; try discriminate;
    try (eexists; reflexivity).
  cbn [fst snd]. split; [reflexivity|]. intros _.
  rewrite buscar_plano_eq. cbn [fst db_tables].
  replace (k =? 0) with false by (symmetry; apply Z.eqb_neq; subst k; lia).
  destruct (db_tables db) as [pl al ca bi ins ci tu ma]. cbn [plano set_plano] in *.
  rewrite filter_app.
  rewrite (@filter_key_absent _ pl_codigo_plano _ pl Hnew).
  cbn [filter pl_codigo_plano app]. rewrite Z.eqb_refl. reflexivity.
Qed.

(** X14.  After the delete route has run for a code other than 0, reading
    that code answers 404, whatever the store held. *)
Theorem X14_deletar_buscar_plano (codigo : Z) (db : Db) :
  codigo <> 0 ->
  fst (buscar_plano codigo (snd (deletar_plano codigo db))) =
  HTTPError 404 (HTTPExc 404 "Plano não encontrado").
Proof.
  intros Hz. rewrite deletar_plano_eq, buscar_plano_eq. cbn [fst snd db_tables].
  replace (codigo =? 0) with false by (symmetry; now apply Z.eqb_neq).
  rewrite filter_key_absent; [reflexivity|].
  unfold cascade_delete_plano, cascade_delete_aluno. cbn [plano set_plano].
  destruct (db_tables db); cbn [plano]. apply deleted_key_gone.
Qed.

Lemma buscar_instrutor_eq (cref : Z) (db : Db) :
  buscar_instrutor cref db =
  (if cref =? 0
   then match order_by (fun a b => collate_leb (in_nome (fst a)) (in_nome (fst b)))
                       (scan (instrutor_join (db_tables db) (instrutor (db_tables db))))
        with
        | [] => HTTPError 404 (HTTPExc 404 "Instrutor não encontrado")
        | row :: _ => Reply 200 (instrutor_to_dict row)
        end
   else match scan (instrutor_join (db_tables db)
                      (filter (fun r => in_cref r =? cref) (instrutor (db_tables db))))
        with
        | [] => HTTPError 400 (PyExc "Instrutor não encontrado")
        | row :: _ => Reply 200 (instrutor_to_dict row)
        end, db).
Proof.
  destruct db as [t q].
  unfold buscar_instrutor, respond, store_after, read_instrutor, truthy_id.
  cbn [db_tables db_seqs].
  destruct (cref =? 0);
    unfold bind, execute_query, sql_select, get_connection, close_connection;
    cbn [fst snd working committed seqs db_tables db_seqs].
  - destruct (order_by _ (scan (instrutor_join t (instrutor t)))); reflexivity.
  - destruct (scan (instrutor_join t (filter _ (instrutor t)))); reflexivity.
Qed.

(** X15.  Reading one instructor by a [cref] other than 0 that no
    instructor has answers 400, not 404: [read_instrutor] raises a plain
    exception before the route can raise its 404.  The route answers 404
    only for [cref] 0 on a store without instructors. *)
Theorem X15_buscar_instrutor_ausente (cref : Z) (db : Db) :
  (cref <> 0 -> ~ In cref (map in_cref (instrutor (db_tables db))) ->
   buscar_instrutor cref db = (HTTPError 400 (PyExc "Instrutor não encontrado"), db)) /\
  (forall e, fst (buscar_instrutor cref db) = HTTPError 404 e ->
             cref = 0 /\ instrutor (db_tables db) = []).
Proof.
  rewrite buscar_instrutor_eq. split.
  - intros Hz Habs.
    replace (cref =? 0) with false by (symmetry; now apply Z.eqb_neq).
    rewrite (@filter_key_absent _ in_cref cref _ Habs).
    unfold instrutor_join, left_join. cbn [flat_map]. now rewrite scan_nil.
  - intros e. cbn [fst]. destruct (cref =? 0) eqn:Ez.
    + apply Z.eqb_eq in Ez.
      destruct (order_by _ _) as [|row r] eqn:E; [|discriminate].
      intros _. split; [exact Ez|].
      pose proof (order_by_scan_permutation
                    (fun a b => collate_leb (in_nome (fst a)) (in_nome (fst b)))
                    (instrutor_join (db_tables db) (instrutor (db_tables db)))) as Hp.
      rewrite E in Hp. apply Permutation_nil in Hp.
      unfold instrutor_join in Hp. now apply left_join_nil in Hp.
    + destruct (scan _); discriminate.
Qed.

Lemma buscar_aluno_eq (m : Z) (db : Db) :
  m <> 0 ->
  buscar_aluno m db =
  (match scan (aluno_join (db_tables db)
                 (filter (fun r => al_matricula r =? m) (aluno (db_tables db)))) with
   | [] => HTTPError 404 (HTTPExc 404 "Aluno não encontrado")
   | row :: _ => Reply 200 (aluno_to_dict row)
   end, db).
Proof.
  intros Hz. destruct db as [t q].
  unfold buscar_aluno, respond, store_after, read_aluno, truthy_id.
  replace (m =? 0) with false by (symmetry; now apply Z.eqb_neq).
  unfold bind, execute_query, sql_select, get_connection, close_connection.
  cbn [fst snd working committed seqs db_tables db_seqs].
  destruct (scan (aluno_join t (filter _ (aluno t)))); reflexivity.
Qed.

Lemma buscar_aluno_ausente (m : Z) (db : Db) :
  m <> 0 -> ~ In m (map al_matricula (aluno (db_tables db))) ->
  fst (buscar_aluno m db) = HTTPError 404 (HTTPExc 404 "Aluno não encontrado").
Proof.
  intros Hz Habs. rewrite buscar_aluno_eq by exact Hz.
  rewrite (@filter_key_absent _ al_matricula m _ Habs).
  unfold aluno_join, left_join. cbn [flat_map fst]. now rewrite scan_nil.
Qed.

(** X16.  Creating a student and reading it back.  On a well-formed store
    whose student sequence is not negative: when the payload is accepted
    (every value fits its column, the e-mail within 45 characters, the
    sequence is not exhausted, the [cpf] is new, the plan is known, the
    phone number is new and not empty), reading the next [matricula] after
    the create route answers 200 with the student as the columns keep it,
    the generated [matricula] and the contact; when a value does not fit,
    the same read answers 404: nothing of the student was kept. *)
Theorem X16_criar_buscar_aluno (a : AlunoCreate) (db : Db) :
  wf_db db -> 0 <= aluno_matricula_seq (db_seqs db) ->
  let m := aluno_matricula_seq (db_seqs db) + 1 in
  let cabe := varchar_ok 11 (ac_cpf a) && varchar_ok 45 (ac_nome a)
              && int4_ok (ac_codigo_plano a)
              && (varchar_ok 15 (cb_telefone (ac_contato a))
                  && opt_varchar_ok 45 (cb_email (ac_contato a)))
              && int4_ok m in
  (cabe = true ->
   ~ In (varchar 11 (ac_cpf a)) (map al_cpf (aluno (db_tables db))) ->
   In (ac_codigo_plano a) (map pl_codigo_plano (plano (db_tables db))) ->
   ~ In (varchar 15 (cb_telefone (ac_contato a)))
        (map ca_telefone (contato_aluno (db_tables db))) ->
   varchar 15 (cb_telefone (ac_contato a)) <> "" ->
   fst (buscar_aluno m (criar_aluno a db)) =
   Reply 200
     (mk_AlunoDict m (varchar 11 (ac_cpf a)) (varchar 45 (ac_nome a)) (ac_sexo a)
                   (ac_data_nascimento a) (ac_data_matricula a) (ac_codigo_plano a)
                   (Some (mk_ContatoDict (Some (varchar 15 (cb_telefone (ac_contato a))))
                                         (opt_varchar 45 (cb_email (ac_contato a))))))) /\
  (cabe = false ->
   fst (buscar_aluno m (criar_aluno a db)) =
   HTTPError 404 (HTTPExc 404 "Aluno não encontrado")).
Proof.
  intros Hwf Hpos m cabe.
  assert (Hnew : ~ In m (map al_matricula (aluno (db_tables db)))).
  { intros Hin. apply in_map_iff in Hin. destruct Hin as [x [E Hx]].
    pose proof (sq_aluno (proj2 Hwf) x Hx). subst m. lia. }
  assert (Hz : m <> 0) by (subst m; lia).
  split.
  - intros Hc Hcpf Hplano Htel Hne. subst cabe.
    apply andb_true_iff in Hc. destruct Hc as [Hc H4].
    apply andb_true_iff in Hc. destruct Hc as [Hca Hcc].
    rewrite buscar_aluno_eq by exact Hz. cbn [fst].
    rewrite criar_aluno_eq. cbv zeta. fold m. rewrite Hca, H4, Hcc.
    apply mem_Z_false in Hnew as Hnewb. rewrite Hnewb.
    apply mem_string_false in Hcpf. rewrite Hcpf.
    apply mem_Z_In in Hplano. rewrite Hplano.
    apply mem_string_false in Htel. rewrite Htel.
    cbn [orb negb db_tables].
    assert (Hct : filter (fun c => m =? ca_matricula c)
                         (contato_aluno (db_tables db)) = []).
    { apply filter_none. intros c Hc. apply Z.eqb_neq. intros E. apply Hnew.
      rewrite E. apply (fk_contato_aluno (wf_orfaos (proj1 Hwf)) c Hc). }
    destruct (db_tables db) as [pl al ca bi ins ci tu ma].
    cbn [aluno contato_aluno set_aluno set_contato_aluno] in *.
    rewrite filter_app, (@filter_key_absent _ al_matricula _ al Hnew).
    cbn [filter al_matricula app]. rewrite Z.eqb_refl.
    unfold aluno_join, left_join.
    cbn [flat_map contato_aluno set_contato_aluno set_aluno al_matricula].
    rewrite filter_app, Hct. cbn [filter ca_matricula app].
    rewrite Z.eqb_refl. cbn [map app]. rewrite scan_one.
    unfold aluno_to_dict, contato_to_dict, truthy_string.
    cbn [fst snd option_map ca_telefone ca_email al_matricula al_cpf al_nome al_sexo
         al_data_nascimento al_data_matricula al_codigo_plano].
    replace (varchar 15 (cb_telefone (ac_contato a)) =? "")%string with false
      by (symmetry; now apply String.eqb_neq).
    reflexivity.
  - intros Hc. apply buscar_aluno_ausente; [exact Hz|].
    rewrite criar_aluno_nao_cabe; [exact Hnew | exact Hc].
Qed.

(** ** Slices *)






(** ** What a delete leaves in place *)

Lemma gone_key {A : Type} (key : A -> Z) (k x : Z) (l : list A) :
  mem_Z x (map key (filter (fun r => key r =? k) l)) = true -> x = k.
Proof.
  intros H. apply mem_Z_In in H. apply in_map_iff in H.
  destruct H as [r [E Hr]]. apply filter_In in Hr. destruct Hr as [_ Hk].
  apply Z.eqb_eq in Hk. congruence.
Qed.

Lemma kept_child {C : Type} {A : Type} (key : A -> Z) (fk : C -> Z) (k : Z)
      (parents : list A) (children : list C) (c : C) :
  In c children -> fk c <> k ->
  In c (sql_delete (fun r => mem_Z (fk r)
                                   (map key (filter (fun p => key p =? k) parents)))
                   children).
Proof.
  intros Hc Hk. apply In_sql_delete. split; [exact Hc|].
  destruct (mem_Z (fk c) _) eqn:E; [|reflexivity].
  apply gone_key in E. contradiction.
Qed.

(** X19.  Deleting a student touches nothing else: plans, instructors,
    their contacts and classes are as before, no sequence moves, and every
    other student keeps its row, contact, measurement and enrolments. *)
Theorem X19_deletar_aluno_frame (m : Z) (db : Db) :
  let t := db_tables db in
  let t' := db_tables (snd (deletar_aluno m db)) in
  plano t' = plano t /\ instrutor t' = instrutor t /\
  contato_instrutor t' = contato_instrutor t /\ turma t' = turma t /\
  db_seqs (snd (deletar_aluno m db)) = db_seqs db /\
  (forall a, In a (aluno t) -> al_matricula a <> m -> In a (aluno t')) /\
  (forall c, In c (contato_aluno t) -> ca_matricula c <> m -> In c (contato_aluno t')) /\
  (forall b, In b (bioimpedancia t) -> bi_matricula b <> m -> In b (bioimpedancia t')) /\
  (forall e, In e (turma_instrutor_aluno t) -> snd e <> m ->
             In e (turma_instrutor_aluno t')).
Proof.
  cbv zeta. rewrite deletar_aluno_eq. cbn [snd db_tables db_seqs].
  unfold cascade_delete_aluno.
  cbn [plano aluno contato_aluno bioimpedancia instrutor contato_instrutor turma
       turma_instrutor_aluno].
  repeat (split; [reflexivity|]).
  split; [|split; [|split]].
  - intros a Ha Hk. apply In_sql_delete. split; [exact Ha|]. now apply Z.eqb_neq.
  - intros c Hc Hk. now apply kept_child.
  - intros b Hb Hk. now apply kept_child.
  - intros e He Hk. now apply (@kept_child _ _ al_matricula snd).
Qed.

(** ** Creating a class *)

Lemma scan_cons {A : Type} (l : list A) : l <> [] -> scan l <> [].
Proof.
  intros Hne E. apply Hne. apply Permutation_nil. rewrite <- E.
  apply scan_permutation.
Qed.

(** X20.  Creating a class looks the instructor up first.  When no
    instructor has the [cref] the store is left exactly as it was, the
    class sequence included.  When one has it, on a well-formed store: if
    a value does not fit its column ([quantidade_vagas] beyond the
    [INTEGER] range, say) or the sequence is exhausted, the store is again
    left exactly as it was, the sequence included; otherwise the class
    sequence advances, and the class is stored under the next [id_turma],
    its name as the column keeps it, if [quantidade_vagas] is above 0,
    while the tables are left as they were if it is not. *)
Theorem X20_criar_turma (tc : TurmaCreate) (db : Db) :
  let t := db_tables db in
  let k := turma_id_turma_seq (db_seqs db) + 1 in
  let cabe := varchar_ok 45 (tc_nome_atividade tc) && int4_ok (tc_quantidade_vagas tc)
              && int4_ok (tc_cref tc) in
  (~ In (tc_cref tc) (map in_cref (instrutor t)) -> criar_turma tc db = db) /\
  (wf_db db ->
   In (tc_cref tc) (map in_cref (instrutor t)) ->
   (cabe && int4_ok k = false -> criar_turma tc db = db) /\
   (cabe && int4_ok k = true ->
    criar_turma tc db =
    mk_db (if 0 <? tc_quantidade_vagas tc
           then set_turma
                  (turma t ++
                   [mk_turma k (varchar 45 (tc_nome_atividade tc))
                             (tc_quantidade_vagas tc) (tc_turno tc) (tc_cref tc)]) t
           else t)
          (next_turma (db_seqs db)))).
Proof.
  destruct db as [t q]. cbn [db_tables db_seqs]. cbv zeta. split.
  - intros H.
    unfold criar_turma, store_after, bind, read_instrutor_por_cref, execute_query,
      sql_select, get_connection, close_connection.
    cbn [fst snd working committed seqs db_tables db_seqs].
    rewrite (@filter_key_absent _ in_cref _ _ H).
    unfold instrutor_join, left_join. cbn [flat_map]. rewrite scan_nil. reflexivity.
  - intros [Hwf Hsq] H. cbn [db_tables db_seqs] in *.
    assert (Hnew : mem_Z (turma_id_turma_seq q + 1) (map tu_id_turma (turma t)) = false)
      by apply (@fresh_above_seq _ tu_id_turma _ _ (sq_turma Hsq)).
    apply in_map_iff in H as Hi. destruct Hi as [i [Ei Hi]].
    pose proof (@filter_key_unique _ in_cref _ i (pk_instrutor (wf_chaves Hwf)) Hi) as Ef.
    rewrite Ei in Ef.
    apply mem_Z_In in H.
    unfold criar_turma, store_after, bind, read_instrutor_por_cref, create_turma,
      execute_query, sql_select, commit, get_connection, close_connection.
    cbn [fst snd working committed seqs db_tables db_seqs].
    rewrite Ef.
    destruct (scan (instrutor_join t [i])) as [|row rest] eqn:Ej.
    { exfalso. revert Ej. apply scan_cons. intros Ej.
      unfold instrutor_join in Ej. now apply left_join_nil in Ej. }
    unfold sql_insert_turma. cbv zeta.
    cbn [fst snd working committed seqs].
    change (turma_id_turma_seq (next_turma q)) with (turma_id_turma_seq q + 1).
    rewrite Hnew, H.
    destruct (varchar_ok 45 (tc_nome_atividade tc) && int4_ok (tc_quantidade_vagas tc)
              && int4_ok (tc_cref tc));
      destruct (int4_ok (turma_id_turma_seq q + 1)); cbn [andb negb];
      (split; intros Hc; try discriminate; try reflexivity).
    destruct (0 <? tc_quantidade_vagas tc); reflexivity.
Qed.

(** ** Untyped helpers *)

Lemma validate_input_true {V : Type} (data : list (string * V)) (req : list string) :
  fst (validate_input data req) = true <-> forall f, In f req -> In f (map fst data).
Proof.
  induction req as [|f rest IH]; cbn [validate_input].
  - split; [intros _ g [] | reflexivity].
  - destruct (mem_string f (map fst data)) eqn:E; cbn [negb].
    + rewrite IH. apply mem_string_In in E. split.
      * intros H g [<-|Hg]; [exact E | now apply H].
      * intros H g Hg. apply H. now right.
    + cbn [fst]. apply mem_string_false in E. split; [discriminate|].
      intros H. exfalso. apply E. apply H. now left.
Qed.

(** X21.  [validate_input] answers [True] with an empty message exactly
    when every required field is a key of the data; otherwise it answers
    [False] and names the first required field, in the order given, that
    is missing. *)
Theorem X21_validate_input {V : Type} (data : list (string * V)) (req : list string) :
  (fst (validate_input data req) = true <->
   forall f, In f req -> In f (map fst data)) /\
  (fst (validate_input data req) = true -> snd (validate_input data req) = "") /\
  (fst (validate_input data req) = false ->
   exists pre f post,
     req = (pre ++ f :: post)%list /\
     (forall g, In g pre -> In g (map fst data)) /\
     ~ In f (map fst data) /\
     snd (validate_input data req) = "Missing field: " ++ f).
Proof.
  split; [apply validate_input_true|].
  induction req as [|f rest IH]; cbn [validate_input].
  - split; [reflexivity | discriminate].
  - destruct (mem_string f (map fst data)) eqn:E; cbn [negb].
    + destruct IH as [IH1 IH2]. split; [exact IH1|].
      intros H. destruct (IH2 H) as [pre [g [post [Er [Hpre [Hg Hs]]]]]].
      exists (f :: pre), g, post. split; [now rewrite Er|].
      split; [|split; assumption].
      intros h [<-|Hh]; [now apply mem_string_In | now apply Hpre].
    + cbn [fst snd]. split; [discriminate|]. intros _.
      exists [], f, rest. split; [reflexivity|].
      split; [intros g []|]. split; [now apply mem_string_false | reflexivity].
Qed.

(** X22.  [turma_to_dict], used by the route that reads one class, hands
    [row[5:13]] to [instrutor_to_dict], which reads a [cref] at position 0;
    the slice starts at the instructor's [cpf].  On every tuple that
    [read_turma] returns the conversion succeeds, the class keys hold the
    class columns, and the instructor keys are one column off: [cref] holds
    the [cpf], [cpf] the name, [turno] the phone number, and [contato] is
    made of the e-mail and the list of students. *)
Theorem X22_turma_to_dict_shift (tu : turma_row) (i : instrutor_row)
        (ci : option contato_instrutor_row) (alunos : option (list Z)) :
  let email := py_opt_str (match ci with Some c => ci_email c | None => None end) in
  let lista := match alunos with Some l => PyList l | None => PyNone end in
  turma_to_dict (turma_tuple (tu, i, ci, alunos)) =
  Some (mk_TurmaPyDict
          (PyInt (tu_id_turma tu)) (PyStr (tu_nome_atividade tu))
          (PyInt (tu_quantidade_vagas tu)) (PyStr (TurnoEnum_value (tu_turno tu)))
          (PyInt (tu_cref tu))
          (mk_InstrutorPyDict
             (PyStr (in_cpf i)) (PyStr (in_nome i)) (PyDate (in_data_nascimento i))
             (PyDate (in_data_admissao i)) (PyStr (TurnoEnum_value (in_turno i)))
             (py_opt_str (option_map ci_telefone ci))
             (if py_truthy email || py_truthy lista then Some (email, lista) else None))
          (if py_truthy lista then lista else PyList [])).
Proof. reflexivity. Qed.

(** ** Order of the list of plans *)


(** ** The report *)

(** X24.  On tables that satisfy their keys and foreign keys, the view
    behind the report has exactly one row for each student, in an order
    that the view does not fix, and the row carries the name and the price
    of the student's own plan: the inner join with the plans loses no
    student and repeats none. *)
Theorem X24_relatorio_um_por_aluno (hoje : date) (t : Tables) :
  wf_tables t ->
  Permutation (map re_matricula (vw_relatorio_alunos hoje t)) (map al_matricula (aluno t)) /\
  (forall r, In r (vw_relatorio_alunos hoje t) ->
     exists a p, In a (aluno t) /\ In p (plano t) /\
                 pl_codigo_plano p = al_codigo_plano a /\
                 r = mk_relatorio (al_matricula a) (al_nome a) (al_cpf a)
                                  (idade_em_anos hoje (al_data_nascimento a))
                                  (al_data_matricula a) (pl_nome_plano p) (pl_preco p)).
Proof. apply relatorio_linhas. Qed.

(** ** Measurements *)

Lemma criar_bioimpedancia_eq (b : BioimpedanciaCreate) (db : Db) :
  criar_bioimpedancia b db =
  if negb (int4_ok (bc_matricula b) && numeric_ok 5 (bc_peso b)
           && numeric_ok 4 (bc_altura b) && int4_ok (bc_tmb b)
           && numeric_ok 5 (bc_percentual_gordura b)
           && numeric_ok 5 (bc_quantidade_agua b))
     || mem_Z (bc_matricula b) (map bi_matricula (bioimpedancia (db_tables db)))
     || negb (mem_Z (bc_matricula b) (map al_matricula (aluno (db_tables db))))
  then db
  else mk_db (set_bioimpedancia
                (bioimpedancia (db_tables db) ++
                 [mk_bioimpedancia (bc_matricula b) (hundredths (bc_peso b))
                                   (hundredths (bc_altura b)) (bc_tmb b)
                                   (hundredths (bc_percentual_gordura b))
                                   (hundredths (bc_quantidade_agua b))])
                (db_tables db))
             (db_seqs db).
Proof.
  destruct db as [t q].
  unfold criar_bioimpedancia, store_after, bind, create_bioimpedancia, execute_query,
    sql_insert_bioimpedancia, commit, get_connection, close_connection.
  cbn [db_tables db_seqs working committed seqs].
  destruct (int4_ok (bc_matricula b) && numeric_ok 5 (bc_peso b)
            && numeric_ok 4 (bc_altura b) && int4_ok (bc_tmb b)
            && numeric_ok 5 (bc_percentual_gordura b)
            && numeric_ok 5 (bc_quantidade_agua b)); [|reflexivity].
  destruct (mem_Z (bc_matricula b) (map bi_matricula (bioimpedancia t))); [reflexivity|].
  destruct (mem_Z (bc_matricula b) (map al_matricula (aluno t))); reflexivity.
Qed.

Lemma buscar_bioimpedancia_eq (m : Z) (db : Db) :
  m <> 0 ->
  buscar_bioimpedancia m db =
  (match filter (fun r => bi_matricula r =? m) (bioimpedancia (db_tables db)) with
   | [] => HTTPError 404 (HTTPExc 404 "Medição não encontrada")
   | row :: _ => Reply 200 (bioimpedancia_to_dict row)
   end, db).
Proof.
  intros Hz. destruct db as [t q].
  unfold buscar_bioimpedancia, respond, store_after, read_bioimpedancia, truthy_id.
  replace (m =? 0) with false by (symmetry; now apply Z.eqb_neq).
  unfold bind, execute_query, sql_select, get_connection, close_connection.
  cbn [fst snd working committed seqs db_tables db_seqs].
  destruct (filter _ (bioimpedancia t)); reflexivity.
Qed.

(** X25.  A student has at most one measurement.  Creating a measurement
    leaves the store exactly as it was when a value does not fit its column
    ([tmb] or [matricula] beyond the [INTEGER] range, a weight of 1000 or
    more, a height of 100 or more), when the student already has one, or
    when no student has the [matricula]; otherwise the measurement is
    appended with its numbers rounded to hundredths, and reading it back by
    a [matricula] other than 0 answers 200 with those rounded values, as
    long as the rounded weight and height are still above 0, which the
    response model asks of them. *)
Theorem X25_criar_bioimpedancia (b : BioimpedanciaCreate) (db : Db) :
  let cabe := int4_ok (bc_matricula b) && numeric_ok 5 (bc_peso b)
              && numeric_ok 4 (bc_altura b) && int4_ok (bc_tmb b)
              && numeric_ok 5 (bc_percentual_gordura b)
              && numeric_ok 5 (bc_quantidade_agua b) in
  let linha := mk_bioimpedancia (bc_matricula b) (hundredths (bc_peso b))
                                (hundredths (bc_altura b)) (bc_tmb b)
                                (hundredths (bc_percentual_gordura b))
                                (hundredths (bc_quantidade_agua b)) in
  (cabe = false \/
   In (bc_matricula b) (map bi_matricula (bioimpedancia (db_tables db))) \/
   ~ In (bc_matricula b) (map al_matricula (aluno (db_tables db))) ->
   criar_bioimpedancia b db = db) /\
  (cabe = true ->
   ~ In (bc_matricula b) (map bi_matricula (bioimpedancia (db_tables db))) ->
   In (bc_matricula b) (map al_matricula (aluno (db_tables db))) ->
   criar_bioimpedancia b db =
     mk_db (set_bioimpedancia (bioimpedancia (db_tables db) ++ [linha]) (db_tables db))
           (db_seqs db) /\
   (bc_matricula b <> 0 ->
    0 < hundredths (bc_peso b) -> 0 < hundredths (bc_altura b) ->
    fst (buscar_bioimpedancia (bc_matricula b) (criar_bioimpedancia b db)) =
    Reply 200 linha)).
Proof.
  intros cabe linha. rewrite criar_bioimpedancia_eq. fold cabe linha.
  destruct cabe;
    destruct (mem_Z (bc_matricula b) (map bi_matricula _)) eqn:E1;
    destruct (mem_Z (bc_matricula b) (map al_matricula _)) eqn:E2;
    cbn [orb negb]; norm_checks; split;
    try (intros; reflexivity); try (intros; discriminate); try tauto;
    try solve [intuition discriminate].
  intros _ Hb Ha. split; [reflexivity|]. intros Hz _ _.
  rewrite buscar_bioimpedancia_eq by exact Hz. cbn [fst db_tables].
  destruct (db_tables db) as [pl al ca bi ins ci tu ma].
  cbn [bioimpedancia set_bioimpedancia] in *.
  rewrite filter_app, (@filter_key_absent _ bi_matricula _ bi Hb).
  subst linha. cbn [filter bi_matricula app]. rewrite Z.eqb_refl. reflexivity.
Qed.

(** ** What the delete of a plan leaves in place *)

Lemma kept_grandchild {C : Type} (fk : C -> Z) (k : Z) (ps : list plano_row)
      (als : list aluno_row) (children : list C) (a : aluno_row) (c : C) :
  NoDup (map al_matricula als) -> In a als -> al_codigo_plano a <> k ->
  In c children -> fk c = al_matricula a ->
  In c (sql_delete
          (fun r => mem_Z (fk r)
                      (map al_matricula
                         (filter (fun x => mem_Z (al_codigo_plano x)
                                             (map pl_codigo_plano
                                                (filter (fun p => pl_codigo_plano p =? k) ps)))
                                 als)))
          children).
Proof.
  intros Hnd Ha Hk Hc Hfk. apply In_sql_delete. split; [exact Hc|].
  destruct (mem_Z (fk c) _) eqn:E; [|reflexivity]. exfalso.
  apply mem_Z_In in E. apply in_map_iff in E. destruct E as [x [Ex Hx]].
  apply filter_In in Hx. destruct Hx as [Hx Hg]. apply gone_key in Hg.
  assert (x = a) by (apply (NoDup_map_inj al_matricula als); congruence).
  subst x. contradiction.
Qed.

(** X26.  Deleting a plan, on a well-formed store, touches no instructor,
    instructor contact or class and moves no sequence; every other plan
    stays, and every student on another plan stays with its contacts,
    measurement and enrolments. *)
Theorem X26_deletar_plano_frame (codigo : Z) (db : Db) :
  wf_db db ->
  let t := db_tables db in
  let t' := db_tables (snd (deletar_plano codigo db)) in
  instrutor t' = instrutor t /\ contato_instrutor t' = contato_instrutor t /\
  turma t' = turma t /\
  db_seqs (snd (deletar_plano codigo db)) = db_seqs db /\
  (forall p, In p (plano t) -> pl_codigo_plano p <> codigo -> In p (plano t')) /\
  (forall a, In a (aluno t) -> al_codigo_plano a <> codigo ->
     In a (aluno t') /\
     (forall c, In c (contato_aluno t) -> ca_matricula c = al_matricula a ->
                In c (contato_aluno t')) /\
     (forall b, In b (bioimpedancia t) -> bi_matricula b = al_matricula a ->
                In b (bioimpedancia t')) /\
     (forall e, In e (turma_instrutor_aluno t) -> snd e = al_matricula a ->
                In e (turma_instrutor_aluno t'))).
Proof.
  intros Hwf. cbv zeta. rewrite deletar_plano_eq. cbn [snd db_tables db_seqs].
  pose proof (pk_aluno (wf_chaves (proj1 Hwf))) as Hnd.
  destruct (db_tables db) as [pl al ca bi ins ci tu ma].
  unfold cascade_delete_plano, cascade_delete_aluno, set_plano.
  cbn [plano aluno contato_aluno bioimpedancia instrutor contato_instrutor turma
       turma_instrutor_aluno] in *.
  repeat (split; [reflexivity|]). split.
  - intros p Hp Hk. apply In_sql_delete. split; [exact Hp|]. now apply Z.eqb_neq.
  - intros a Ha Hk. split; [|split; [|split]].
    + apply In_sql_delete. split; [exact Ha|].
      destruct (mem_Z (al_codigo_plano a) _) eqn:E; [|reflexivity].
      apply gone_key in E. contradiction.
    + intros c Hc Hfk. now apply kept_grandchild with (a := a).
    + intros b Hb Hfk. now apply kept_grandchild with (a := a).
    + intros e He Hfk. now apply (@kept_grandchild _ snd) with (a := a).
Qed.

(** X27.  The report route, asked from the start for at least as many
    rows as there are students, answers 200 with exactly one row for each
    student of a well-formed store, and writes nothing. *)
Theorem X27_relatorio_completo (hoje : date) (limit : Z) (db : Db) :
  wf_db db ->
  Z.of_nat (List.length (aluno (db_tables db))) <= limit ->
  exists page,
    relatorio_alunos hoje 0 limit db = (Reply 200 page, db) /\
    Permutation (map re_matricula page) (map al_matricula (aluno (db_tables db))).
Proof.
  intros [Hwf _] Hlim.
  destruct (@relatorio_linhas hoje (db_tables db) Hwf) as [Hm _].
  exists (order_by (fun a b => collate_leb (re_nome_aluno a) (re_nome_aluno b))
                   (vw_relatorio_alunos hoje (db_tables db))).
  split.
  - assert (Hlen : List.length (vw_relatorio_alunos hoje (db_tables db)) =
                   List.length (aluno (db_tables db))).
    { rewrite <- (length_map re_matricula), (Permutation_length Hm). apply length_map. }
    assert (Hord : List.length
                     (order_by (fun a b => collate_leb (re_nome_aluno a) (re_nome_aluno b))
                               (vw_relatorio_alunos hoje (db_tables db))) =
                   List.length (aluno (db_tables db))).
    { rewrite <- Hlen. apply Permutation_length, order_by_permutation. }
    rewrite relatorio_alunos_eq, py_slice_pagina by lia. unfold pagina.
    cbn [Z.to_nat skipn]. rewrite firstn_all2 by lia. reflexivity.
  - eapply Permutation_trans; [apply Permutation_map, order_by_permutation | exact Hm].
Qed.

End Store.

(** * The properties on the sample data *)




Lemma serve_all_snoc (ok : date -> date -> bool) (heap : Scan) (hoje : date)
      (rs : list Request) (r : Request) (db : Db) :
  serve_all ok heap hoje (rs ++ [r]) db = serve ok heap hoje r (serve_all ok heap hoje rs db).
Proof. unfold serve_all. now rewrite fold_left_app. Qed.

Lemma db_exemplo_cenario :
  serve_all maioridade_exemplo ordem_insercao 20000 cenario_turma_cheia init_database =
  db_exemplo.
Proof. vm_compute. reflexivity. Qed.

Lemma db_exemplo_reachable :
  reachable_sem_reducao maioridade_exemplo ordem_insercao db_exemplo.
Proof.
  rewrite <- db_exemplo_cenario. unfold cenario_turma_cheia, serve_all. cbn [fold_left].
  repeat (apply rsr_serve; [|reflexivity]). apply rsr_init.
Qed.

Lemma wf_db_exemplo : wf_db db_exemplo.
Proof.
  split; [apply wf_tablesb_sound; reflexivity|].
  constructor; simpl; intros r Hr;
    repeat (destruct Hr as [<-|Hr]; [simpl; lia|]); contradiction.
Qed.

(** C1 as the specification states it fails: after the scenario, a request
    that sets the seats of class 1 to 1 is accepted while the class holds
    two enrolments. *)
Lemma C1_counterexample :
  reachable maioridade_exemplo ordem_insercao
            (serve_all maioridade_exemplo ordem_insercao 20000 cenario_reducao
                       init_database) /\
  In (mk_turma 1 "Yoga" 1 MANHA 77)
     (turma (db_tables (serve_all maioridade_exemplo ordem_insercao 20000 cenario_reducao
                                  init_database))) /\
  count_matriculas 1
    (db_tables (serve_all maioridade_exemplo ordem_insercao 20000 cenario_reducao
                          init_database)) = 2 /\
  ~ capacidade_ok
      (db_tables (serve_all maioridade_exemplo ordem_insercao 20000 cenario_reducao
                            init_database)).
Proof.
  assert (E : serve_all maioridade_exemplo ordem_insercao 20000 cenario_reducao
                        init_database =
              mk_db (set_turma [ mk_turma 1 "Yoga" 1 MANHA 77;
                                 mk_turma 2 "Pilates" 1 TARDE 77 ] tabelas_exemplo)
                    (mk_seqs 2 2 2)) by (vm_compute; reflexivity).
  split; [|rewrite E; split; [|split]].
  - unfold cenario_reducao. rewrite serve_all_snoc. apply reachable_serve.
    rewrite db_exemplo_cenario. apply reachable_sem_reducao_reachable.
    apply db_exemplo_reachable.
  - simpl. now left.
  - reflexivity.
  - intros H. specialize (H (mk_turma 1 "Yoga" 1 MANHA 77) (or_introl eq_refl)).
    vm_compute in H. apply H. reflexivity.
Qed.

Lemma C1_witness :
  reachable_sem_reducao maioridade_exemplo ordem_insercao db_exemplo /\
  capacidade_ok (db_tables db_exemplo) /\
  matricular_aluno_turma 1 3 db_exemplo =
    (HTTPError 400 (PyExc "Turma sem vagas disponíveis"), db_exemplo).
Proof.
  split; [exact db_exemplo_reachable|].
  destruct (C1_capacity_invariant db_exemplo_reachable) as [H1 [H2 _]].
  split; [exact H1|].
  apply (H2 1 3 (mk_turma 1 "Yoga" 2 MANHA 77)).
  - simpl. now left.
  - reflexivity.
  - vm_compute. discriminate.
Defined.

(** Student 2 is on the plan at 100.00 and asks for the plan at 50.00: the
    stored function refuses, the route accepts and keeps the enrolment
    date. *)
Lemma C2_witness :
  wf_db db_exemplo /\
  pl_preco (mk_plano 1 "Basic" 5000 None) <=
    pl_preco (mk_plano 2 "Premium" 10000 (Some "Acesso completo")) /\
  In (mk_aluno 2 "33333333333" "Caio" MASCULINO 5000 19990 1)
     (aluno (db_tables
               (atualizar_aluno 2 (mk_AlunoUpdate None None None None None (Some 1) None)
                                db_exemplo))) /\
  atualizar_plano_aluno 20001 2 1 tabelas_exemplo (mk_seqs 2 2 2) =
    (inr ("Erro: O novo plano deve ser mais caro que o atual!", tabelas_exemplo),
     mk_seqs 2 2 2).
Proof.
  assert (Hle : pl_preco (mk_plano 1 "Basic" 5000 None) <=
                pl_preco (mk_plano 2 "Premium" 10000 (Some "Acesso completo")))
    by (simpl; lia).
  split; [exact wf_db_exemplo|]. split; [exact Hle|].
  destruct (@C2_plan_rule_bypassed 20001 db_exemplo 2 1
              (mk_aluno 2 "33333333333" "Caio" MASCULINO 5000 19990 2)
              (mk_plano 2 "Premium" 10000 (Some "Acesso completo"))
              (mk_plano 1 "Basic" 5000 None)
              wf_db_exemplo (or_intror (or_introl eq_refl)) eq_refl
              (or_intror (or_introl eq_refl)) eq_refl (or_introl eq_refl) eq_refl)
    as [H1 [_ [H3 _]]].
  split; [exact H1 | exact (H3 Hle)].
Defined.



Lemma C6_witness :
  wf_db db_exemplo /\
  sem_orfaos (db_tables (snd (deletar_plano 1 db_exemplo))) /\
  ~ In 1 (map al_matricula (aluno (db_tables (snd (deletar_plano 1 db_exemplo))))) /\
  ~ In 1 (map snd (turma_instrutor_aluno (db_tables (snd (deletar_plano 1 db_exemplo))))).
Proof.
  split; [exact wf_db_exemplo|].
  destruct (proj1 (C6_cascade_delete wf_db_exemplo) 1) as [Ho [_ Ha]].
  split; [exact Ho|].
  destruct (Ha (mk_aluno 1 "22222222222" "Bia" FEMININO 5000 19990 1)
               (or_introl eq_refl) eq_refl) as [H1 [_ [_ H4]]].
  split; [exact H1 | exact H4].
Defined.

(** C7 as the specification states it fails: no plan has code 99, and the
    route that deletes it answers with plain success. *)
Lemma C7_counterexample :
  ~ In 99 (map pl_codigo_plano (plano (db_tables db_exemplo))) /\
  deletar_plano 99 db_exemplo = (Reply 204 "Plano deletado com sucesso", db_exemplo).
Proof.
  split; [|reflexivity]. simpl. intros [H|[H|[]]]; discriminate.
Qed.

Lemma C7_witness :
  ~ In 99 (map pl_codigo_plano (plano (db_tables db_exemplo))) /\
  deletar_plano 99 db_exemplo = (Reply 204 "Plano deletado com sucesso", db_exemplo).
Proof.
  assert (H : ~ In 99 (map pl_codigo_plano (plano (db_tables db_exemplo))))
    by (simpl; intros [H|[H|[]]]; discriminate).
  split; [exact H|].
  exact (proj1 (C7_delete_missing db_exemplo) 99 H).
Defined.

(** C8 as stated fails: class 2 has a free seat and no student has the
    number 2147483648, yet the insert does not fail on the foreign key: the
    number is not an [INTEGER], and the store refuses it as such. *)
Lemma C8_counterexample :
  In (mk_turma 2 "Pilates" 1 TARDE 77) (turma (db_tables db_exemplo)) /\
  count_matriculas 2 (db_tables db_exemplo) < 1 /\
  ~ In fora_de_int4 (map al_matricula (aluno (db_tables db_exemplo))) /\
  fst (sql_insert_matricula_turma 2 fora_de_int4 tabelas_exemplo (mk_seqs 2 2 2)) =
    inl DataException /\
  matricular_aluno_turma 2 fora_de_int4 db_exemplo =
    (HTTPError 400 (QueryError DataException), db_exemplo).
Proof.
  split; [simpl; tauto|]. split; [reflexivity|].
  split; [simpl; intros [H|[H|[]]]; discriminate|].
  split; reflexivity.
Qed.

Lemma C8_witness :
  wf_db db_exemplo /\
  count_matriculas 2 (db_tables db_exemplo) < 1 /\
  ~ In 99 (map al_matricula (aluno (db_tables db_exemplo))) /\
  matricular_aluno_turma 2 99 db_exemplo =
    (HTTPError 400 (QueryError (ForeignKeyViolation "turma_instrutor_aluno.matricula")),
     db_exemplo).
Proof.
  assert (H1 : count_matriculas 2 (db_tables db_exemplo) < 1) by reflexivity.
  assert (H2 : ~ In 99 (map al_matricula (aluno (db_tables db_exemplo))))
    by (simpl; intros [H|[H|[]]]; discriminate).
  split; [exact wf_db_exemplo|]. split; [exact H1|]. split; [exact H2|].
  exact (proj2 (proj2 (@C8_enroll_unknown_student 2 99 db_exemplo
                         (mk_turma 2 "Pilates" 1 TARDE 77) wf_db_exemplo
                         (or_intror (or_introl eq_refl)) eq_refl H1 H2))).
Defined.





(** The route that updates a student writes [codigo_plano] through
    [update_aluno], not through [atualizar_plano_aluno]: student 2 moves from
    the plan at 100.00 to the plan at 50.00 and keeps the enrolment date. *)
Example atualizar_aluno_troca_plano :
  aluno (db_tables
           (atualizar_aluno 2 (mk_AlunoUpdate None None None None None (Some 1) None)
                            db_exemplo)) =
  [ mk_aluno 1 "22222222222" "Bia" FEMININO 5000 19990 1;
    mk_aluno 2 "33333333333" "Caio" MASCULINO 5000 19990 1 ].
Proof. reflexivity. Qed.

(** * The further properties on the sample data *)

Lemma wf_db_lotado : wf_db db_lotado.
Proof.
  split; [apply wf_tablesb_sound; reflexivity|].
  constructor; simpl; intros r Hr;
    repeat (destruct Hr as [<-|Hr]; [simpl; lia|]); contradiction.
Qed.

Lemma X1_witness :
  reachable maioridade_exemplo ordem_insercao db_exemplo /\
  chaves_unicas (db_tables db_exemplo) /\ sem_orfaos (db_tables db_exemplo) /\
  vagas_positivas (db_tables db_exemplo) /\
  seqs_ok (db_tables db_exemplo) (db_seqs db_exemplo).
Proof.
  assert (H : reachable maioridade_exemplo ordem_insercao db_exemplo)
    by (apply reachable_sem_reducao_reachable, db_exemplo_reachable).
  split; [exact H|].
  exact (@X1_reachable_integrity maioridade_exemplo ordem_insercao db_exemplo H).
Defined.

Lemma X3_witness :
  matricular_aluno_turma 2 1 db_exemplo =
    (Reply 201 "Aluno matriculado com sucesso", db_lotado) /\
  remover_aluno_turma 2 1 db_lotado =
    (Reply 204 "Aluno removido da turma com sucesso", db_exemplo).
Proof.
  assert (H : matricular_aluno_turma 2 1 db_exemplo =
              (Reply 201 "Aluno matriculado com sucesso", db_lotado)) by reflexivity.
  split; [exact H|].
  exact (@X3_enroll_then_unenroll 2 1 db_exemplo db_lotado
           "Aluno matriculado com sucesso" H).
Defined.

Lemma X4_witness :
  wf_db db_lotado /\
  count_matriculas 2 (db_tables (snd (remover_aluno_turma 2 1 db_lotado))) =
    count_matriculas 2 (db_tables db_lotado) - 1 /\
  fst (matricular_aluno_turma 2 2 (snd (remover_aluno_turma 2 1 db_lotado))) =
    Reply 201 "Aluno matriculado com sucesso".
Proof.
  split; [exact wf_db_lotado|].
  apply (@X4_unenroll_frees_seat 2 1 2 db_lotado (mk_turma 2 "Pilates" 1 TARDE 77)).
  - exact wf_db_lotado.
  - simpl. tauto.
  - reflexivity.
  - vm_compute. discriminate.
  - simpl. tauto.
  - simpl. tauto.
  - simpl. intuition discriminate.
Defined.

Lemma X5_witness :
  wf_db db_exemplo /\
  db_seqs (criar_aluno aluno_exemplo db_exemplo) = mk_seqs 2 3 2 /\
  db_tables (criar_aluno aluno_exemplo db_exemplo) =
    set_contato_aluno
      [ mk_contato_aluno "(11)99999-0001" None 1; mk_contato_aluno "(11)99999-0002" None 2;
        mk_contato_aluno "(11)99999-0003" (Some "davi@exemplo.com") 3 ]
      (set_aluno
         [ mk_aluno 1 "22222222222" "Bia" FEMININO 5000 19990 1;
           mk_aluno 2 "33333333333" "Caio" MASCULINO 5000 19990 2;
           mk_aluno 3 "44444444444" "Davi" MASCULINO 6000 20000 2 ] tabelas_exemplo).
Proof.
  split; [exact wf_db_exemplo|].
  destruct (@X5_criar_aluno_all_or_nothing aluno_exemplo db_exemplo wf_db_exemplo)
    as [H1 [_ [H3 _]]].
  split; [exact H1|].
  apply H3; [reflexivity | vm_compute; intuition discriminate | vm_compute; tauto
            | vm_compute; intuition discriminate].
Defined.

Lemma X6_witness :
  criar_instrutor maioridade_exemplo 20000 instrutor_exemplo db_exemplo =
    mk_db (set_contato_instrutor
             [ mk_contato_instrutor "(11)99999-0000" None 77;
               mk_contato_instrutor "(11)99999-0004" None 88 ]
             (set_instrutor
                [ mk_instrutor 77 "11111111111" "Ana" 1000 19000 MANHA;
                  mk_instrutor 88 "55555555555" "Eva" 2000 19500 NOITE ] tabelas_exemplo))
          (mk_seqs 2 2 2) /\
  criar_instrutor maioridade_exemplo 20000 instrutor_exemplo
    (criar_instrutor maioridade_exemplo 20000 instrutor_exemplo db_exemplo) =
  criar_instrutor maioridade_exemplo 20000 instrutor_exemplo db_exemplo.
Proof.
  split.
  - apply (proj1 (@X6_criar_instrutor_all_or_nothing maioridade_exemplo 20000
                    instrutor_exemplo db_exemplo));
      [reflexivity | reflexivity | vm_compute; intuition discriminate ..].
  - apply (proj2 (@X6_criar_instrutor_all_or_nothing maioridade_exemplo 20000
                    instrutor_exemplo
                    (criar_instrutor maioridade_exemplo 20000 instrutor_exemplo
                                     db_exemplo))).
    right. right. left. vm_compute. tauto.
Defined.

Lemma X8_witness :
  ~ In 9 (map al_matricula (aluno tabelas_exemplo)) /\
  atualizar_plano_aluno 20001 9 1 tabelas_exemplo (mk_seqs 2 2 2) =
    (inr ("Plano alterado com sucesso!", tabelas_exemplo), mk_seqs 2 2 2).
Proof.
  assert (H : ~ In 9 (map al_matricula (aluno tabelas_exemplo)))
    by (simpl; intuition discriminate).
  split; [exact H|].
  exact (@X8_plano_aluno_inexistente 20001 tabelas_exemplo (mk_seqs 2 2 2) 9 1 H).
Defined.

Lemma X9_witness :
  wf_tables tabelas_exemplo /\
  atualizar_plano_aluno 20001 1 9 tabelas_exemplo (mk_seqs 2 2 2) =
    (inl (ForeignKeyViolation "aluno.codigo_plano"), mk_seqs 2 2 2).
Proof.
  assert (Hwf : wf_tables tabelas_exemplo) by (apply wf_tablesb_sound; reflexivity).
  split; [exact Hwf|].
  apply (@X9_plano_novo_inexistente 20001 tabelas_exemplo (mk_seqs 2 2 2) 1 9 Hwf).
  - simpl. tauto.
  - simpl. intuition discriminate.
Defined.

Lemma X10_witness :
  wf_db db_exemplo /\
  atualizar_aluno 2 (mk_AlunoUpdate None None None None None (Some 1) None) db_exemplo =
    mk_db (set_aluno [ mk_aluno 1 "22222222222" "Bia" FEMININO 5000 19990 1;
                       mk_aluno 2 "33333333333" "Caio" MASCULINO 5000 19990 1 ]
                     tabelas_exemplo)
          (mk_seqs 2 2 2).
Proof.
  split; [exact wf_db_exemplo|].
  apply (@X10_atualizar_aluno_troca_plano 2 1 db_exemplo wf_db_exemplo).
  simpl. tauto.
Defined.



(** A price of 99.999 is echoed by the create route and read back as
    100.00. *)
Lemma X13_witness :
  wf_db db_exemplo /\
  fst (criar_plano (mk_PlanoCreate "Gold" (Dec 99999 3) None) db_exemplo) =
    Reply 201 (mk_PlanoResponse 3 "Gold" (Dec 99999 3) None) /\
  fst (buscar_plano 3 (snd (criar_plano (mk_PlanoCreate "Gold" (Dec 99999 3) None)
                                        db_exemplo))) =
    Reply 200 (mk_PlanoResponse 3 "Gold" (Dec 10000 2) None).
Proof.
  split; [exact wf_db_exemplo|].
  destruct (proj1 (@X13_criar_buscar_plano (mk_PlanoCreate "Gold" (Dec 99999 3) None)
                     db_exemplo wf_db_exemplo ltac:(simpl; lia)) eq_refl) as [H1 H2].
  split; [exact H1|]. apply H2. reflexivity.
Defined.

Lemma X14_witness :
  fst (buscar_plano 1 (snd (deletar_plano 1 db_exemplo))) =
  HTTPError 404 (HTTPExc 404 "Plano não encontrado").
Proof. apply (@X14_deletar_buscar_plano 1 db_exemplo). discriminate. Defined.

Lemma X15_witness :
  buscar_instrutor String.leb ordem_inversa 5 db_exemplo =
  (HTTPError 400 (PyExc "Instrutor não encontrado"), db_exemplo).
Proof.
  apply (proj1 (@X15_buscar_instrutor_ausente String.leb ordem_inversa 5 db_exemplo)).
  - discriminate.
  - simpl. intuition discriminate.
Defined.

Lemma X16_witness :
  wf_db db_exemplo /\
  fst (buscar_aluno String.leb ordem_insercao 3 (criar_aluno aluno_exemplo db_exemplo)) =
  Reply 200
    (mk_AlunoDict 3 "44444444444" "Davi" MASCULINO 6000 20000 2
                  (Some (mk_ContatoDict (Some "(11)99999-0003")
                                        (Some "davi@exemplo.com")))).
Proof.
  split; [exact wf_db_exemplo|].
  apply (proj1 (@X16_criar_buscar_aluno String.leb ordem_insercao aluno_exemplo db_exemplo
                  wf_db_exemplo ltac:(simpl; lia))).
  - reflexivity.
  - vm_compute. intuition discriminate.
  - vm_compute. tauto.
  - vm_compute. intuition discriminate.
  - vm_compute. discriminate.
Defined.



(** A class of ten seats is stored; one of 2147483648 seats is refused and
    leaves the sequence where it was. *)
Lemma X20_witness :
  wf_db db_exemplo /\
  criar_turma ordem_insercao (mk_TurmaCreate "Spinning" 10 NOITE 77) db_exemplo =
    mk_db (set_turma [ mk_turma 1 "Yoga" 2 MANHA 77; mk_turma 2 "Pilates" 1 TARDE 77;
                       mk_turma 3 "Spinning" 10 NOITE 77 ] tabelas_exemplo)
          (mk_seqs 2 2 3) /\
  criar_turma ordem_insercao (mk_TurmaCreate "Spinning" fora_de_int4 NOITE 77) db_exemplo =
    db_exemplo /\
  criar_turma ordem_insercao (mk_TurmaCreate "Spinning" 10 NOITE 5) db_exemplo = db_exemplo.
Proof.
  split; [exact wf_db_exemplo|]. split; [|split].
  - apply (proj2 (proj2 (@X20_criar_turma ordem_insercao
                           (mk_TurmaCreate "Spinning" 10 NOITE 77) db_exemplo)
                        wf_db_exemplo ltac:(simpl; tauto))).
    reflexivity.
  - apply (proj1 (proj2 (@X20_criar_turma ordem_insercao
                           (mk_TurmaCreate "Spinning" fora_de_int4 NOITE 77) db_exemplo)
                        wf_db_exemplo ltac:(simpl; tauto))).
    reflexivity.
  - apply (proj1 (@X20_criar_turma ordem_insercao (mk_TurmaCreate "Spinning" 10 NOITE 5)
                    db_exemplo)).
    simpl. intuition discriminate.
Defined.

Lemma X24_witness :
  wf_tables tabelas_exemplo /\
  Permutation
    (map re_matricula (vw_relatorio_alunos idade_exemplo ordem_inversa 20000
                                           tabelas_exemplo))
    (map al_matricula (aluno tabelas_exemplo)).
Proof.
  assert (Hwf : wf_tables tabelas_exemplo) by (apply wf_tablesb_sound; reflexivity).
  split; [exact Hwf|].
  exact (proj1 (@X24_relatorio_um_por_aluno idade_exemplo ordem_inversa 20000
                  tabelas_exemplo Hwf)).
Defined.

Lemma X25_witness :
  criar_bioimpedancia medicao_exemplo db_exemplo =
    mk_db (set_bioimpedancia [ mk_bioimpedancia 1 7050 175 1800 1550 6020 ] tabelas_exemplo)
          (mk_seqs 2 2 2) /\
  fst (buscar_bioimpedancia ordem_insercao 1
         (criar_bioimpedancia medicao_exemplo db_exemplo)) =
    Reply 200 (mk_bioimpedancia 1 7050 175 1800 1550 6020) /\
  criar_bioimpedancia
    (mk_BioimpedanciaCreate 1 (Dec 705 1) (Dec 175 2) fora_de_int4 (Dec 155 1) (Dec 602 1))
    db_exemplo = db_exemplo.
Proof.
  destruct (proj2 (@X25_criar_bioimpedancia ordem_insercao medicao_exemplo db_exemplo))
    as [H1 H2]; [reflexivity | simpl; tauto | simpl; tauto |].
  split; [exact H1|]. split; [apply H2; [discriminate | reflexivity | reflexivity]|].
  apply (proj1 (@X25_criar_bioimpedancia ordem_insercao
                  (mk_BioimpedanciaCreate 1 (Dec 705 1) (Dec 175 2) fora_de_int4
                                          (Dec 155 1) (Dec 602 1)) db_exemplo)).
  left. reflexivity.
Defined.

Lemma X26_witness :
  wf_db db_exemplo /\
  In (mk_plano 2 "Premium" 10000 (Some "Acesso completo"))
     (plano (db_tables (snd (deletar_plano 1 db_exemplo)))) /\
  In (mk_aluno 2 "33333333333" "Caio" MASCULINO 5000 19990 2)
     (aluno (db_tables (snd (deletar_plano 1 db_exemplo)))) /\
  In (1, 2) (turma_instrutor_aluno (db_tables (snd (deletar_plano 1 db_exemplo)))).
Proof.
  split; [exact wf_db_exemplo|].
  destruct (@X26_deletar_plano_frame 1 db_exemplo wf_db_exemplo)
    as [_ [_ [_ [_ [Hp Ha]]]]].
  split; [apply Hp; [simpl; tauto | discriminate]|].
  destruct (Ha (mk_aluno 2 "33333333333" "Caio" MASCULINO 5000 19990 2))
    as [H1 [_ [_ H4]]]; [simpl; tauto | discriminate |].
  split; [exact H1|]. apply H4; [simpl; tauto | reflexivity].
Defined.

Lemma X27_witness :
  wf_db db_exemplo /\
  exists page,
    relatorio_alunos idade_exemplo String.leb ordem_insercao 20000 0 100 db_exemplo =
      (Reply 200 page, db_exemplo) /\
    Permutation (map re_matricula page) (map al_matricula (aluno (db_tables db_exemplo))).
Proof.
  split; [exact wf_db_exemplo|].
  apply (@X27_relatorio_completo idade_exemplo String.leb ordem_insercao 20000 100
           db_exemplo wf_db_exemplo).
  simpl. lia.
Defined.
